(** * Batch converter to MP4: conversion worker, job registry, watch and overall progress

    A shallow embedding of the three GUI converters of the repository
    (universal_to_mp4_gui.py, avi_to_mp4_gui.py, mkv_to_mp4_gui.py).

    - [ConvertWorker.run] is a function from what the worker observes (the
      answer of ffprobe, the result of [subprocess.Popen], the lines read from
      [proc.stderr] interleaved with the calls of [kill] made by the GUI
      thread, the result of [proc.wait]) to the signals it emits and the way
      it completes (it returns, or an exception leaves [run]).
    - [MainWindow] is a record; every slot is a function on it. The dict
      [self.items] keeps insertion order and is an association list.
    - Numbers that are Python floats are rationals ([Q]): rounding is not
      modelled, and a duration is a finite number (a probe that prints [nan]
      or [inf] is outside the model). What is modelled of the limits of the
      numbers is what raises: an integer too large to convert to a float
      ([OverflowError]) and a run of digits longer than the interpreter
      accepts for [int] ([ValueError]).
    - A [string] is a Python [str] whose characters have code points below
      256, one [ascii] per character; the whitespace, digit and letter
      classes are those of [str] on these characters. A [str] with other
      characters is not represented.
    - [os.path.abspath], [float] on the output of ffprobe and the limit of
      [int] on the digits of a text belong to the platform and are fields of
      the class [Platform]. *)

From Stdlib Require Import ZArith QArith Qminmax Qround List String Ascii Bool Lia Lqa.
From Stdlib Require Import DecimalString Sorted.
From stdpp Require Import gmap strings.
Import ListNotations.

Open Scope string_scope.
Open Scope list_scope.

(** ** Python strings *)

Module Py.

(** [c.isspace()]: TAB to CR, FS to US and the space, NEL (U+0085) and the
    no-break space (U+00A0) *)
Definition isspace (c : ascii) : bool :=
  let n := nat_of_ascii c in
  ((9 <=? n)%nat && (n <=? 13)%nat) || ((28 <=? n)%nat && (n <=? 32)%nat) ||
  (n =? 133)%nat || (n =? 160)%nat.

(** the class [\d] of [re] on a [str] pattern, which is also what [int] and
    [float] read as a digit: the decimal digits, of which 0 to 9 are the only
    ones below 256 *)
Definition isdigit (c : ascii) : bool :=
  let n := nat_of_ascii c in (48 <=? n)%nat && (n <=? 57)%nat.

(** [c.lower()]: A to Z, and the capital letters of Latin-1 (U+00C0 to
    U+00DE without the multiplication sign U+00D7) *)
Definition lower_char (c : ascii) : ascii :=
  let n := nat_of_ascii c in
  if ((65 <=? n)%nat && (n <=? 90)%nat) ||
     ((192 <=? n)%nat && (n <=? 222)%nat && negb (n =? 215)%nat)
  then ascii_of_nat (n + 32) else c.

(** [s.lower()] *)
Fixpoint lower (s : string) : string :=
  match s with
  | EmptyString => EmptyString
  | String c r => String (lower_char c) (lower r)
  end.

Fixpoint lstrip (s : string) : string :=
  match s with
  | EmptyString => EmptyString
  | String c r => if isspace c then lstrip r else s
  end.

Fixpoint rev_string (s : string) (acc : string) : string :=
  match s with
  | EmptyString => acc
  | String c r => rev_string r (String c acc)
  end.

Definition rstrip (s : string) : string :=
  rev_string (lstrip (rev_string s "")) "".

(** [s.strip()] *)
Definition strip (s : string) : string := rstrip (lstrip s).

(** truth value of a string: [if s:] *)
Definition truthy (s : string) : bool :=
  match s with EmptyString => false | _ => true end.

Definition startswith (s pre : string) : bool := String.prefix pre s.

Definition endswith (s suf : string) : bool :=
  String.prefix (rev_string suf "") (rev_string s "").

Fixpoint drop (n : nat) (s : string) : string :=
  match n, s with
  | O, _ => s
  | S _, EmptyString => EmptyString
  | S k, String _ r => drop k r
  end.

(** [s[-n:]] for [n > 0] *)
Definition last_chars (n : nat) (s : string) : string :=
  drop (String.length s - n) s.

(** [s.split(sep)] for a one-character separator *)
Fixpoint split_aux (sep : ascii) (s : string) (cur : string) : list string :=
  match s with
  | EmptyString => [rev_string cur ""]
  | String c r =>
      if Ascii.eqb c sep then rev_string cur "" :: split_aux sep r ""
      else split_aux sep r (String c cur)
  end.

Definition split (sep : ascii) (s : string) : list string := split_aux sep s "".

(** longest prefix of decimal digits, and the rest *)
Fixpoint span_digits (s : string) : string * string :=
  match s with
  | EmptyString => (EmptyString, EmptyString)
  | String c r =>
      if isdigit c then let '(d, t) := span_digits r in (String c d, t)
      else (EmptyString, s)
  end.

Fixpoint digits_value (s : string) (acc : N) : option N :=
  match s with
  | EmptyString => Some acc
  | String c r =>
      if isdigit c
      then digits_value r (acc * 10 + N.of_nat (nat_of_ascii c - 48))%N
      else None
  end.

(** [int(s)] on a run of decimal digits; [None] is [ValueError] *)
Definition int (s : string) : option Z :=
  match s with
  | EmptyString => None
  | _ => option_map Z.of_N (digits_value s 0%N)
  end.

(** a run of digits that may be empty, as in "12." and ".5" *)
Definition int_or_zero (s : string) : option Z :=
  match s with
  | EmptyString => Some 0%Z
  | _ => int s
  end.

(** [float(s)] on plain decimal text: digits, with at most one point and
    at least one digit; [None] is [ValueError] *)
Definition float_decimal (s : string) : option Q :=
  match split "."%char s with
  | [i] => option_map inject_Z (int i)
  | [i; f] =>
      match i, f with
      | EmptyString, EmptyString => None
      | _, _ =>
          match int_or_zero i, int_or_zero f with
          | Some a, Some b =>
              Some (inject_Z a + inject_Z b / inject_Z (10 ^ Z.of_nat (String.length f)))%Q
          | _, _ => None
          end
      end
  | _ => None
  end.

(** [str(n)] for an integer *)
Definition str_of_Z (n : Z) : string := NilZero.string_of_int (Z.to_int n).

(** [min(a, b)]: the first argument unless the second is smaller *)
Definition min (a b : Q) : Q := if Qle_bool a b then a else b.

(** [int(x)] for a float: truncation towards zero *)
Definition trunc (x : Q) : Z := if Qle_bool 0 x then Qfloor x else Qceiling x.

(** [a / b] on floats; dividing by zero raises [ZeroDivisionError] *)
Definition truediv (a b : Q) : option Q :=
  if Qeq_bool b 0 then None else Some (a / b)%Q.

(** The least integer that [float(n)], and so [n + x] for a float [x],
    refuses with [OverflowError]: the integers below it round to a float, the
    largest of which is [2^1024 - 2^971]. *)
Definition float_overflow : Z := 2 ^ 1024 - 2 ^ 970.

End Py.

(** ** os.path (POSIX) *)

Module Os.

Fixpoint rfind_aux (c : ascii) (s : string) (i : Z) (found : Z) : Z :=
  match s with
  | EmptyString => found
  | String d r => rfind_aux c r (i + 1) (if Ascii.eqb d c then i else found)
  end.

(** [s.rfind(c)]: the last index of [c], or -1 *)
Definition rfind (c : ascii) (s : string) : Z := rfind_aux c s 0 (-1).

Definition char_at (s : string) (i : Z) : option ascii :=
  if (i <? 0)%Z then None else String.get (Z.to_nat i) s.

(** the loop of [genericpath._splitext] that skips the leading dots of the
    file name: is there a character other than a dot in [filenameIndex, dotIndex) *)
Fixpoint has_non_dot (s : string) (filenameIndex : Z) (n : nat) : bool :=
  match n with
  | O => false
  | S k =>
      match char_at s filenameIndex with
      | Some c => if Ascii.eqb c "."%char then has_non_dot s (filenameIndex + 1) k else true
      | None => true
      end
  end.

(** [os.path.splitext(p)] *)
Definition splitext (p : string) : string * string :=
  let sepIndex := rfind "/"%char p in
  let dotIndex := rfind "."%char p in
  if (sepIndex <? dotIndex)%Z && has_non_dot p (sepIndex + 1) (Z.to_nat (dotIndex - (sepIndex + 1)))
  then (String.substring 0 (Z.to_nat dotIndex) p, Py.drop (Z.to_nat dotIndex) p)
  else (p, EmptyString).

(** [os.path.join(a, b)] *)
Definition join (a b : string) : string :=
  if Py.startswith b "/" then b
  else if negb (Py.truthy a) || Py.endswith a "/" then (a ++ b)%string
  else (a ++ "/" ++ b)%string.

Fixpoint basename_aux (s : string) (cur : string) : string :=
  match s with
  | EmptyString => Py.rev_string cur ""
  | String c r => if Ascii.eqb c "/"%char then basename_aux r "" else basename_aux r (String c cur)
  end.

(** [os.path.basename(p)] *)
Definition basename (p : string) : string := basename_aux p "".

End Os.

(** What the interpreter and the operating system contribute. *)
Class Platform := {
  (** [os.path.abspath] in the working directory of the process *)
  abspath : string -> string;
  (** [float(s)] for a text that denotes a finite number; [None] when it
      raises [ValueError] *)
  float : string -> option Q;
  (** [sys.get_int_max_str_digits()]: the longest run of digits that [int]
      converts, 4300 unless configured; 0 when there is no limit (as before
      Python 3.11) *)
  int_max_str_digits : nat;
  (** [sys.set_int_max_str_digits] accepts 0 and the numbers from
      [sys.int_info.str_digits_check_threshold], which is 640 *)
  int_max_str_digits_ok : int_max_str_digits = 0%nat \/ (640 <= int_max_str_digits)%nat
}.

(** ** Signals, exceptions and what a worker observes *)

(** [WorkerSignals]: one constructor per [pyqtSignal]. *)
Inductive Signal :=
| Started
| Progress (percent : Q)
| Log (text : string)
| Finished (success : bool) (output_path : string).

(** Exceptions derived from [Exception]. *)
Inductive ExcClass :=
| FileNotFoundError
| PermissionError
| OSError
| UnicodeDecodeError
| ValueError
| OverflowError
| ZeroDivisionError.

Record Exc := { exc_class : ExcClass; exc_str : string }.

(** What the loop [for line in proc.stderr] meets, in the order of time:
    a call of [kill] by the GUI thread, the next line of the stream, or an
    exception raised while reading it. The list ends where the stream ends. *)
Inductive StderrEvent :=
| Kill
| Line (raw : string)
| ReadError (e : Exc).

(** A started ffmpeg process: its stderr and the result of [proc.wait()],
    the return code or an exception. *)
Record Process := { stderr : list StderrEvent; wait : Exc + Z }.

(** The world of one [run] of one worker: the result of its call of
    [subprocess.run] on ffprobe (the stdout, or an exception, the expiry of
    the timeout included: 8 seconds in universal_to_mp4_gui.py, 10 in
    avi_to_mp4_gui.py, none in mkv_to_mp4_gui.py) and of [subprocess.Popen]. *)
Record World := { ffprobe : Exc + string; popen : Exc + Process }.

(** How [run] ends: it returns, or an exception leaves it. *)
Inductive Completion :=
| Returns
| Raises (e : Exc).

Record Result := {
  signals : list Signal;
  completion : Completion;
  (** [proc.kill()] was called *)
  proc_killed : bool
}.

(** How the loop over [proc.stderr] is left. *)
Inductive LoopExit :=
| Exhausted
| Cancelled
| Thrown (e : Exc).

(** The fields of a [ConvertWorker] besides its signals, and [kill]. *)
Module ConvertWorker.

Record t := {
  input_path : string;
  output_path : string;
  ffmpeg_path : string;
  ffprobe_path : string;
  _cancel : bool;
  preset_args : list string
}.

(** [__init__] with the default [preset_args] of the caller's variant. *)
Definition init (input_path output_path ffmpeg_path ffprobe_path : string)
    (preset_args : list string) : t :=
  {| input_path := input_path; output_path := output_path;
     ffmpeg_path := ffmpeg_path; ffprobe_path := ffprobe_path;
     _cancel := false; preset_args := preset_args |}.

(** [kill]: only sets the flag. *)
Definition kill (w : t) : t :=
  {| input_path := input_path w; output_path := output_path w;
     ffmpeg_path := ffmpeg_path w; ffprobe_path := ffprobe_path w;
     _cancel := true; preset_args := preset_args w |}.

End ConvertWorker.

(** ** The progress marker *)

(** The group of [time=(\d+:\d+:\d+\.\d+)] matched at the text that follows
    "time=". Each [\d+] is greedy and is followed by a character that is not a
    digit, so no backtracking changes the result. *)
Definition time_group (s : string) : option string :=
  let '(h, r1) := Py.span_digits s in
  match h, r1 with
  | String _ _, String ":" r2 =>
      let '(m, r3) := Py.span_digits r2 in
      match m, r3 with
      | String _ _, String ":" r4 =>
          let '(sec, r5) := Py.span_digits r4 in
          match sec, r5 with
          | String _ _, String "." r6 =>
              let '(frac, _) := Py.span_digits r6 in
              match frac with
              | String _ _ => Some (h ++ ":" ++ m ++ ":" ++ sec ++ "." ++ frac)%string
              | EmptyString => None
              end
          | _, _ => None
          end
      | _, _ => None
      end
  | _, _ => None
  end.

(** [time_re.search(s)]: [m.group(1)] of the leftmost match, [None] if none. *)
Fixpoint time_re_search (s : string) : option string :=
  match s with
  | EmptyString => None
  | String _ r =>
      match (if Py.startswith s "time=" then time_group (Py.drop 5 s) else None) with
      | Some g => Some g
      | None => time_re_search r
      end
  end.

(** ** Conversions that can raise *)

(** The [ValueError] of [int] on more digits than the interpreter accepts. *)
Definition int_digits_error (limit digits : nat) : Exc :=
  {| exc_class := ValueError;
     exc_str := ("Exceeds the limit (" ++ Py.str_of_Z (Z.of_nat limit) ++
                 " digits) for integer string conversion: value has " ++
                 Py.str_of_Z (Z.of_nat digits) ++
                 " digits; use sys.set_int_max_str_digits() to increase the limit")%string |}.

(** The texts below quote their argument as it is; [repr] would escape a
    quote or a control character, which a match of the pattern never holds. *)
Definition int_literal_error (s : string) : Exc :=
  {| exc_class := ValueError;
     exc_str := ("invalid literal for int() with base 10: '" ++ s ++ "'")%string |}.

Definition float_text_error (s : string) : Exc :=
  {| exc_class := ValueError;
     exc_str := ("could not convert string to float: '" ++ s ++ "'")%string |}.

(** The [ValueError] of [h, m, s = parts] when there are not three parts. *)
Definition unpack_error (parts : nat) : Exc :=
  {| exc_class := ValueError;
     exc_str := if (parts <? 3)%nat
                then ("not enough values to unpack (expected 3, got " ++
                      Py.str_of_Z (Z.of_nat parts) ++ ")")%string
                else "too many values to unpack (expected 3)" |}.

Definition overflow_error : Exc :=
  {| exc_class := OverflowError; exc_str := "int too large to convert to float" |}.

(** [int(s)] on a text without sign, blank or underscore: a run of digits
    longer than the limit of the interpreter is refused, whatever its value
    (leading zeros count). *)
Definition int_text {P : Platform} (s : string) : Exc + Z :=
  if negb (int_max_str_digits =? 0)%nat && (int_max_str_digits <? String.length s)%nat
  then inl (int_digits_error int_max_str_digits (String.length s))
  else
    match Py.int s with
    | Some n => inr n
    | None => inl (int_literal_error s)
    end.

(** [int(h)*3600 + int(m)*60 + float(s)] after [h, m, s = tstr.split(":")],
    or the exception raised: by the unpacking, by [int(h)], by [int(m)], by
    [float(s)], or by the last addition, which converts the integer
    [int(h)*3600 + int(m)*60] to a float. Where the float of Python is [inf]
    (seconds, or a sum, beyond the largest float) the exact sum stands here:
    under [min(100.0, ...)] both give 100 with a positive duration and no
    progress value with a negative one. *)
Definition hms_seconds {P : Platform} (tstr : string) : Exc + Q :=
  match Py.split ":"%char tstr with
  | [h; m; s] =>
      match int_text h with
      | inl e => inl e
      | inr h =>
          match int_text m with
          | inl e => inl e
          | inr m =>
              match Py.float_decimal s with
              | None => inl (float_text_error s)
              | Some s =>
                  if (Py.float_overflow <=? h * 3600 + m * 60)%Z then inl overflow_error
                  else inr (inject_Z h * 3600 + inject_Z m * 60 + s)%Q
              end
          end
      end
  | parts => inl (unpack_error (List.length parts))
  end.

(** truth value of [duration]: neither [None] nor [0.0] *)
Definition known (duration : option Q) : option Q :=
  match duration with
  | Some d => if Qeq_bool d 0 then None else Some d
  | None => None
  end.

(** The [Progress] values among the signals, in the order of emission. *)
Fixpoint progress_values (sigs : list Signal) : list Q :=
  match sigs with
  | [] => []
  | Progress p :: r => p :: progress_values r
  | _ :: r => progress_values r
  end.

(** The success flags of the [Finished] signals, in the order of emission. *)
Fixpoint finished_flags (sigs : list Signal) : list bool :=
  match sigs with
  | [] => []
  | Finished ok _ :: r => ok :: finished_flags r
  | _ :: r => finished_flags r
  end.

(** [if s: self.signals.log.emit(s)] *)
Definition log_line (s : string) : list Signal :=
  if Py.truthy s then [Log s] else [].

Definition zero_division : Exc :=
  {| exc_class := ZeroDivisionError; exc_str := "float division by zero" |}.

(** ** The loop over the lines of stderr

    The three workers run the same loop: the flag is tested when a line has
    been read, before anything is done with it; then the line is handled. They
    differ in [handle_line], which gives the signals of one line with the new
    value of [last] (or the exception raised), and in [on_cancel], the signals
    emitted before the [return] of a cancelled run. *)

Section Loop.
Variable handle_line : Q -> string -> list Signal * (Exc + Q).
Variable on_cancel : list Signal.

Fixpoint read_loop (cancel : bool) (last : Q) (evs : list StderrEvent)
  : list Signal * LoopExit :=
  match evs with
  | [] => ([], Exhausted)
  | Kill :: rest => read_loop true last rest
  | ReadError e :: _ => ([], Thrown e)
  | Line line :: rest =>
      if cancel then (on_cancel, Cancelled)
      else
        match handle_line last line with
        | (out, inr last') =>
            let '(more, ex) := read_loop cancel last' rest in
            (out ++ more, ex)
        | (out, inl e) => (out, Thrown e)
        end
  end.

End Loop.

(** ** The worker of universal_to_mp4_gui.py *)

Module Universal.

Section Worker.
Context {P : Platform}.

Definition _get_duration (answer : Exc + string) : option Q :=
  match answer with
  | inr stdout =>
      let out := Py.strip stdout in
      if Py.truthy out then float out else None
  | inl _ => None
  end.

(** [except Exception: return 0.0] *)
Definition _time_to_seconds (tstr : string) : Q :=
  match hms_seconds tstr with
  | inr x => x
  | inl _ => 0
  end.

(** One turn of the loop after the test of the flag: the signals emitted and
    the new value of [last], or the exception raised. *)
Definition handle_line (duration : option Q) (last : Q) (line : string)
  : list Signal * (Exc + Q) :=
  let s := Py.strip line in
  match time_re_search s, known duration with
  | Some g, Some d =>
      let secs := _time_to_seconds g in
      match Py.truediv secs d with
      | None => (log_line s, inl zero_division)
      | Some q =>
          let percent := Py.min 100 (q * 100) in
          if Qle_bool 0.5 (percent - last) || Qeq_bool percent 100
          then (log_line s ++ [Progress percent], inr percent)
          else (log_line s, inr last)
      end
  | _, _ => (log_line s, inr last)
  end.

(** [for line in proc.stderr], from the flag [self._cancel] and [last] *)
Definition read_stderr (duration : option Q)
  : bool -> Q -> list StderrEvent -> list Signal * LoopExit :=
  read_loop (handle_line duration) [Log "Conversion cancelled."; Finished false ""].

(** The handler [except Exception as e] around the loop and [proc.wait()]. *)
Definition on_exception (e : Exc) : list Signal :=
  [Log ("Error: " ++ exc_str e)%string; Finished false ""].

Definition run (w : ConvertWorker.t) (env : World) : Result :=
  let duration := _get_duration (ffprobe env) in
  let head :=
    Started ::
    match duration with
    | None => [Log "Could not read duration (ffprobe). Progress will be approximate."]
    | Some _ => []
    end in
  match popen env with
  | inl e =>
      match exc_class e with
      | FileNotFoundError =>
          {| signals := head ++ [Log "ffmpeg not found. Set path or bundle ffmpeg with the app.";
                                 Finished false ""];
             completion := Returns; proc_killed := false |}
      | _ =>
          {| signals := head ++ [Log ("Failed to start ffmpeg: " ++ exc_str e)%string;
                                 Finished false ""];
             completion := Returns; proc_killed := false |}
      end
  | inr proc =>
      match read_stderr duration (ConvertWorker._cancel w) 0 (stderr proc) with
      | (out, Cancelled) =>
          {| signals := head ++ out; completion := Returns; proc_killed := true |}
      | (out, Thrown e) =>
          {| signals := head ++ out ++ on_exception e; completion := Returns; proc_killed := true |}
      | (out, Exhausted) =>
          match wait proc with
          | inl e =>
              {| signals := head ++ out ++ on_exception e; completion := Returns;
                 proc_killed := true |}
          | inr rc =>
              if (rc =? 0)%Z
              then {| signals := head ++ out ++
                                 [Progress 100; Finished true (ConvertWorker.output_path w)];
                      completion := Returns; proc_killed := false |}
              else {| signals := head ++ out ++
                                 [Log ("ffmpeg exited with code " ++ Py.str_of_Z rc)%string;
                                  Finished false ""];
                      completion := Returns; proc_killed := false |}
          end
      end
  end.

End Worker.

End Universal.

(** ** The worker of avi_to_mp4_gui.py *)

Module Avi.

Section Worker.
Context {P : Platform}.

Definition _get_duration (answer : Exc + string) : option Q :=
  match answer with
  | inr stdout =>
      let out := Py.strip stdout in
      if Py.truthy out then float out else None
  | inl _ => None
  end.

(** [parts = tstr.split(":")]; only the first three parts are read, and
    whatever is raised gives [0.0]: an [IndexError] when there are fewer, the
    [ValueError] of a conversion, the [OverflowError] of the last addition. *)
Definition _time_to_seconds (tstr : string) : Q :=
  match Py.split ":"%char tstr with
  | h :: m :: s :: _ =>
      match int_text h, int_text m, Py.float_decimal s with
      | inr h, inr m, Some s =>
          if (Py.float_overflow <=? h * 3600 + m * 60)%Z then 0
          else (inject_Z h * 3600 + inject_Z m * 60 + s)%Q
      | _, _, _ => 0
      end
  | _ => 0
  end.

(** [duration and duration > 0] *)
Definition positive (duration : option Q) : option Q :=
  match known duration with
  | Some d => if Qle_bool d 0 then None else Some d
  | None => None
  end.

Definition handle_line (duration : option Q) (last_percent : Q) (raw_line : string)
  : list Signal * (Exc + Q) :=
  let line := Py.strip raw_line in
  match time_re_search line with
  | Some tstr =>
      let secs := _time_to_seconds tstr in
      match positive duration with
      | Some d =>
          match Py.truediv secs d with
          | None => (log_line line, inl zero_division)
          | Some q =>
              let percent := Py.min 100 (q * 100) in
              if Qle_bool 0.5 (percent - last_percent) || Qeq_bool percent 100
              then (log_line line ++ [Progress percent], inr percent)
              else (log_line line, inr last_percent)
          end
      | None => (log_line line, inr last_percent)
      end
  | None => (log_line line, inr last_percent)
  end.

(** [for raw_line in process.stderr], from the flag [self._is_killed] and [last_percent] *)
Definition read_stderr (duration : option Q)
  : bool -> Q -> list StderrEvent -> list Signal * LoopExit :=
  read_loop (handle_line duration) [Log "Cancelled."; Finished false ""].

Definition on_exception (e : Exc) : list Signal :=
  [Log ("Error during conversion: " ++ exc_str e)%string; Finished false ""].

(** the text logged on [FileNotFoundError] *)
Definition not_found_text : string :=
  ("ffmpeg executable not found. Please ensure ffmpeg is installed " ++
   "and in PATH or set the path in settings.")%string.

Definition run (w : ConvertWorker.t) (env : World) : Result :=
  let duration := _get_duration (ffprobe env) in
  let head :=
    Started ::
    match duration with
    | None =>
        [Log
  "Could not determine duration (ffprobe missing or failed). Progress may be unavailable."]
    | Some _ => []
    end in
  match popen env with
  | inl e =>
      match exc_class e with
      | FileNotFoundError =>
          {| signals := head ++ [Log not_found_text; Finished false ""];
             completion := Returns; proc_killed := false |}
      | _ =>
          {| signals := head ++ [Log ("Failed to start ffmpeg: " ++ exc_str e)%string;
                                 Finished false ""];
             completion := Returns; proc_killed := false |}
      end
  | inr proc =>
      match read_stderr duration (ConvertWorker._cancel w) 0 (stderr proc) with
      | (out, Cancelled) =>
          {| signals := head ++ out; completion := Returns; proc_killed := true |}
      | (out, Thrown e) =>
          {| signals := head ++ out ++ on_exception e; completion := Returns; proc_killed := true |}
      | (out, Exhausted) =>
          match wait proc with
          | inl e =>
              {| signals := head ++ out ++ on_exception e; completion := Returns;
                 proc_killed := true |}
          | inr rc =>
              if (rc =? 0)%Z
              then {| signals := head ++ out ++
                                 [Progress 100; Finished true (ConvertWorker.output_path w)];
                      completion := Returns; proc_killed := false |}
              else {| signals := head ++ out ++
                                 [Log ("ffmpeg exited with code " ++ Py.str_of_Z rc)%string;
                                  Finished false ""];
                      completion := Returns; proc_killed := false |}
          end
      end
  end.

End Worker.

End Avi.

(** ** The worker of mkv_to_mp4_gui.py *)

Module Mkv.

Section Worker.
Context {P : Platform}.

(** [float(p.stdout.strip())] under a bare [except]. *)
Definition get_duration (answer : Exc + string) : option Q :=
  match answer with
  | inr stdout => float (Py.strip stdout)
  | inl _ => None
  end.

(** The local function [t2s]; nothing catches what it raises. *)
Definition t2s (t : string) : Exc + Q := hms_seconds t.

Definition handle_line (duration : option Q) (last_percent : Q) (raw : string)
  : list Signal * (Exc + Q) :=
  let line := Py.strip raw in
  match time_re_search line, known duration with
  | Some g, Some d =>
      match t2s g with
      | inl e => (log_line line, inl e)
      | inr current =>
          match Py.truediv current d with
          | None => (log_line line, inl zero_division)
          | Some q =>
              let percent := Py.min 100 (q * 100) in
              if Qle_bool 0.5 (percent - last_percent)
              then (log_line line ++ [Progress percent], inr percent)
              else (log_line line, inr last_percent)
          end
      end
  | _, _ => (log_line line, inr last_percent)
  end.

(** [for line in process.stderr], from the flag [self.cancelled] and [last_percent] *)
Definition read_stderr (duration : option Q)
  : bool -> Q -> list StderrEvent -> list Signal * LoopExit :=
  read_loop (handle_line duration) [Finished false ""].

(** Only [FileNotFoundError] is caught around [Popen]; the loop and
    [process.wait()] are under no [try]. *)
Definition run (w : ConvertWorker.t) (env : World) : Result :=
  let duration := get_duration (ffprobe env) in
  let head :=
    Started ::
    match duration with
    | None => [Log "Could not read duration (ffprobe error). Progress may be inaccurate."]
    | Some _ => []
    end in
  match popen env with
  | inl e =>
      match exc_class e with
      | FileNotFoundError =>
          {| signals := head ++ [Log "FFmpeg not found! Set correct ffmpeg path.";
                                 Finished false ""];
             completion := Returns; proc_killed := false |}
      | _ => {| signals := head; completion := Raises e; proc_killed := false |}
      end
  | inr proc =>
      match read_stderr duration (ConvertWorker._cancel w) 0 (stderr proc) with
      | (out, Cancelled) =>
          {| signals := head ++ out; completion := Returns; proc_killed := true |}
      | (out, Thrown e) =>
          {| signals := head ++ out; completion := Raises e; proc_killed := false |}
      | (out, Exhausted) =>
          match wait proc with
          | inl e => {| signals := head ++ out; completion := Raises e; proc_killed := false |}
          | inr rc =>
              if (rc =? 0)%Z
              then {| signals := head ++ out ++
                                 [Progress 100; Finished true (ConvertWorker.output_path w)];
                      completion := Returns; proc_killed := false |}
              else {| signals := head ++ out ++ [Finished false ""];
                      completion := Returns; proc_killed := false |}
          end
      end
  end.

End Worker.

End Mkv.

(** A platform for the examples: the working directory is [/home/user],
    paths are taken as already normalised, [float] reads plain decimals, and
    [int] has the limit of 4300 digits. *)
Definition example_platform : Platform :=
  {| abspath := fun p => if Py.startswith p "/" then p else Os.join "/home/user" p;
     float := Py.float_decimal;
     int_max_str_digits := 4300;
     int_max_str_digits_ok := or_intror (proj1 (Nat.leb_le 640 4300) eq_refl) |}.

Definition example_worker : ConvertWorker.t :=
  ConvertWorker.init "/videos/a.avi" "/videos/a.mp4" "ffmpeg" "ffprobe"
    ["-c:v"; "libx264"; "-preset"; "fast"; "-c:a"; "aac"; "-b:a"; "128k"; "-y"].

(** ** The main window *)

(** [meta["status"]] *)
Inductive Status :=
| Queued
| Running
| Done
| Failed.

Definition Status_eqb (a b : Status) : bool :=
  match a, b with
  | Queued, Queued | Running, Running | Done, Done | Failed, Failed => true
  | _, _ => false
  end.

(** The texts of the label [widget.status]; [TxtPercent p] stands for the
    text [f"{p:.1f}%"]. *)
Inductive StatusText :=
| TxtQueued
| TxtStarting
| TxtRunning
| TxtPercent (p : Q)
| TxtDone
| TxtFailed
| TxtCancelling.

(** [QProgressBar.setValue] on a bar of range 0..100: a value outside the
    range leaves the bar as it is. *)
Definition setValue (bar : Z) (v : Z) : Z :=
  if (0 <=? v)%Z && (v <=? 100)%Z then v else bar.

(** [FileItemWidget]: [progress] is the value of its bar, [status_text] the
    text of its label [status]. *)
Record FileItemWidget := {
  src : string;
  dst : string;
  progress : Z;
  status_text : StatusText
}.

Definition FileItemWidget_init (src_path dst_path : string) : FileItemWidget :=
  {| src := src_path; dst := dst_path; progress := setValue (-1) 0; status_text := TxtQueued |}.

Definition setText (wd : FileItemWidget) (t : StatusText) : FileItemWidget :=
  {| src := src wd; dst := dst wd; progress := progress wd; status_text := t |}.

Definition set_progress (wd : FileItemWidget) (p : Q) : FileItemWidget :=
  {| src := src wd; dst := dst wd; progress := setValue (progress wd) (Py.trunc p);
     status_text := TxtPercent p |}.

Definition set_done (wd : FileItemWidget) (ok : bool) : FileItemWidget :=
  if ok
  then {| src := src wd; dst := dst wd; progress := setValue (progress wd) 100;
          status_text := TxtDone |}
  else setText wd TxtFailed.

(** The dict stored in [self.items]; [worker] refers to a worker of the
    window by its index, [item] to a list item by its number. *)
Record Meta := {
  widget : FileItemWidget;
  item : nat;
  worker : option nat;
  status : Status
}.

(** [self.threadpool]: its capacity and the workers handed to [start], in
    the order of the calls. *)
Record QThreadPool := {
  maxThreadCount : Z;
  started : list nat
}.

(** The text of [self.lbl_overall]: "Overall: 0/0", or
    [f"Overall: {done}/{total} ({avg:.1f}%)"]. *)
Inductive OverallText :=
| OverallNone
| OverallOf (done total : nat) (avg : Q).

Record MainWindow := {
  (** [self.threadpool] *)
  threadpool : QThreadPool;
  (** [self.items]: source path to metadata, in insertion order *)
  items : list (string * Meta);
  (** every [ConvertWorker] created so far; a worker is referred to by its index *)
  workers : list ConvertWorker.t;
  (** number of [QListWidgetItem] created so far; an item is referred to by its number *)
  created : nat;
  ffmpeg_path : string;
  ffprobe_path : string;
  (** [self.watcher.directories()] *)
  watcher : gset string;
  (** [self.watched] *)
  watched : gset string;
  (** the rows of [self.list_widget], by item *)
  list_widget : list nat;
  (** [self.chk_watch.isChecked()] *)
  chk_watch : bool;
  (** [self.line_ffmpeg.text()] *)
  line_ffmpeg : string;
  (** value of the bar [self.overall] *)
  overall : Z;
  lbl_overall : OverallText;
  (** [self.log.text()] *)
  log : string;
  (** the [QMessageBox.information] boxes shown, title and text *)
  dialogs : list (string * string)
}.

(** Assignments to one attribute of the window. *)
Definition set_threadpool (w : MainWindow) (v : QThreadPool) : MainWindow :=
  {| threadpool := v; items := items w; workers := workers w; created := created w;
     ffmpeg_path := ffmpeg_path w; ffprobe_path := ffprobe_path w;
     watcher := watcher w; watched := watched w; list_widget := list_widget w;
     chk_watch := chk_watch w; line_ffmpeg := line_ffmpeg w; overall := overall w;
     lbl_overall := lbl_overall w; log := log w; dialogs := dialogs w |}.

Definition set_items (w : MainWindow) (v : list (string * Meta)) : MainWindow :=
  {| threadpool := threadpool w; items := v; workers := workers w; created := created w;
     ffmpeg_path := ffmpeg_path w; ffprobe_path := ffprobe_path w;
     watcher := watcher w; watched := watched w; list_widget := list_widget w;
     chk_watch := chk_watch w; line_ffmpeg := line_ffmpeg w; overall := overall w;
     lbl_overall := lbl_overall w; log := log w; dialogs := dialogs w |}.

Definition set_workers (w : MainWindow) (v : list ConvertWorker.t) : MainWindow :=
  {| threadpool := threadpool w; items := items w; workers := v; created := created w;
     ffmpeg_path := ffmpeg_path w; ffprobe_path := ffprobe_path w;
     watcher := watcher w; watched := watched w; list_widget := list_widget w;
     chk_watch := chk_watch w; line_ffmpeg := line_ffmpeg w; overall := overall w;
     lbl_overall := lbl_overall w; log := log w; dialogs := dialogs w |}.

Definition set_created (w : MainWindow) (v : nat) : MainWindow :=
  {| threadpool := threadpool w; items := items w; workers := workers w; created := v;
     ffmpeg_path := ffmpeg_path w; ffprobe_path := ffprobe_path w;
     watcher := watcher w; watched := watched w; list_widget := list_widget w;
     chk_watch := chk_watch w; line_ffmpeg := line_ffmpeg w; overall := overall w;
     lbl_overall := lbl_overall w; log := log w; dialogs := dialogs w |}.

Definition set_ffmpeg_path (w : MainWindow) (v : string) : MainWindow :=
  {| threadpool := threadpool w; items := items w; workers := workers w;
     created := created w; ffmpeg_path := v; ffprobe_path := ffprobe_path w;
     watcher := watcher w; watched := watched w; list_widget := list_widget w;
     chk_watch := chk_watch w; line_ffmpeg := line_ffmpeg w; overall := overall w;
     lbl_overall := lbl_overall w; log := log w; dialogs := dialogs w |}.

Definition set_ffprobe_path (w : MainWindow) (v : string) : MainWindow :=
  {| threadpool := threadpool w; items := items w; workers := workers w;
     created := created w; ffmpeg_path := ffmpeg_path w; ffprobe_path := v;
     watcher := watcher w; watched := watched w; list_widget := list_widget w;
     chk_watch := chk_watch w; line_ffmpeg := line_ffmpeg w; overall := overall w;
     lbl_overall := lbl_overall w; log := log w; dialogs := dialogs w |}.

Definition set_watcher (w : MainWindow) (v : gset string) : MainWindow :=
  {| threadpool := threadpool w; items := items w; workers := workers w;
     created := created w; ffmpeg_path := ffmpeg_path w;
     ffprobe_path := ffprobe_path w; watcher := v; watched := watched w;
     list_widget := list_widget w; chk_watch := chk_watch w;
     line_ffmpeg := line_ffmpeg w; overall := overall w; lbl_overall := lbl_overall w;
     log := log w; dialogs := dialogs w |}.

Definition set_watched (w : MainWindow) (v : gset string) : MainWindow :=
  {| threadpool := threadpool w; items := items w; workers := workers w;
     created := created w; ffmpeg_path := ffmpeg_path w;
     ffprobe_path := ffprobe_path w; watcher := watcher w; watched := v;
     list_widget := list_widget w; chk_watch := chk_watch w;
     line_ffmpeg := line_ffmpeg w; overall := overall w; lbl_overall := lbl_overall w;
     log := log w; dialogs := dialogs w |}.

Definition set_list_widget (w : MainWindow) (v : list nat) : MainWindow :=
  {| threadpool := threadpool w; items := items w; workers := workers w;
     created := created w; ffmpeg_path := ffmpeg_path w;
     ffprobe_path := ffprobe_path w; watcher := watcher w; watched := watched w;
     list_widget := v; chk_watch := chk_watch w; line_ffmpeg := line_ffmpeg w;
     overall := overall w; lbl_overall := lbl_overall w; log := log w;
     dialogs := dialogs w |}.

Definition set_chk_watch (w : MainWindow) (v : bool) : MainWindow :=
  {| threadpool := threadpool w; items := items w; workers := workers w;
     created := created w; ffmpeg_path := ffmpeg_path w;
     ffprobe_path := ffprobe_path w; watcher := watcher w; watched := watched w;
     list_widget := list_widget w; chk_watch := v; line_ffmpeg := line_ffmpeg w;
     overall := overall w; lbl_overall := lbl_overall w; log := log w;
     dialogs := dialogs w |}.

Definition set_line_ffmpeg (w : MainWindow) (v : string) : MainWindow :=
  {| threadpool := threadpool w; items := items w; workers := workers w;
     created := created w; ffmpeg_path := ffmpeg_path w;
     ffprobe_path := ffprobe_path w; watcher := watcher w; watched := watched w;
     list_widget := list_widget w; chk_watch := chk_watch w; line_ffmpeg := v;
     overall := overall w; lbl_overall := lbl_overall w; log := log w;
     dialogs := dialogs w |}.

Definition set_overall (w : MainWindow) (v : Z) : MainWindow :=
  {| threadpool := threadpool w; items := items w; workers := workers w;
     created := created w; ffmpeg_path := ffmpeg_path w;
     ffprobe_path := ffprobe_path w; watcher := watcher w; watched := watched w;
     list_widget := list_widget w; chk_watch := chk_watch w;
     line_ffmpeg := line_ffmpeg w; overall := v; lbl_overall := lbl_overall w;
     log := log w; dialogs := dialogs w |}.

Definition set_lbl_overall (w : MainWindow) (v : OverallText) : MainWindow :=
  {| threadpool := threadpool w; items := items w; workers := workers w;
     created := created w; ffmpeg_path := ffmpeg_path w;
     ffprobe_path := ffprobe_path w; watcher := watcher w; watched := watched w;
     list_widget := list_widget w; chk_watch := chk_watch w;
     line_ffmpeg := line_ffmpeg w; overall := overall w; lbl_overall := v;
     log := log w; dialogs := dialogs w |}.

Definition set_log (w : MainWindow) (v : string) : MainWindow :=
  {| threadpool := threadpool w; items := items w; workers := workers w;
     created := created w; ffmpeg_path := ffmpeg_path w;
     ffprobe_path := ffprobe_path w; watcher := watcher w; watched := watched w;
     list_widget := list_widget w; chk_watch := chk_watch w;
     line_ffmpeg := line_ffmpeg w; overall := overall w; lbl_overall := lbl_overall w;
     log := v; dialogs := dialogs w |}.

Definition set_dialogs (w : MainWindow) (v : list (string * string)) : MainWindow :=
  {| threadpool := threadpool w; items := items w; workers := workers w;
     created := created w; ffmpeg_path := ffmpeg_path w;
     ffprobe_path := ffprobe_path w; watcher := watcher w; watched := watched w;
     list_widget := list_widget w; chk_watch := chk_watch w;
     line_ffmpeg := line_ffmpeg w; overall := overall w; lbl_overall := lbl_overall w;
     log := log w; dialogs := v |}.

(** *** The dict [self.items] *)

(** [self.items.get(path)] *)
Fixpoint get (its : list (string * Meta)) (path : string) : option Meta :=
  match its with
  | [] => None
  | (k, m) :: r => if String.eqb k path then Some m else get r path
  end.

(** [path in self.items] *)
Definition contains (its : list (string * Meta)) (path : string) : bool :=
  match get its path with Some _ => true | None => false end.

(** assignment to the entry of an existing key: its place is kept *)
Fixpoint replace (its : list (string * Meta)) (path : string) (m : Meta) : list (string * Meta) :=
  match its with
  | [] => []
  | (k, m0) :: r => if String.eqb k path then (k, m) :: r else (k, m0) :: replace r path m
  end.

(** [self.items.pop(path, None)]: the dict without the key *)
Fixpoint pop (its : list (string * Meta)) (path : string) : list (string * Meta) :=
  match its with
  | [] => []
  | (k, m) :: r => if String.eqb k path then r else (k, m) :: pop r path
  end.

(** [QListWidget.takeItem(row(item))] *)
Fixpoint takeItem (rows : list nat) (it : nat) : list nat :=
  match rows with
  | [] => []
  | r :: rest => if Nat.eqb r it then rest else r :: takeItem rest it
  end.

(** [kill] on the worker of index [i] *)
Fixpoint kill_at (ws : list ConvertWorker.t) (i : nat) : list ConvertWorker.t :=
  match ws, i with
  | [], _ => []
  | x :: r, O => ConvertWorker.kill x :: r
  | x :: r, S k => x :: kill_at r k
  end.

Definition count_status (s : Status) (its : list (string * Meta)) : nat :=
  List.length (List.filter (fun e => Status_eqb (status (snd e)) s) its).

(** the number of jobs registered under the key [path] *)
Definition count_jobs (path : string) (its : list (string * Meta)) : nat :=
  List.length (List.filter (fun e => String.eqb (fst e) path) its).

(** *** The slots of [MainWindow]

    The three programs differ in the test on the file name, in the limit of
    the log text and in the preset arguments; the slots below are those of
    universal_to_mp4_gui.py, with these three as parameters. *)

Definition nl : string := String (ascii_of_nat 10) EmptyString.

(** [a or b] on strings *)
Definition or_else (a b : string) : string := if Py.truthy a then a else b.

(** [QThreadPool.start(worker)] as the window sees it: the worker is handed over. *)
Definition start (pool : QThreadPool) (ref : nat) : QThreadPool :=
  {| maxThreadCount := maxThreadCount pool; started := started pool ++ [ref] |}.

Definition setMaxThreadCount (pool : QThreadPool) (n : Z) : QThreadPool :=
  {| maxThreadCount := n; started := started pool |}.

Definition with_widget (m : Meta) (wd : FileItemWidget) : Meta :=
  {| widget := wd; item := item m; worker := worker m; status := status m |}.

Section Slots.
Context {P : Platform}.
(** the test of [_add_file] on the path as given *)
Variable accepts : string -> bool.
(** the number of characters kept in the log *)
Variable log_limit : Z.
Variable preset_args : list string.

Definition _log (w : MainWindow) (text : string) : MainWindow :=
  let cur := log w in
  let new := (cur ++ (if Py.truthy cur then nl else "") ++ text)%string in
  set_log w (if (log_limit <? Z.of_nat (String.length new))%Z
             then Py.last_chars (Z.to_nat log_limit) new else new).

Definition _add_file (w : MainWindow) (path : string) : MainWindow :=
  if negb (accepts path) then w
  else
    let path := abspath path in
    if contains (items w) path then w
    else
      let out := (fst (Os.splitext path) ++ ".mp4")%string in
      let wd := FileItemWidget_init path out in
      let it := created w in
      let w := set_created w (S it) in
      let w := set_list_widget w (list_widget w ++ [it]) in
      let w := set_items w (items w ++
                 [(path, {| widget := wd; item := it; worker := None; status := Queued |})]) in
      _log w ("Queued: " ++ path)%string.

Definition _watch_folder (w : MainWindow) (folder : string) : MainWindow :=
  if bool_decide (folder ∈ watched w) then w
  else
    let w := set_watched w (watched w ∪ {[folder]}) in
    let w := set_watcher w (watcher w ∪ {[folder]}) in
    _log w ("Watching: " ++ folder)%string.

(** the inner loop of [_scan_folder] over the files of one directory *)
Fixpoint scan_files (w : MainWindow) (root : string) (files : list string) (count : Z)
  : MainWindow * Z :=
  match files with
  | [] => (w, count)
  | fn :: rest =>
      if accepts fn
      then scan_files (_add_file w (Os.join root fn)) root rest (count + 1)
      else scan_files w root rest count
  end.

(** the loop of [_scan_folder] over [os.walk(folder)], given as the list of
    the directories visited with their files *)
Fixpoint scan_walk (w : MainWindow) (walk : list (string * list string)) (count : Z)
  : MainWindow * Z :=
  match walk with
  | [] => (w, count)
  | (root, files) :: rest =>
      let '(w, count) := scan_files w root files count in
      scan_walk w rest count
  end.

Definition _scan_folder (w : MainWindow) (folder : string)
    (walk : list (string * list string)) : MainWindow :=
  let '(w, count) := scan_walk w walk 0 in
  let w := _log w ("Scanned " ++ folder ++ ": " ++ Py.str_of_Z count ++ " files found.")%string in
  if chk_watch w then _watch_folder w folder else w.

Definition _on_folder_changed (w : MainWindow) (folder : string)
    (walk : list (string * list string)) : MainWindow :=
  let w := _log w ("Folder changed: " ++ folder ++ " — rescanning")%string in
  _scan_folder w folder walk.

Definition _toggle_watch (w : MainWindow) (state : Z) : MainWindow :=
  if (state =? 0)%Z
  then
    let w := set_watcher w (watcher w ∖ watched w) in
    let w := set_watched w ∅ in
    _log w "Stopped watching folders."
  else w.

Definition _start_conversion (w : MainWindow) (src_path : string) : MainWindow :=
  match get (items w) src_path with
  | None => w
  | Some meta =>
      let wd := widget meta in
      let out := dst wd in
      let worker := ConvertWorker.init src_path out (ffmpeg_path w) (ffprobe_path w) preset_args in
      let ref := List.length (workers w) in
      let w := set_workers w (workers w ++ [worker]) in
      let w := set_items w (replace (items w) src_path
                 {| widget := setText wd TxtStarting; item := item meta;
                    worker := Some ref; status := Running |}) in
      let w := set_threadpool w (start (threadpool w) ref) in
      _log w ("Started: " ++ src_path)%string
  end.

(** [which] is the answer of [shutil.which("ffprobe")]. *)
Definition start_all (w : MainWindow) (which : option string) : MainWindow :=
  let w := set_ffmpeg_path w (or_else (Py.strip (line_ffmpeg w)) (ffmpeg_path w)) in
  let w := set_ffprobe_path w
             (match which with Some p => or_else p (ffprobe_path w) | None => ffprobe_path w end) in
  let queue := map fst (List.filter (fun e => match status (snd e) with
                                          | Queued | Failed => true
                                          | _ => false
                                          end) (items w)) in
  match queue with
  | [] => set_dialogs w (dialogs w ++ [("Nothing to convert", "No queued files.")])
  | _ => fold_left _start_conversion queue w
  end.

Definition _on_started (w : MainWindow) (src : string) : MainWindow :=
  match get (items w) src with
  | Some m => set_items w (replace (items w) src (with_widget m (setText (widget m) TxtRunning)))
  | None => w
  end.

Definition _on_progress (w : MainWindow) (src : string) (percent : Q) : MainWindow :=
  match get (items w) src with
  | Some m => set_items w (replace (items w) src (with_widget m (set_progress (widget m) percent)))
  | None => w
  end.

Definition _on_finished (w : MainWindow) (src : string) (ok : bool) (outpath : string)
  : MainWindow :=
  match get (items w) src with
  | None => w
  | Some m =>
      let w := set_items w (replace (items w) src
                 {| widget := set_done (widget m) ok; item := item m; worker := None;
                    status := if ok then Done else Failed |}) in
      if ok then _log w ("Finished: " ++ src ++ " → " ++ outpath)%string
      else _log w ("Failed: " ++ src)%string
  end.

(** one turn of the loop of [stop_all] *)
Definition stop_one (w : MainWindow) (e : string * Meta) : MainWindow :=
  match worker (snd e) with
  | Some ref =>
      let w := set_workers w (kill_at (workers w) ref) in
      match get (items w) (fst e) with
      | Some m =>
          set_items w (replace (items w) (fst e) (with_widget m (setText (widget m) TxtCancelling)))
      | None => w
      end
  | None => w
  end.

Definition stop_all (w : MainWindow) : MainWindow :=
  _log (fold_left stop_one (items w) w) "Stop requested.".

Definition _remove_item (w : MainWindow) (src : string) : MainWindow :=
  match get (items w) src with
  | Some meta =>
      let w := set_items w (pop (items w) src) in
      let w := set_list_widget w (takeItem (list_widget w) (item meta)) in
      _log w ("Removed: " ++ src)%string
  | None => w
  end.

Definition _cancel_item (w : MainWindow) (src : string) : MainWindow :=
  match get (items w) src with
  | None => w
  | Some m =>
      match worker m with
      | Some ref =>
          let w := set_workers w (kill_at (workers w) ref) in
          set_items w (replace (items w) src (with_widget m (setText (widget m) TxtCancelling)))
      | None => _remove_item w src
      end
  end.

Definition _set_threads (w : MainWindow) (n : Z) : MainWindow :=
  set_threadpool w (setMaxThreadCount (threadpool w) n).

(** [sum(m["widget"].progress.value() for m in self.items.values())] *)
Definition sum_progress (its : list (string * Meta)) : Z :=
  fold_right (fun e acc => (progress (widget (snd e)) + acc)%Z) 0%Z its.

(** the value of [avg] in [_refresh_overall], for a registry that is not empty *)
Definition average (its : list (string * Meta)) : Q :=
  (inject_Z (sum_progress its) / inject_Z (Z.of_nat (List.length its)))%Q.

Definition _refresh_overall (w : MainWindow) : MainWindow :=
  let total := List.length (items w) in
  match total with
  | O => set_lbl_overall (set_overall w (setValue (overall w) 0)) OverallNone
  | _ =>
      let done := count_status Done (items w) in
      let avg := average (items w) in
      set_lbl_overall (set_overall w (setValue (overall w) (Py.trunc avg)))
                      (OverallOf done total avg)
  end.

Definition browse_ffmpeg (w : MainWindow) (path : string) : MainWindow :=
  if Py.truthy path then set_ffmpeg_path (set_line_ffmpeg w path) path else w.

(** *** Executions of the window *)

(** What the event loop delivers to the window: the actions of the user with
    what the dialogs and the file system answer, the notifications of the
    watcher, the signals of the workers, and [Refresh], a call of
    [_refresh_overall]. The timer that makes this call is a field of the
    window in avi_to_mp4_gui.py and a local variable of [_build_ui] in the
    other two programs. *)
Inductive Event :=
| AddFile (path : string)
| ScanFolder (folder : string) (walk : list (string * list string))
| FolderChanged (folder : string) (walk : list (string * list string))
| ToggleWatch (state : Z)
| EditFfmpeg (text : string)
| BrowseFfmpeg (path : string)
| StartAll (which : option string)
| StopAll
| CancelItem (src : string)
| SetThreads (n : Z)
| Refresh
| SigStarted (src : string)
| SigProgress (src : string) (percent : Q)
| SigFinished (src : string) (ok : bool) (outpath : string)
| SigLog (text : string).

Definition handle (w : MainWindow) (ev : Event) : MainWindow :=
  match ev with
  | AddFile path => _add_file w path
  | ScanFolder folder walk => _scan_folder w folder walk
  | FolderChanged folder walk => _on_folder_changed w folder walk
  | ToggleWatch state => _toggle_watch (set_chk_watch w (negb (state =? 0)%Z)) state
  | EditFfmpeg text => set_line_ffmpeg w text
  | BrowseFfmpeg path => browse_ffmpeg w path
  | StartAll which => start_all w which
  | StopAll => stop_all w
  | CancelItem src => _cancel_item w src
  | SetThreads n => _set_threads w n
  | Refresh => _refresh_overall w
  | SigStarted src => _on_started w src
  | SigProgress src percent => _on_progress w src percent
  | SigFinished src ok outpath => _on_finished w src ok outpath
  | SigLog text => _log w text
  end.

(** A signal of a worker reaches the window only while [meta["worker"]] of
    its job is set: a worker emits [finished] last, and the slot of
    [finished] is the one that clears the entry. The signal [log] is
    connected to [_log] itself and does not name its job: it reaches the
    window while some job has its worker set. *)
Definition deliverable (w : MainWindow) (ev : Event) : bool :=
  match ev with
  | SigStarted src | SigProgress src _ | SigFinished src _ _ =>
      match get (items w) src with
      | Some m => match worker m with Some _ => true | None => false end
      | None => false
      end
  | SigLog _ =>
      existsb (fun e => match worker (snd e) with Some _ => true | None => false end) (items w)
  | _ => true
  end.

(** [run_events w evs]: the window after the deliverable events of [evs];
    an event that is not deliverable is skipped. *)
Fixpoint run_events (w : MainWindow) (evs : list Event) : MainWindow :=
  match evs with
  | [] => w
  | ev :: rest => run_events (if deliverable w ev then handle w ev else w) rest
  end.

End Slots.

(** [MainWindow.__init__]: [ideal] is the default capacity of the pool,
    [ffmpeg] and [ffprobe] what [_detect_bundled_ffmpeg] returns. *)
Definition MainWindow_init (ideal : Z) (ffmpeg ffprobe : string) : MainWindow :=
  {| threadpool := {| maxThreadCount := ideal; started := [] |};
     items := []; workers := []; created := 0;
     ffmpeg_path := ffmpeg; ffprobe_path := ffprobe;
     watcher := ∅; watched := ∅; list_widget := [];
     chk_watch := false; line_ffmpeg := ffmpeg; overall := (-1)%Z;
     lbl_overall := OverallNone; log := ""; dialogs := [] |}.

(** The windows reached from a fresh one. *)
Definition reachable {P : Platform} (accepts : string -> bool) (log_limit : Z)
    (preset_args : list string) (w : MainWindow) : Prop :=
  exists ideal ffmpeg ffprobe evs,
    w = run_events accepts log_limit preset_args (MainWindow_init ideal ffmpeg ffprobe) evs.

(** *** The three programs *)

Definition INPUT_EXTS : list string :=
  [".avi"; ".mkv"; ".mov"; ".wmv"; ".flv"; ".mts"; ".mpg"; ".mpeg"; ".mp4"; ".m4v";
   ".3gp"; ".3g2"; ".ts"; ".webm"; ".vob"].

(** [os.path.splitext(path)[1].lower() in INPUT_EXTS] *)
Definition universal_accepts (path : string) : bool :=
  existsb (String.eqb (Py.lower (snd (Os.splitext path)))) INPUT_EXTS.

Definition universal_preset : list string :=
  ["-c:v"; "libx264"; "-preset"; "fast"; "-c:a"; "aac"; "-b:a"; "128k"; "-y"].

(** [filepath.lower().endswith(".avi")] *)
Definition avi_accepts (filepath : string) : bool := Py.endswith (Py.lower filepath) ".avi".

(** [path.lower().endswith(".mkv")] *)
Definition mkv_accepts (path : string) : bool := Py.endswith (Py.lower path) ".mkv".

(** [MainWindow.update_watch] of avi_to_mp4_gui.py, where [self.watched] is
    called [watched_folders]; [exists_] is [os.path.exists]. *)
Definition avi_update_watch (log_limit : Z) (exists_ : string -> bool)
    (w : MainWindow) (state : Z) : MainWindow :=
  if (state =? 2)%Z
  then set_watcher w (watcher w ∪ filter (fun p => exists_ p = true) (watched w))
  else
    let w := set_watcher w (watcher w ∖ watched w) in
    let w := set_watched w ∅ in
    _log log_limit w "Stopped watching folders.".

(** ** Properties of the signals of a run *)

(** What the guard [percent - last >= 0.5 or percent == 100.0] gives of the
    progress values: each one is at least 0.5 above the one before it
    ([prev] for the first), or is 100, wherever it stands. *)
Fixpoint paced (prev : Q) (l : list Q) : Prop :=
  match l with
  | [] => True
  | p :: r => ((0.5 <= p - prev)%Q \/ (p == 100)%Q) /\ paced p r
  end.

(** Pacing as the specification has it: consecutive progress values differ
    by at least 0.5, except that the last value of the run, when it is 100,
    may follow by less. *)
Fixpoint spaced (l : list Q) : Prop :=
  match l with
  | a :: (b :: r) as t => ((0.5 <= b - a)%Q \/ (r = [] /\ (b == 100)%Q)) /\ spaced t
  | _ => True
  end.

(** Each value is at least 0.5 above the one before it, [prev] for the first. *)
Fixpoint gapped (prev : Q) (l : list Q) : Prop :=
  match l with
  | [] => True
  | p :: r => (0.5 <= p - prev)%Q /\ gapped p r
  end.

(** Pacing, together with: no value is below the one before it, none exceeds 100. *)
Fixpoint steady (prev : Q) (l : list Q) : Prop :=
  match l with
  | [] => True
  | p :: r =>
      ((0.5 <= p - prev)%Q \/ (p == 100)%Q) /\ (prev <= p)%Q /\ (p <= 100)%Q /\ steady p r
  end.

(** What one turn of the loop may do with [last]: keep it and emit no
    progress, or emit one progress value that is paced after [last], is at
    most 100 and becomes the new [last]; a turn that raises emits none. *)
Definition by_rule (last : Q) (res : list Signal * (Exc + Q)) : Prop :=
  finished_flags (fst res) = [] /\
  match snd res with
  | inl _ => progress_values (fst res) = []
  | inr last' =>
      (progress_values (fst res) = [] /\ last' = last) \/
      (progress_values (fst res) = [last'] /\
       ((0.5 <= last' - last)%Q \/ (last' == 100)%Q) /\ (last' <= 100)%Q)
  end.

(** The rule of a turn of the loop whose guard is [percent - last >= 0.5]
    alone: it keeps [last] and emits no progress, or emits one value that is
    at least 0.5 above [last] and becomes the new [last]. *)
Definition by_gap (last : Q) (res : list Signal * (Exc + Q)) : Prop :=
  match snd res with
  | inl _ => progress_values (fst res) = []
  | inr last' =>
      (progress_values (fst res) = [] /\ last' = last) \/
      (progress_values (fst res) = [last'] /\ (0.5 <= last' - last)%Q)
  end.

(** The signals of the lines of a stream when no line yields a progress value. *)
Definition plain_logs (lines : list string) : list Signal :=
  flat_map (fun line => log_line (Py.strip line)) lines.

(** The event is a read of the stream: a line or an exception, not a [kill]. *)
Definition is_read (ev : StderrEvent) : bool :=
  match ev with
  | Kill => false
  | _ => true
  end.

(** [finished] was emitted with [success=True]. *)
Definition succeeded (r : Result) : bool :=
  existsb (fun ok => ok) (finished_flags (signals r)).

(** The throttle of one turn of the loop: at most one progress value; when
    there is one it is at least 0.5 above [last] or is 100, and it is the
    new [last]; when there is none [last] is kept. *)
Definition throttled (last : Q) (res : list Signal * (Exc + Q)) : Prop :=
  match progress_values (fst res), snd res with
  | [], inr last' => last' = last
  | [], inl _ => True
  | [p], inr last' => last' = p /\ ((0.5 <= p - last)%Q \/ (p == 100)%Q)
  | _, _ => False
  end.

(** A run of two minutes that reports every half minute and ends well. *)
Definition two_minutes : World :=
  {| ffprobe := inr "120.000000";
     popen := inr {| stderr := [Line "ffmpeg version 6.0";
                                Line "frame=  720 fps= 24 time=00:00:30.00 bitrate= 900kbits/s";
                                Line "frame=  725 fps= 24 time=00:00:30.20 bitrate= 900kbits/s";
                                Line "frame= 1440 fps= 24 time=00:01:00.00 bitrate= 900kbits/s";
                                Line "frame= 2880 fps= 24 time=00:02:00.04 bitrate= 900kbits/s"];
                     wait := inr 0%Z |} |}.

(** ffprobe reports ten seconds; ffmpeg reports five seconds and then,
    three times, a time past the ten seconds, and ends well. *)
Definition past_the_end : World :=
  {| ffprobe := inr "10.000000";
     popen := inr {| stderr := [Line "frame=  120 fps= 24 time=00:00:05.00 bitrate= 900kbits/s";
                                Line "frame=  480 fps= 24 time=00:00:20.00 bitrate= 900kbits/s";
                                Line "frame=  720 fps= 24 time=00:00:30.00 bitrate= 900kbits/s";
                                Line "frame=  960 fps= 24 time=00:00:40.00 bitrate= 900kbits/s"];
                     wait := inr 0%Z |} |}.

(** The last line has been read when [kill] is called; ffmpeg then ends
    with return code zero. *)
Definition cancelled_late : World :=
  {| ffprobe := inr "120.000000";
     popen := inr {| stderr := [Line "frame= 2870 fps= 24 time=00:01:59.50 bitrate= 900kbits/s";
                                Kill];
                     wait := inr 0%Z |} |}.

(** [kill] is called while ffmpeg still writes lines. *)
Definition cancelled_early : World :=
  {| ffprobe := inr "120.000000";
     popen := inr {| stderr := [Line "frame=  720 fps= 24 time=00:00:30.00 bitrate= 900kbits/s";
                                Kill;
                                Line "frame= 1440 fps= 24 time=00:01:00.00 bitrate= 900kbits/s"];
                     wait := inr 0%Z |} |}.

Definition permission_denied : Exc :=
  {| exc_class := PermissionError; exc_str := "[Errno 13] Permission denied: 'ffmpeg'" |}.

Definition undecodable : Exc :=
  {| exc_class := UnicodeDecodeError;
     exc_str := "'utf-8' codec can't decode byte 0xff in position 0: invalid start byte" |}.

(** The file at [ffmpeg_path] exists and is not executable. *)
Definition ffmpeg_not_executable : World :=
  {| ffprobe := inr "120.000000"; popen := inl permission_denied |}.

(** ffmpeg writes a line that is not valid text. *)
Definition stderr_undecodable : World :=
  {| ffprobe := inr "120.000000";
     popen := inr {| stderr := [Line "ffmpeg version 6.0"; ReadError undecodable];
                     wait := inr 0%Z |} |}.

Definition no_duration_lines : list string :=
  ["ffmpeg version 6.0"; "frame=  720 fps= 24 time=00:00:30.00 bitrate= 900kbits/s"; "   "].

(** ffprobe prints nothing; ffmpeg runs to its end. *)
Definition no_duration : World :=
  {| ffprobe := inr "";
     popen := inr {| stderr := map Line no_duration_lines; wait := inr 0%Z |} |}.

(** The signals of [run] in universal_to_mp4_gui.py after the loop has read
    the stream to its end and [proc.wait()] has returned [rc]. *)
Definition universal_ending (w : ConvertWorker.t) (rc : Z) : list Signal :=
  if (rc =? 0)%Z then [Progress 100; Finished true (ConvertWorker.output_path w)]
  else [Log ("ffmpeg exited with code " ++ Py.str_of_Z rc)%string; Finished false ""].

(** The same for avi_to_mp4_gui.py and mkv_to_mp4_gui.py. *)
Definition avi_ending (w : ConvertWorker.t) (rc : Z) : list Signal :=
  if (rc =? 0)%Z then [Progress 100; Finished true (ConvertWorker.output_path w)]
  else [Log ("ffmpeg exited with code " ++ Py.str_of_Z rc)%string; Finished false ""].

Definition mkv_ending (w : ConvertWorker.t) (rc : Z) : list Signal :=
  if (rc =? 0)%Z then [Progress 100; Finished true (ConvertWorker.output_path w)]
  else [Finished false ""].

Definition avi_opening (duration : option Q) : list Signal :=
  Started ::
  match duration with
  | None =>
      [Log
  "Could not determine duration (ffprobe missing or failed). Progress may be unavailable."]
  | Some _ => []
  end.

Definition mkv_opening (duration : option Q) : list Signal :=
  Started ::
  match duration with
  | None => [Log "Could not read duration (ffprobe error). Progress may be inaccurate."]
  | Some _ => []
  end.

(** The signals of [run] in universal_to_mp4_gui.py before [Popen]. *)
Definition universal_opening (duration : option Q) : list Signal :=
  Started ::
  match duration with
  | None => [Log "Could not read duration (ffprobe). Progress will be approximate."]
  | Some _ => []
  end.

(** ** Properties of the window *)

(** What holds of every entry of [self.items], with [n] workers created so
    far: a queued job shows 0 and a done job 100, a job has a worker exactly
    while it is running, and the worker is one of the window. *)
Definition meta_ok (n : nat) (m : Meta) : Prop :=
  match status m with
  | Queued => progress (widget m) = 0%Z /\ worker m = None
  | Done => progress (widget m) = 100%Z /\ worker m = None
  | Failed => worker m = None
  | Running => exists ref, worker m = Some ref /\ (ref < n)%nat
  end.

(** The invariant of the window: the keys of [self.items] are distinct and
    every entry is as [meta_ok] says. *)
Definition window_ok (w : MainWindow) : Prop :=
  NoDup (map fst (items w)) /\
  Forall (fun e => meta_ok (List.length (workers w)) (snd e)) (items w).

(** *** The percent a job last reported

    The specification gives every job a last-reported progress percent; the
    code keeps no such number, only the bar of the widget of the job. The
    definitions below follow the specification: the percent of a [progress]
    signal delivered for a job becomes its last reported percent, a success
    forces it to 100, a job starts at 0, and a job that is removed leaves
    nothing behind for a job registered later under the same path. *)
Definition upd (r : string -> Q) (p : string) (x : Q) : string -> Q :=
  fun k => if String.eqb k p then x else r k.

(** What a delivered event does to the last reported percents [r]; [w] is
    the window before the event. *)
Definition spec_report (w : MainWindow) (ev : Event) (r : string -> Q) : string -> Q :=
  match ev with
  | SigProgress p x => upd r p x
  | SigFinished p true _ => upd r p 100
  | CancelItem p =>
      match get (items w) p with
      | Some m => match worker m with Some _ => r | None => upd r p 0 end
      | None => r
      end
  | _ => r
  end.

(** The last reported percents after the deliverable events of [evs], beside
    [run_events]. *)
Fixpoint spec_reported {P : Platform} (accepts : string -> bool) (log_limit : Z)
    (preset_args : list string) (w : MainWindow) (r : string -> Q) (evs : list Event)
  : string -> Q :=
  match evs with
  | [] => r
  | ev :: rest =>
      if deliverable w ev
      then spec_reported accepts log_limit preset_args
             (handle accepts log_limit preset_args w ev) (spec_report w ev r) rest
      else spec_reported accepts log_limit preset_args w r rest
  end.

(** A [progress] signal carries a percent within 0..100, as the workers
    emit them. *)
Definition percent_in_range (ev : Event) : Prop :=
  match ev with
  | SigProgress _ x => (0 <= x)%Q /\ (x <= 100)%Q
  | _ => True
  end.

(** The last known percent of a job as the claim has it: 0 while queued,
    100 when done, else the percent it last reported. *)
Definition spec_last_known (m : Meta) (reported : Q) : Q :=
  match status m with
  | Queued => 0
  | Done => 100
  | Running | Failed => reported
  end.

(** The sum of the last known percents of the jobs, and the sum of their
    integer parts. *)
Definition spec_sum_last_known (r : string -> Q) (its : list (string * Meta)) : Q :=
  fold_right (fun e acc => (spec_last_known (snd e) (r (fst e)) + acc)%Q) 0%Q its.

Definition sum_integer_parts (r : string -> Q) (its : list (string * Meta)) : Z :=
  fold_right (fun e acc => (Py.trunc (spec_last_known (snd e) (r (fst e))) + acc)%Z) 0%Z its.

(** The value of the bar of the job of a path. *)
Definition bar_at (w : MainWindow) (path : string) : option Z :=
  option_map (fun m => progress (widget m)) (get (items w) path).

(** From [w] to [w'] no bar has changed and no job has gone; a new job
    shows 0. *)
Definition grows (w w' : MainWindow) : Prop :=
  forall p, bar_at w' p = bar_at w p \/ (bar_at w p = None /\ bar_at w' p = Some 0%Z).

(** The bar of every job shows the integer part of the percent the job last
    reported, and a path without a job has reported nothing. *)
Definition follows (w : MainWindow) (r : string -> Q) : Prop :=
  (forall p, bar_at w p = None -> r p = 0%Q) /\
  (forall p b, bar_at w p = Some b -> b = Py.trunc (r p)).

(** The jobs that [start_all] dispatches. *)
Definition eligible (its : list (string * Meta)) : nat :=
  (count_status Queued its + count_status Failed its)%nat.

(** The window and slots of universal_to_mp4_gui.py, on the example platform. *)
Definition universal_window : MainWindow := MainWindow_init 2 "ffmpeg" "ffprobe".

Definition universal_events : MainWindow -> list Event -> MainWindow :=
  @run_events example_platform universal_accepts 8000 universal_preset.

Definition universal_handle : MainWindow -> Event -> MainWindow :=
  @handle example_platform universal_accepts 8000 universal_preset.

(** One file is added, converted with success, and then its cancel button
    is pressed. *)
Definition done_then_cancel : list Event :=
  [AddFile "/videos/a.avi"; StartAll None;
   SigStarted "/videos/a.avi"; SigProgress "/videos/a.avi" 100;
   SigFinished "/videos/a.avi" true "/videos/a.mp4"].

(** The same with a conversion that fails. *)
Definition failed_then_cancel : list Event :=
  [AddFile "/videos/a.avi"; StartAll None;
   SigStarted "/videos/a.avi"; SigFinished "/videos/a.avi" false ""].

(** Watching is switched on and a folder is added. *)
Definition watching_videos : list Event :=
  [ToggleWatch 2; ScanFolder "/videos" [("/videos", ["a.avi"; "notes.txt"])]].

(** Three files are added and all are started, with a pool of capacity 2. *)
Definition three_started : list Event :=
  [AddFile "/videos/a.avi"; AddFile "/videos/b.mkv"; AddFile "/videos/c.mov"; StartAll None].

(** Two files are started with a pool of capacity 2, then the capacity is
    set to 1. *)
Definition capacity_lowered : list Event :=
  [AddFile "/videos/a.avi"; AddFile "/videos/b.mkv"; StartAll None;
   SigStarted "/videos/a.avi"; SigStarted "/videos/b.mkv"; SetThreads 1].

(** A job at 50 percent, a finished one and a queued one. *)
Definition three_jobs : list Event :=
  [AddFile "/videos/a.avi"; AddFile "/videos/b.mkv"; StartAll None;
   AddFile "/videos/c.mov";
   SigProgress "/videos/a.avi" (101 # 2);
   SigProgress "/videos/b.mkv" 100; SigFinished "/videos/b.mkv" true "/videos/b.mp4"].

(** The test of [start_all] on an entry: [m["status"] in ("queued", "failed")]. *)
Definition is_eligible (e : string * Meta) : bool :=
  match status (snd e) with
  | Queued | Failed => true
  | _ => false
  end.

(** The entry that [_add_file] creates for a path whose absolute form is [k]. *)
Definition fresh_entry (w : MainWindow) (k : string) : string * Meta :=
  (k, {| widget := FileItemWidget_init k (fst (Os.splitext k) ++ ".mp4")%string;
         item := created w; worker := None; status := Queued |}).


(** Every file of the directory [root] that passes the test of the scan and
    the test of [_add_file] is registered. *)
Definition settled {P : Platform} (accepts : string -> bool) (its : list (string * Meta))
    (root : string) (files : list string) : Prop :=
  Forall (fun fn => accepts fn = true -> accepts (Os.join root fn) = true ->
                    contains its (abspath (Os.join root fn)) = true) files.

(** ** Further properties of runs *)

(** A signal that may stand between [started] and [finished]. *)
Definition is_middle (s : Signal) : bool :=
  match s with
  | Log _ | Progress _ => true
  | _ => false
  end.

(** Every character is a decimal digit. *)
Fixpoint all_digits (s : string) : bool :=
  match s with
  | EmptyString => true
  | String c r => Py.isdigit c && all_digits r
  end.

(** The text is a run of digits that is not empty. *)
Definition digit_run (s : string) : Prop := all_digits s = true /\ s <> EmptyString.

(** The signals are [started], then logs and progress values, then one
    [finished]; a success carries the output path and follows a progress
    of 100, a failure carries the empty path. *)
Definition in_order (w : ConvertWorker.t) (sigs : list Signal) : Prop :=
  exists mid ok out,
    sigs = Started :: mid ++ [Finished ok out] /\
    forallb is_middle mid = true /\
    if ok
    then out = ConvertWorker.output_path w /\ exists mid', mid = mid' ++ [Progress 100]
    else out = "".

(** The signals are [started], then logs and progress values, and no
    [finished]. *)
Definition cut_short (sigs : list Signal) : Prop :=
  exists mid, sigs = Started :: mid /\ forallb is_middle mid = true.

(** The text does not begin with a digit. *)
Definition no_leading_digit (s : string) : bool :=
  match s with
  | EmptyString => true
  | String c _ => negb (Py.isdigit c)
  end.

(** ** Further properties of the window *)

(** The status of the job registered under [path], if there is one. *)
Definition status_at (w : MainWindow) (path : string) : option Status :=
  option_map status (get (items w) path).

(** What enqueueing may do to the job of a path: nothing, or create it
    as queued. *)
Definition may_add (a b : option Status) : bool :=
  match a, b with
  | None, None | None, Some Queued => true
  | Some x, Some y => Status_eqb x y
  | _, _ => false
  end.

(** What dispatching may do: nothing, or make a queued or failed job running. *)
Definition may_start (a b : option Status) : bool :=
  match a, b with
  | None, None => true
  | Some Queued, Some Running | Some Failed, Some Running => true
  | Some x, Some y => Status_eqb x y
  | _, _ => false
  end.

(** The moves of a job in one event: it is created as queued; a queued
    job is started or removed; a running job ends as done or failed; a
    failed job is started again or removed; a done job is only removed. *)
Definition may_step (a b : option Status) : bool :=
  match a, b with
  | None, None | None, Some Queued => true
  | Some Queued, Some Queued | Some Queued, Some Running | Some Queued, None => true
  | Some Running, Some Running | Some Running, Some Done | Some Running, Some Failed => true
  | Some Done, Some Done | Some Done, None => true
  | Some Failed, Some Failed | Some Failed, Some Running | Some Failed, None => true
  | _, _ => false
  end.

(** The watcher follows exactly the directories of [self.watched], and
    nothing is watched while the box is unchecked. *)
Definition watch_tidy (w : MainWindow) : Prop :=
  watcher w = watched w /\ (chk_watch w = false -> watched w = ∅).

(** The part of the window that the watch is about. *)
Definition watch_state (w : MainWindow) : gset string * gset string * bool :=
  (watcher w, watched w, chk_watch w).

(** The log holds at most [log_limit] characters. *)
Definition log_short (log_limit : Z) (w : MainWindow) : Prop :=
  (Z.of_nat (String.length (log w)) <= log_limit)%Z.

(** The list items of the jobs, in the order of the registry. *)
Definition rows_of (its : list (string * Meta)) : list nat :=
  map (fun e => item (snd e)) its.

(** What holds of an entry of the registry: its widget shows its key as
    source and the key with the extension replaced by ".mp4" as
    destination, its bar is within 0..100, and its list item is one of the
    [created] items made so far. *)
Definition entry_tidy (created : nat) (e : string * Meta) : Prop :=
  src (widget (snd e)) = fst e /\
  dst (widget (snd e)) = (fst (Os.splitext (fst e)) ++ ".mp4")%string /\
  (0 <= progress (widget (snd e)) <= 100)%Z /\
  (item (snd e) < created)%nat.

(** Every entry is tidy, and the list widget shows the items of the jobs,
    one row each, in the order of the registry. *)
Definition window_tidy (w : MainWindow) : Prop :=
  Forall (entry_tidy (created w)) (items w) /\
  list_widget w = rows_of (items w) /\
  NoDup (rows_of (items w)).

(** The worker of an entry, when it has one, is a worker of the window that
    reads the key of the entry and writes the destination that the widget
    of the entry shows. *)
Definition worker_matches (ws : list ConvertWorker.t) (e : string * Meta) : Prop :=
  match worker (snd e) with
  | Some ref =>
      exists wk, nth_error ws ref = Some wk /\
                 ConvertWorker.input_path wk = fst e /\
                 ConvertWorker.output_path wk = dst (widget (snd e))
  | None => True
  end.

Definition pool_tidy (w : MainWindow) : Prop :=
  Forall (worker_matches (workers w)) (items w).

(** The cancel flag of the worker [ref], when there is one. *)
Definition flag_at (ws : list ConvertWorker.t) (ref : nat) : option bool :=
  option_map ConvertWorker._cancel (nth_error ws ref).

(** The file names that a walk of a folder yields, directory after directory. *)
Definition walked_files (walk : list (string * list string)) : list string :=
  concat (map snd walk).

(** Every character is an ASCII character. *)
Fixpoint is_ascii (s : string) : bool :=
  match s with
  | EmptyString => true
  | String c r => (nat_of_ascii c <? 128)%nat && is_ascii r
  end.

(** A run of 305 digits. *)
Definition nines : string := "9999999999999999999999999999999999999999999999999999999999999".

Definition long_hours : string := (nines ++ nines ++ nines ++ nines ++ nines)%string.

(** ** Examples *)

Example strip_line : Py.strip "  frame= 10 time=00:00:01.50  " = "frame= 10 time=00:00:01.50".
Proof. reflexivity. Qed.

Example splitext_clip : Os.splitext "/videos/My.Clip.MKV" = ("/videos/My.Clip", ".MKV").
Proof. reflexivity. Qed.

Example splitext_hidden : Os.splitext "/videos/.mkv" = ("/videos/.mkv", "").
Proof. reflexivity. Qed.

Example join_root : Os.join "/videos" "a.avi" = "/videos/a.avi".
Proof. reflexivity. Qed.

Example search_marker :
  time_re_search "frame=  240 fps= 60 time=00:01:00.00 bitrate= 900kbits/s" = Some "00:01:00.00".
Proof. reflexivity. Qed.

Example search_none : time_re_search "time=N/A bitrate=N/A" = None.
Proof. reflexivity. Qed.

Example seconds_marker :
  Qred (@Universal._time_to_seconds example_platform "00:01:00.00") = 60%Q.
Proof. vm_compute. reflexivity. Qed.

Example seconds_long :
  Qred (@Universal._time_to_seconds example_platform "25:00:01.5") = (180003 # 2)%Q.
Proof. vm_compute. reflexivity. Qed.

(** Scenario of the specification: duration 120 s, marker at one minute. *)
Example progress_at_half :
  map Qred (progress_values (signals (@Universal.run example_platform example_worker
    {| ffprobe := inr "120.000000";
       popen := inr {| stderr := [Line "frame= 1 time=00:01:00.00 bitrate=1k"];
                       wait := inr 1%Z |} |})))
  = [50%Q].
Proof. reflexivity. Qed.

Example two_minutes_progress :
  map Qred (progress_values (signals (@Universal.run example_platform example_worker two_minutes)))
  = [25%Q; 50%Q; 100%Q; 100%Q].
Proof. reflexivity. Qed.

(** Scenario of the specification: ffprobe gives no number; the run has
    its start and its end, and no progress in between. *)
Example no_duration_signals :
  signals (@Universal.run example_platform example_worker no_duration)
  = [Started;
     Log "Could not read duration (ffprobe). Progress will be approximate.";
     Log "ffmpeg version 6.0";
     Log "frame=  720 fps= 24 time=00:00:30.00 bitrate= 900kbits/s";
     Progress 100;
     Finished true "/videos/a.mp4"].
Proof. reflexivity. Qed.

(** A duration of zero is treated like no duration. *)
Example zero_duration_signals :
  progress_values (signals (@Universal.run example_platform example_worker
    {| ffprobe := inr "0.000000";
       popen := inr {| stderr := [Line "frame=  720 fps= 24 time=00:00:30.00 bitrate= 900kbits/s"];
                       wait := inr 1%Z |} |})) = [].
Proof. reflexivity. Qed.

(** One job at 50.5 percent, one done, one queued: the bars show 50, 100
    and 0, and the overall percent is 50. *)
Example three_jobs_overall :
  let w := _refresh_overall (universal_events universal_window three_jobs) in
  map (fun e => (status (snd e), progress (widget (snd e)))) (items w)
    = [(Running, 50%Z); (Done, 100%Z); (Queued, 0%Z)] /\
  match lbl_overall w with
  | OverallOf done total avg => (done, total, Qred avg) = (1%nat, 3%nat, 50%Q)
  | OverallNone => False
  end /\
  overall w = 50%Z.
Proof. vm_compute. repeat split. Qed.

(** The same file through a dialog, relative to the working directory, and
    through the scan of its folder: one job. *)
Example two_entry_points :
  map fst (items (universal_events universal_window
    [AddFile "clip.mkv"; ScanFolder "/home/user" [("/home/user", ["clip.mkv"; "readme.md"])];
     AddFile "/home/user/clip.mkv"]))
  = ["/home/user/clip.mkv"].
Proof. vm_compute. reflexivity. Qed.

(** Scenario of the specification: the job is cancelled before the first
    line arrives; when the line arrives the process is killed and the run
    fails. *)
Example cancelled_before_first_line :
  let r := @Universal.run example_platform example_worker
             {| ffprobe := inr "120.000000";
                popen := inr {| stderr := [Kill; Line "ffmpeg version 6.0"; Line "frame= 1"];
                                wait := inr 0%Z |} |} in
  signals r = [Started; Log "Conversion cancelled."; Finished false ""] /\
  proc_killed r = true.
Proof. split; reflexivity. Qed.

(** The flag may be set before [run] starts. *)
Example cancelled_before_run :
  signals (@Universal.run example_platform (ConvertWorker.kill example_worker) two_minutes)
  = [Started; Log "Conversion cancelled."; Finished false ""].
Proof. reflexivity. Qed.

(** ffmpeg is not installed. *)
Example ffmpeg_missing :
  signals (@Universal.run example_platform example_worker
    {| ffprobe := inl {| exc_class := FileNotFoundError; exc_str := "ffprobe" |};
       popen := inl {| exc_class := FileNotFoundError; exc_str := "ffmpeg" |} |})
  = [Started;
     Log "Could not read duration (ffprobe). Progress will be approximate.";
     Log "ffmpeg not found. Set path or bundle ffmpeg with the app.";
     Finished false ""].
Proof. reflexivity. Qed.

(** A return code that is not zero. *)
Example encode_failed :
  signals (@Universal.run example_platform example_worker
    {| ffprobe := inr "120.000000";
       popen := inr {| stderr := [Line "a.avi: Invalid data found when processing input"];
                       wait := inr 1%Z |} |})
  = [Started; Log "a.avi: Invalid data found when processing input";
     Log "ffmpeg exited with code 1"; Finished false ""].
Proof. reflexivity. Qed.

(** The extensions are compared in lower case; a name without an allowed
    extension is not enqueued. *)
Example accepts_by_extension :
  map universal_accepts ["/v/a.AVI"; "/v/b.webm"; "/v/notes.txt"; "/v/.mkv"; "/v/c.mp4.part"]
  = [true; true; false; false; false].
Proof. reflexivity. Qed.

(** The log keeps its last characters. *)
Example log_is_cut :
  log (_log 10 (_log 10 universal_window "Queued: a") "Started: a") = "Started: a".
Proof. reflexivity. Qed.

Example float_plain :
  map (fun s => option_map Qred (Py.float_decimal s))
      ["120"; "120.500000"; "12."; ".5"; "."; "N/A"; ""]
  = [Some 120%Q; Some (241 # 2)%Q; Some 12%Q; Some (1 # 2)%Q; None; None; None].
Proof. reflexivity. Qed.

(** A line that a worker logs reaches the log of the window while a job
    has its worker, and is dropped otherwise. *)
Example worker_line_is_logged :
  log (universal_events universal_window
         [SigLog "early"; AddFile "/videos/a.avi"; StartAll None; SigLog "frame=    1"])
  = ("Queued: /videos/a.avi" ++ nl ++ "Started: /videos/a.avi" ++ nl ++ "frame=    1")%string.
Proof. vm_compute. reflexivity. Qed.

(** The classes of [str] on the characters below 256. *)
Example strip_no_break_space : Py.strip (String (ascii_of_nat 160) "12.5" ++ " ") = "12.5".
Proof. reflexivity. Qed.

Example lower_latin : Py.lower (String (ascii_of_nat 201) "COLE.MKV")
                      = String (ascii_of_nat 233) "cole.mkv".
Proof. reflexivity. Qed.

(** ** Facts on signals *)

Lemma progress_values_app (a b : list Signal) :
  progress_values (a ++ b) = progress_values a ++ progress_values b.
Proof.
  induction a as [|s a IH]; simpl; [reflexivity|].
  destruct s; simpl; rewrite IH; reflexivity.
Qed.

Lemma finished_flags_app (a b : list Signal) :
  finished_flags (a ++ b) = finished_flags a ++ finished_flags b.
Proof.
  induction a as [|s a IH]; simpl; [reflexivity|].
  destruct s; simpl; rewrite IH; reflexivity.
Qed.

Lemma log_line_progress (s : string) : progress_values (log_line s) = [].
Proof. unfold log_line. destruct (Py.truthy s); reflexivity. Qed.

Lemma log_line_finished (s : string) : finished_flags (log_line s) = [].
Proof. unfold log_line. destruct (Py.truthy s); reflexivity. Qed.

Lemma plain_logs_progress (lines : list string) : progress_values (plain_logs lines) = [].
Proof.
  induction lines as [|l r IH]; simpl; [reflexivity|].
  unfold plain_logs in *. simpl. rewrite progress_values_app, log_line_progress, IH. reflexivity.
Qed.

Lemma min_100_le (x : Q) : (Py.min 100 x <= 100)%Q.
Proof.
  unfold Py.min. destruct (Qle_bool 100 x) eqn:E.
  - apply Qle_refl.
  - apply Qlt_le_weak, Qnot_le_lt. intro H. apply Qle_bool_iff in H. congruence.
Qed.

Lemma known_nonzero (duration : option Q) (d : Q) :
  known duration = Some d -> Py.truediv 1 d <> None /\ Qeq_bool d 0 = false.
Proof.
  unfold known, Py.truediv. destruct duration as [x|]; [|discriminate].
  destruct (Qeq_bool x 0) eqn:E; [discriminate|].
  intros [= <-]. rewrite E. split; [discriminate | reflexivity].
Qed.

Lemma truediv_known (duration : option Q) (d a : Q) :
  known duration = Some d -> Py.truediv a d = Some (a / d)%Q.
Proof.
  intros H. apply known_nonzero in H as [_ H]. unfold Py.truediv. rewrite H. reflexivity.
Qed.

(** ** Facts on the loop *)

Lemma steady_paced (l : list Q) : forall prev, steady prev l -> paced prev l.
Proof.
  induction l as [|p r IH]; simpl; [trivial|].
  intros prev (Hgap & _ & _ & Hr). split; [exact Hgap | apply IH, Hr].
Qed.

Lemma steady_app_100 (l : list Q) :
  forall prev, (prev <= 100)%Q -> steady prev l -> steady prev (l ++ [100%Q]).
Proof.
  induction l as [|p r IH]; simpl; intros prev Hp H.
  - repeat split; [right; reflexivity | exact Hp | apply Qle_refl].
  - destruct H as (Hgap & Hle & Hb & Hr). repeat split; try assumption.
    apply IH; assumption.
Qed.

Lemma steady_bounds (l : list Q) :
  forall prev, (0 <= prev)%Q -> steady prev l ->
  Forall (fun p => (0 <= p)%Q /\ (p <= 100)%Q) l /\
  Forall (fun p => (prev <= p)%Q) l /\ StronglySorted Qle l.
Proof.
  induction l as [|p r IH]; simpl; intros prev H0 H.
  - repeat split; constructor.
  - destruct H as (_ & Hle & Hb & Hr).
    assert (H0p : (0 <= p)%Q) by (eapply Qle_trans; eassumption).
    destruct (IH p H0p Hr) as (Hall & Hfrom & Hsorted).
    repeat split.
    + constructor; [split; assumption | exact Hall].
    + constructor; [exact Hle|].
      eapply Forall_impl; [exact Hfrom|]. intros q Hq. simpl in Hq.
      eapply Qle_trans; eassumption.
    + constructor; assumption.
Qed.

Section LoopFacts.
Variable h : Q -> string -> list Signal * (Exc + Q).
Variable oc : list Signal.

(** A loop left by a [return] has emitted [on_cancel] last, and nothing
    else carries [finished]. *)
Lemma read_loop_finished :
  (forall last line, finished_flags (fst (h last line)) = []) ->
  forall evs cancel last,
    finished_flags (fst (read_loop h oc cancel last evs)) =
    match snd (read_loop h oc cancel last evs) with
    | Cancelled => finished_flags oc
    | _ => []
    end.
Proof.
  intros Hh. induction evs as [|ev rest IH]; intros cancel last; simpl; [reflexivity|].
  destruct ev as [|line|e]; simpl; [apply IH| |reflexivity].
  destruct cancel; simpl; [reflexivity|].
  specialize (Hh last line).
  destruct (h last line) as [out [e|last']]; simpl in *; [exact Hh|].
  specialize (IH false last').
  destruct (read_loop h oc false last' rest) as [more ex]; simpl in *.
  rewrite finished_flags_app, Hh, IH. reflexivity.
Qed.

(** The progress values of the loop are steady after [last]. *)
Lemma read_loop_steady :
  (forall last line, (last <= 100)%Q -> by_rule last (h last line)) ->
  progress_values oc = [] ->
  forall evs cancel last, (last <= 100)%Q ->
    steady last (progress_values (fst (read_loop h oc cancel last evs))).
Proof.
  intros Hh Hoc. induction evs as [|ev rest IH]; intros cancel last Hl; simpl; [trivial|].
  destruct ev as [|line|e]; simpl; [apply IH, Hl| |trivial].
  destruct cancel; simpl; [rewrite Hoc; exact I|].
  specialize (Hh last line Hl). unfold by_rule in Hh.
  destruct (h last line) as [out [e|last']]; simpl in *.
  - destruct Hh as [_ ->]. exact I.
  - destruct Hh as [_ [[Hnone ->]|(Hone & Hgap & Hb)]].
    + specialize (IH false last Hl).
      destruct (read_loop h oc false last rest) as [more ex]; simpl in *.
      rewrite progress_values_app, Hnone. exact IH.
    + specialize (IH false last' Hb).
      destruct (read_loop h oc false last' rest) as [more ex]; simpl in *.
      rewrite progress_values_app, Hone. simpl. repeat split; try assumption.
      destruct Hgap as [Hgap|Hgap]; [lra|]. rewrite Hgap. exact Hl.
Qed.

(** Once the flag is set, the next read ends the loop. *)
Lemma read_loop_flag_set :
  forall evs last, existsb is_read evs = true ->
    snd (read_loop h oc true last evs) <> Exhausted.
Proof.
  induction evs as [|ev rest IH]; intros last H; simpl in *; [discriminate|].
  destruct ev; simpl in *; [apply IH, H | discriminate | discriminate].
Qed.

(** A [kill] that is followed by a read is never followed by the end of the
    stream inside the loop. *)
Lemma read_loop_killed :
  forall pre post cancel last, existsb is_read post = true ->
    snd (read_loop h oc cancel last (pre ++ Kill :: post)) <> Exhausted.
Proof.
  induction pre as [|ev pre IH]; intros post cancel last H; simpl.
  - apply read_loop_flag_set, H.
  - destruct ev as [|line|e]; simpl; [apply IH, H| |discriminate].
    destruct cancel; simpl; [discriminate|].
    destruct (h last line) as [out [e|last']]; simpl; [discriminate|].
    specialize (IH post false last' H).
    destruct (read_loop h oc false last' (pre ++ Kill :: post)) as [more ex]; simpl in *.
    exact IH.
Qed.

(** With a flag that is never seen set and turns that only log, the loop
    logs every line and reaches the end of the stream. *)
Lemma read_loop_plain :
  (forall last line, h last line = (log_line (Py.strip line), inr last)) ->
  forall lines kills last,
    read_loop h oc false last (map Line lines ++ repeat Kill kills) = (plain_logs lines, Exhausted).
Proof.
  intros Hh. induction lines as [|l r IH]; intros kills last; simpl.
  - induction kills as [|k IHk]; simpl; [reflexivity|].
    clear IHk. induction k as [|k IHk]; simpl; [reflexivity | exact IHk].
  - rewrite Hh, IH. reflexivity.
Qed.

(** With turns that only log, no progress value comes out of the loop. *)
Lemma read_loop_quiet :
  (forall last line, h last line = (log_line (Py.strip line), inr last)) ->
  progress_values oc = [] ->
  forall evs cancel last, progress_values (fst (read_loop h oc cancel last evs)) = [].
Proof.
  intros Hh Hoc. induction evs as [|ev rest IH]; intros cancel last; simpl; [reflexivity|].
  destruct ev as [|line|e]; simpl; [apply IH| |reflexivity].
  destruct cancel; simpl; [exact Hoc|].
  rewrite Hh. specialize (IH false last).
  destruct (read_loop h oc false last rest) as [more ex]; simpl in *.
  rewrite progress_values_app, log_line_progress, IH. reflexivity.
Qed.

End LoopFacts.

(** ** Facts on the three workers *)

Lemma universal_handle_by_rule `{Platform} (d : option Q) (last : Q) (line : string) :
  by_rule last (Universal.handle_line d last line).
Proof.
  unfold Universal.handle_line, by_rule.
  destruct (time_re_search (Py.strip line)) as [g|];
    [|simpl; rewrite log_line_finished, log_line_progress; auto].
  destruct (known d) as [x|];
    [|simpl; rewrite log_line_finished, log_line_progress; auto].
  destruct (Py.truediv (Universal._time_to_seconds g) x) as [q|];
    [|simpl; rewrite log_line_finished, log_line_progress; auto].
  destruct (Qle_bool 0.5 (Py.min 100 (q * 100) - last) || Qeq_bool (Py.min 100 (q * 100)) 100)
    eqn:E;
    simpl; [|rewrite log_line_finished, log_line_progress; auto].
  rewrite finished_flags_app, progress_values_app, log_line_finished, log_line_progress.
  simpl. split; [reflexivity|]. right. split; [reflexivity|]. split; [|apply min_100_le].
  apply orb_true_iff in E as [E|E]; [left; apply Qle_bool_iff, E | right; apply Qeq_bool_iff, E].
Qed.

Lemma avi_handle_by_rule `{Platform} (d : option Q) (last : Q) (line : string) :
  by_rule last (Avi.handle_line d last line).
Proof.
  unfold Avi.handle_line, by_rule.
  destruct (time_re_search (Py.strip line)) as [g|];
    [|simpl; rewrite log_line_finished, log_line_progress; auto].
  destruct (Avi.positive d) as [x|];
    [|simpl; rewrite log_line_finished, log_line_progress; auto].
  destruct (Py.truediv (Avi._time_to_seconds g) x) as [q|];
    [|simpl; rewrite log_line_finished, log_line_progress; auto].
  destruct (Qle_bool 0.5 (Py.min 100 (q * 100) - last) || Qeq_bool (Py.min 100 (q * 100)) 100)
    eqn:E;
    simpl; [|rewrite log_line_finished, log_line_progress; auto].
  rewrite finished_flags_app, progress_values_app, log_line_finished, log_line_progress.
  simpl. split; [reflexivity|]. right. split; [reflexivity|]. split; [|apply min_100_le].
  apply orb_true_iff in E as [E|E]; [left; apply Qle_bool_iff, E | right; apply Qeq_bool_iff, E].
Qed.

Lemma mkv_handle_by_rule `{Platform} (d : option Q) (last : Q) (line : string) :
  by_rule last (Mkv.handle_line d last line).
Proof.
  unfold Mkv.handle_line, by_rule.
  destruct (time_re_search (Py.strip line)) as [g|];
    [|simpl; rewrite log_line_finished, log_line_progress; auto].
  destruct (known d) as [x|];
    [|simpl; rewrite log_line_finished, log_line_progress; auto].
  destruct (Mkv.t2s g) as [e|current];
    [simpl; rewrite log_line_finished, log_line_progress; auto|].
  destruct (Py.truediv current x) as [q|];
    [|simpl; rewrite log_line_finished, log_line_progress; auto].
  destruct (Qle_bool 0.5 (Py.min 100 (q * 100) - last)) eqn:E;
    simpl; [|rewrite log_line_finished, log_line_progress; auto].
  rewrite finished_flags_app, progress_values_app, log_line_finished, log_line_progress.
  simpl. split; [reflexivity|]. right. split; [reflexivity|]. split; [|apply min_100_le].
  left. apply Qle_bool_iff, E.
Qed.

(** The turn of universal_to_mp4_gui.py raises nothing: the division is
    reached only with a duration that is not zero. *)
Lemma universal_handle_no_raise `{Platform} (d : option Q) (last : Q) (line : string) :
  exists out last', Universal.handle_line d last line = (out, inr last').
Proof.
  unfold Universal.handle_line.
  destruct (time_re_search (Py.strip line)) as [g|]; [|eauto].
  destruct (known d) as [x|] eqn:K; [|eauto].
  rewrite (truediv_known d x _ K).
  destruct (Qle_bool _ _ || Qeq_bool _ _); eauto.
Qed.

(** Without a duration, or with a duration of zero, a turn only logs. *)
Lemma universal_handle_unknown `{Platform} (d : option Q) (last : Q) (line : string) :
  known d = None ->
  Universal.handle_line d last line = (log_line (Py.strip line), inr last).
Proof.
  intros K. unfold Universal.handle_line. rewrite K.
  destruct (time_re_search (Py.strip line)); reflexivity.
Qed.

Lemma avi_handle_unknown `{Platform} (d : option Q) (last : Q) (line : string) :
  known d = None ->
  Avi.handle_line d last line = (log_line (Py.strip line), inr last).
Proof.
  intros K. unfold Avi.handle_line, Avi.positive. rewrite K.
  destruct (time_re_search (Py.strip line)); reflexivity.
Qed.

Lemma mkv_handle_unknown `{Platform} (d : option Q) (last : Q) (line : string) :
  known d = None ->
  Mkv.handle_line d last line = (log_line (Py.strip line), inr last).
Proof.
  intros K. unfold Mkv.handle_line. rewrite K.
  destruct (time_re_search (Py.strip line)); reflexivity.
Qed.

(** [run] of universal_to_mp4_gui.py always returns, and emits [finished]
    exactly once. *)
Lemma universal_run_returns `{Platform} (w : ConvertWorker.t) (env : World) :
  completion (Universal.run w env) = Returns /\
  exists ok, finished_flags (signals (Universal.run w env)) = [ok].
Proof.
  unfold Universal.run.
  set (head := Started :: _).
  assert (Hhead : finished_flags head = []) by
    (subst head; destruct (Universal._get_duration (ffprobe env)); reflexivity).
  destruct (popen env) as [e|proc].
  - destruct (exc_class e); cbn [completion signals];
      rewrite finished_flags_app, Hhead; eauto.
  - pose proof (read_loop_finished (Universal.handle_line (Universal._get_duration (ffprobe env)))
                  [Log "Conversion cancelled."; Finished false ""]
                  (fun last line => proj1 (universal_handle_by_rule _ last line))
                  (stderr proc) (ConvertWorker._cancel w) 0%Q) as Hloop.
    unfold Universal.read_stderr.
    destruct (read_loop _ _ _ _ _) as [out ex]; cbn [fst snd] in Hloop.
    destruct ex.
    + destruct (wait proc) as [e|rc]; [|destruct (rc =? 0)%Z]; cbn [completion signals];
        rewrite !finished_flags_app, Hhead, Hloop; cbn; eauto.
    + cbn [completion signals]. rewrite finished_flags_app, Hhead, Hloop. cbn. eauto.
    + cbn [completion signals]. rewrite !finished_flags_app, Hhead, Hloop. cbn. eauto.
Qed.

Lemma avi_run_returns `{Platform} (w : ConvertWorker.t) (env : World) :
  completion (Avi.run w env) = Returns /\
  exists ok, finished_flags (signals (Avi.run w env)) = [ok].
Proof.
  unfold Avi.run.
  set (head := Started :: _).
  assert (Hhead : finished_flags head = []) by
    (subst head; destruct (Avi._get_duration (ffprobe env)); reflexivity).
  destruct (popen env) as [e|proc].
  - destruct (exc_class e); cbn [completion signals];
      rewrite finished_flags_app, Hhead; eauto.
  - pose proof (read_loop_finished (Avi.handle_line (Avi._get_duration (ffprobe env)))
                  [Log "Cancelled."; Finished false ""]
                  (fun last line => proj1 (avi_handle_by_rule _ last line))
                  (stderr proc) (ConvertWorker._cancel w) 0%Q) as Hloop.
    unfold Avi.read_stderr.
    destruct (read_loop _ _ _ _ _) as [out ex]; cbn [fst snd] in Hloop.
    destruct ex.
    + destruct (wait proc) as [e|rc]; [|destruct (rc =? 0)%Z]; cbn [completion signals];
        rewrite !finished_flags_app, Hhead, Hloop; cbn; eauto.
    + cbn [completion signals]. rewrite finished_flags_app, Hhead, Hloop. cbn. eauto.
    + cbn [completion signals]. rewrite !finished_flags_app, Hhead, Hloop. cbn. eauto.
Qed.

(** The progress values of a whole run are steady from 0: those of the
    loop, then the 100 of a return code of zero. *)
Ltac steady_tail Hhead Hloop :=
  cbn [signals];
  rewrite ?progress_values_app, ?Hhead; cbn [progress_values app];
  rewrite ?app_nil_r;
  first [ exact Hloop
        | apply steady_app_100; [discriminate | exact Hloop]
        | exact I ].

Lemma universal_run_steady `{Platform} (w : ConvertWorker.t) (env : World) :
  steady 0 (progress_values (signals (Universal.run w env))).
Proof.
  unfold Universal.run.
  set (head := Started :: _).
  assert (Hhead : progress_values head = []) by
    (subst head; destruct (Universal._get_duration (ffprobe env)); reflexivity).
  destruct (popen env) as [e|proc].
  - destruct (exc_class e); steady_tail Hhead I.
  - pose proof (read_loop_steady (Universal.handle_line (Universal._get_duration (ffprobe env)))
                  [Log "Conversion cancelled."; Finished false ""]
                  (fun last line _ => universal_handle_by_rule _ last line) eq_refl
                  (stderr proc) (ConvertWorker._cancel w) 0%Q ltac:(discriminate)) as Hloop.
    unfold Universal.read_stderr.
    destruct (read_loop _ _ _ _ _) as [out ex]; cbn [fst] in Hloop.
    destruct ex; [destruct (wait proc) as [e|rc]; [|destruct (rc =? 0)%Z]| |];
      steady_tail Hhead Hloop.
Qed.

Lemma avi_run_steady `{Platform} (w : ConvertWorker.t) (env : World) :
  steady 0 (progress_values (signals (Avi.run w env))).
Proof.
  unfold Avi.run.
  set (head := Started :: _).
  assert (Hhead : progress_values head = []) by
    (subst head; destruct (Avi._get_duration (ffprobe env)); reflexivity).
  destruct (popen env) as [e|proc].
  - destruct (exc_class e); steady_tail Hhead I.
  - pose proof (read_loop_steady (Avi.handle_line (Avi._get_duration (ffprobe env)))
                  [Log "Cancelled."; Finished false ""]
                  (fun last line _ => avi_handle_by_rule _ last line) eq_refl
                  (stderr proc) (ConvertWorker._cancel w) 0%Q ltac:(discriminate)) as Hloop.
    unfold Avi.read_stderr.
    destruct (read_loop _ _ _ _ _) as [out ex]; cbn [fst] in Hloop.
    destruct ex; [destruct (wait proc) as [e|rc]; [|destruct (rc =? 0)%Z]| |];
      steady_tail Hhead Hloop.
Qed.

Lemma mkv_run_steady `{Platform} (w : ConvertWorker.t) (env : World) :
  steady 0 (progress_values (signals (Mkv.run w env))).
Proof.
  unfold Mkv.run.
  set (head := Started :: _).
  assert (Hhead : progress_values head = []) by
    (subst head; destruct (Mkv.get_duration (ffprobe env)); reflexivity).
  destruct (popen env) as [e|proc].
  - destruct (exc_class e); steady_tail Hhead I.
  - pose proof (read_loop_steady (Mkv.handle_line (Mkv.get_duration (ffprobe env)))
                  [Finished false ""]
                  (fun last line _ => mkv_handle_by_rule _ last line) eq_refl
                  (stderr proc) (ConvertWorker._cancel w) 0%Q ltac:(discriminate)) as Hloop.
    unfold Mkv.read_stderr.
    destruct (read_loop _ _ _ _ _) as [out ex]; cbn [fst] in Hloop.
    destruct ex; [destruct (wait proc) as [e|rc]; [|destruct (rc =? 0)%Z]| |];
      steady_tail Hhead Hloop.
Qed.

Lemma by_rule_throttled (last : Q) (res : list Signal * (Exc + Q)) :
  by_rule last res -> throttled last res.
Proof.
  unfold by_rule, throttled. intros [_ H].
  destruct (snd res) as [e|last'].
  - rewrite H. exact I.
  - destruct H as [[-> ->]|(-> & Hgap & _)]; [reflexivity | split; [reflexivity | exact Hgap]].
Qed.

(** What the guard of the loop gives in the three workers: a progress value
    is emitted only when it is at least 0.5 above the last emitted value of
    the run (0 before the first), or when it is 100, and it then becomes the
    last emitted value; so every two consecutive progress values of a run,
    the 100 of a return code of zero included, differ by at least 0.5 unless
    the later one is 100. *)
Lemma guard_is_paced `{Platform} :
  (forall d last line, throttled last (Universal.handle_line d last line)) /\
  (forall d last line, throttled last (Avi.handle_line d last line)) /\
  (forall d last line, throttled last (Mkv.handle_line d last line)) /\
  (forall (P : Platform) w env, paced 0 (progress_values (signals (Universal.run w env)))) /\
  (forall (P : Platform) w env, paced 0 (progress_values (signals (Avi.run w env)))) /\
  (forall (P : Platform) w env, paced 0 (progress_values (signals (Mkv.run w env)))).
Proof.
  repeat split; intros.
  - apply by_rule_throttled, universal_handle_by_rule.
  - apply by_rule_throttled, avi_handle_by_rule.
  - apply by_rule_throttled, mkv_handle_by_rule.
  - apply steady_paced, universal_run_steady.
  - apply steady_paced, avi_run_steady.
  - apply steady_paced, mkv_run_steady.
Qed.

(** Where the progress values of a loop come from: each one is emitted by
    the turn of some line of the stream. *)
Lemma read_loop_origin (h : Q -> string -> list Signal * (Exc + Q)) (oc : list Signal) :
  progress_values oc = [] ->
  forall evs cancel last,
    Forall (fun p => exists line last0,
              In (Line line) evs /\ In p (progress_values (fst (h last0 line))))
           (progress_values (fst (read_loop h oc cancel last evs))).
Proof.
  intros Hoc. induction evs as [|ev rest IH]; intros cancel last; simpl; [constructor|].
  destruct ev as [|line|e]; simpl.
  - eapply Forall_impl; [apply IH|]. intros p (l & l0 & Hin & Hp). eauto.
  - destruct cancel; simpl; [rewrite Hoc; constructor|].
    destruct (h last line) as [out [e|last']] eqn:E; simpl.
    + apply Forall_forall. intros p Hp. apply list_elem_of_In in Hp.
      exists line, last. rewrite E. simpl. auto.
    + specialize (IH false last').
      destruct (read_loop h oc false last' rest) as [more ex]; simpl in *.
      rewrite progress_values_app. apply Forall_app. split.
      * apply Forall_forall. intros p Hp. apply list_elem_of_In in Hp.
        exists line, last. rewrite E. simpl. auto.
      * eapply Forall_impl; [apply IH|]. intros p (l & l0 & Hin & Hp). eauto.
  - constructor.
Qed.

(** The value emitted for a line is [min(100.0, (secs / duration) * 100.0)]. *)
Lemma universal_handle_formula `{Platform} (d : option Q) (x last p : Q) (line : string) :
  known d = Some x ->
  In p (progress_values (fst (Universal.handle_line d last line))) ->
  exists g, time_re_search (Py.strip line) = Some g /\
            p = Py.min 100 (Universal._time_to_seconds g / x * 100).
Proof.
  intros K. unfold Universal.handle_line. rewrite K.
  destruct (time_re_search (Py.strip line)) as [g|];
    [|simpl; rewrite log_line_progress; intros []].
  rewrite (truediv_known d x _ K).
  destruct (Qle_bool _ _ || Qeq_bool _ _); simpl.
  - rewrite progress_values_app, log_line_progress. simpl. intros [<-|[]]. eauto.
  - rewrite log_line_progress. intros [].
Qed.

(** The progress values of a run: those of the loop, then 100 when the
    stream was read to its end and the return code is zero. *)
Lemma universal_run_progress `{Platform} (w : ConvertWorker.t) (env : World) :
  progress_values (signals (Universal.run w env)) =
  match popen env with
  | inl _ => []
  | inr proc =>
      let res := Universal.read_stderr (Universal._get_duration (ffprobe env))
                   (ConvertWorker._cancel w) 0 (stderr proc) in
      progress_values (fst res) ++
      match snd res, wait proc with
      | Exhausted, inr rc => if (rc =? 0)%Z then [100%Q] else []
      | _, _ => []
      end
  end.
Proof.
  unfold Universal.run.
  set (head := Started :: _).
  assert (Hhead : progress_values head = []) by
    (subst head; destruct (Universal._get_duration (ffprobe env)); reflexivity).
  destruct (popen env) as [e|proc].
  - destruct (exc_class e); cbn [signals]; rewrite progress_values_app, Hhead; reflexivity.
  - cbv zeta. destruct (Universal.read_stderr _ _ _ _) as [out ex]. cbn [fst snd].
    destruct ex; [destruct (wait proc) as [e|rc]; [|destruct (rc =? 0)%Z]| |];
      cbn [signals]; rewrite !progress_values_app, Hhead;
      cbn [progress_values Universal.on_exception app]; rewrite ?app_nil_r; reflexivity.
Qed.

(** C5: with a duration [D] read from ffprobe, [D > 0], every progress value
    of a run lies in [0, 100]; the values never decrease, the 100 of a return
    code of zero included; and each value is that 100 or
    [min(100, secs / D * 100)] for the marker of a line of the stream. *)
Theorem progress_bounded_monotone (P : Platform) (w : ConvertWorker.t) (env : World) (D : Q) :
  Universal._get_duration (ffprobe env) = Some D ->
  (0 < D)%Q ->
  let vals := progress_values (signals (Universal.run w env)) in
  Forall (fun p => (0 <= p)%Q /\ (p <= 100)%Q) vals /\
  StronglySorted Qle vals /\
  Forall (fun p => p = 100%Q \/
            exists proc raw g,
              popen env = inr proc /\ In (Line raw) (stderr proc) /\
              time_re_search (Py.strip raw) = Some g /\
              p = Py.min 100 (Universal._time_to_seconds g / D * 100)) vals.
Proof.
  intros HD Hpos vals.
  destruct (steady_bounds vals 0 ltac:(apply Qle_refl) (universal_run_steady w env))
    as (Hb & _ & Hs).
  split; [exact Hb|]. split; [exact Hs|].
  subst vals. rewrite universal_run_progress.
  destruct (popen env) as [e|proc]; [constructor|].
  cbv zeta. apply Forall_app. split.
  - unfold Universal.read_stderr.
    eapply Forall_impl; [apply read_loop_origin; reflexivity|].
    intros p (line & last0 & Hin & Hp). right.
    assert (K : known (Universal._get_duration (ffprobe env)) = Some D).
    { rewrite HD. unfold known. destruct (Qeq_bool D 0) eqn:E; [|reflexivity].
      apply Qeq_bool_iff in E. rewrite E in Hpos. discriminate Hpos. }
    destruct (universal_handle_formula _ D last0 p line K Hp) as (g & Hg & ->).
    exists proc, line, g. auto.
  - destruct (snd _); try constructor.
    destruct (wait proc) as [e|rc]; [constructor|].
    destruct (rc =? 0)%Z; repeat constructor.
Qed.

Lemma progress_bounded_monotone_witness :
  let vals :=
    progress_values (signals (@Universal.run example_platform example_worker two_minutes)) in
  Forall (fun p => (0 <= p)%Q /\ (p <= 100)%Q) vals /\
  StronglySorted Qle vals /\
  Forall (fun p => p = 100%Q \/
            exists proc raw g,
              popen two_minutes = inr proc /\ In (Line raw) (stderr proc) /\
              time_re_search (Py.strip raw) = Some g /\
              p = Py.min 100 (@Universal._time_to_seconds example_platform g /
                              (120000000 # 1000000) * 100)) vals.
Proof.
  apply (progress_bounded_monotone example_platform example_worker two_minutes
           (120000000 # 1000000)); reflexivity.
Defined.
(** ** Repeated progress values *)

Lemma mkv_handle_by_gap `{Platform} (d : option Q) (last : Q) (line : string) :
  by_gap last (Mkv.handle_line d last line).
Proof.
  unfold Mkv.handle_line, by_gap.
  destruct (time_re_search (Py.strip line)) as [g|];
    [|simpl; rewrite log_line_progress; auto].
  destruct (known d) as [x|]; [|simpl; rewrite log_line_progress; auto].
  destruct (Mkv.t2s g) as [e|current]; [simpl; apply log_line_progress|].
  destruct (Py.truediv current x) as [q|]; [|simpl; apply log_line_progress].
  destruct (Qle_bool 0.5 (Py.min 100 (q * 100) - last)) eqn:E; simpl.
  - rewrite progress_values_app, log_line_progress. right.
    split; [reflexivity | apply Qle_bool_iff, E].
  - rewrite log_line_progress. auto.
Qed.

Lemma read_loop_gapped (h : Q -> string -> list Signal * (Exc + Q)) (oc : list Signal) :
  (forall last line, by_gap last (h last line)) ->
  progress_values oc = [] ->
  forall evs cancel last, gapped last (progress_values (fst (read_loop h oc cancel last evs))).
Proof.
  intros Hh Hoc. induction evs as [|ev rest IH]; intros cancel last; simpl; [trivial|].
  destruct ev as [|line|e]; simpl; [apply IH| |trivial].
  destruct cancel; simpl; [rewrite Hoc; exact I|].
  specialize (Hh last line). unfold by_gap in Hh.
  destruct (h last line) as [out [e|last']]; simpl in *.
  - rewrite Hh. exact I.
  - destruct Hh as [[Hnone ->]|[Hone Hgap]].
    + specialize (IH false last).
      destruct (read_loop h oc false last rest) as [more ex]; simpl in *.
      rewrite progress_values_app, Hnone. exact IH.
    + specialize (IH false last').
      destruct (read_loop h oc false last' rest) as [more ex]; simpl in *.
      rewrite progress_values_app, Hone. simpl. split; assumption.
Qed.

(** Values that are gapped stay spaced when the 100 of the end of a run
    follows them. *)
Lemma gapped_spaced (body tail : list Q) :
  tail = [] \/ tail = [100%Q] ->
  forall prev, gapped prev body -> spaced (body ++ tail).
Proof.
  intros Ht. induction body as [|a r IH]; intros prev H.
  - destruct Ht as [-> | ->]; exact I.
  - destruct H as [_ Hr]. specialize (IH a Hr).
    destruct r as [|b r'].
    + destruct Ht as [-> | ->]; [exact I|].
      simpl. split; [|exact I]. right. split; reflexivity.
    + destruct Hr as [Hgap _]. change ((a :: b :: r') ++ tail) with (a :: b :: (r' ++ tail)).
      change ((b :: r') ++ tail) with (b :: (r' ++ tail)) in IH.
      split; [left; exact Hgap | exact IH].
Qed.

Lemma mkv_run_spaced `{Platform} (w : ConvertWorker.t) (env : World) :
  spaced (progress_values (signals (Mkv.run w env))).
Proof.
  unfold Mkv.run.
  set (head := Started :: _).
  assert (Hhead : progress_values head = []) by
    (subst head; destruct (Mkv.get_duration (ffprobe env)); reflexivity).
  destruct (popen env) as [e|proc].
  - destruct (exc_class e); cbn [signals]; rewrite ?progress_values_app, Hhead; exact I.
  - pose proof (read_loop_gapped (Mkv.handle_line (Mkv.get_duration (ffprobe env)))
                  [Finished false ""] (mkv_handle_by_gap _) eq_refl
                  (stderr proc) (ConvertWorker._cancel w) 0%Q) as Hloop.
    unfold Mkv.read_stderr.
    destruct (read_loop _ _ _ _ _) as [out ex]; cbn [fst] in Hloop.
    destruct ex; [destruct (wait proc) as [e|rc]; [|destruct (rc =? 0)%Z]| |];
      cbn [signals]; rewrite ?progress_values_app, Hhead; cbn [progress_values app];
      rewrite ?app_nil_r;
      first [ apply (gapped_spaced _ [100%Q] (or_intror eq_refl) 0%Q Hloop)
            | rewrite <- (app_nil_r (progress_values out));
              apply (gapped_spaced _ [] (or_introl eq_refl) 0%Q Hloop) ].
Qed.

(** C4 on the code: with a duration of ten seconds and lines that report 5,
    20, 30 and 40 seconds, the workers of universal_to_mp4_gui.py and
    avi_to_mp4_gui.py emit the progress values 50, 100, 100, 100 and the
    100 of the end: a line past the duration passes the guard by
    [percent == 100.0] every time, so consecutive values differ by less than
    0.5 without the later one being the last. The worker of
    mkv_to_mp4_gui.py, whose guard has no such exception, emits 50, 100 and
    the 100 of the end there, and in every run its values are spaced as the
    claim says. *)
Theorem full_progress_is_repeated :
  let u := progress_values (signals (@Universal.run example_platform example_worker
                                       past_the_end)) in
  let a := progress_values (signals (@Avi.run example_platform example_worker past_the_end)) in
  let m := progress_values (signals (@Mkv.run example_platform example_worker past_the_end)) in
  (map Qred u = [50; 100; 100; 100; 100]%Q /\ ~ spaced u) /\
  (map Qred a = [50; 100; 100; 100; 100]%Q /\ ~ spaced a) /\
  map Qred m = [50; 100; 100]%Q /\
  (forall (P : Platform) (w : ConvertWorker.t) (env : World),
     spaced (progress_values (signals (Mkv.run w env)))).
Proof.
  cbv zeta. split; [|split; [|split]].
  - split; [vm_compute; reflexivity|].
    intros H. vm_compute in H. destruct H as (_ & [H|[H _]] & _); [apply H; reflexivity|].
    discriminate H.
  - split; [vm_compute; reflexivity|].
    intros H. vm_compute in H. destruct H as (_ & [H|[H _]] & _); [apply H; reflexivity|].
    discriminate H.
  - vm_compute. reflexivity.
  - intros P w env. apply mkv_run_spaced.
Qed.

(** A flag that is set only after the last line is never seen: the loop
    reaches the end of the stream. *)
Lemma read_loop_unseen (h : Q -> string -> list Signal * (Exc + Q)) (oc : list Signal) :
  (forall last line, exists out last', h last line = (out, inr last')) ->
  forall lines kills last,
    snd (read_loop h oc false last (map Line lines ++ repeat Kill kills)) = Exhausted.
Proof.
  intros Hh. induction lines as [|l r IH]; intros kills last; simpl.
  - generalize false. induction kills as [|k IHk]; intros c; simpl; [reflexivity | apply IHk].
  - destruct (Hh last l) as (out & last' & ->).
    specialize (IH kills last').
    destruct (read_loop h oc false last' (map Line r ++ repeat Kill kills)); simpl in *.
    exact IH.
Qed.

Lemma universal_run_flags `{Platform} (w : ConvertWorker.t) (ffp : Exc + string) (proc : Process) :
  finished_flags (signals (Universal.run w {| ffprobe := ffp; popen := inr proc |})) =
  match snd (Universal.read_stderr (Universal._get_duration ffp) (ConvertWorker._cancel w) 0
               (stderr proc)), wait proc with
  | Exhausted, inr rc => [(rc =? 0)%Z]
  | _, _ => [false]
  end.
Proof.
  unfold Universal.run. cbn [ffprobe popen].
  set (head := Started :: _).
  assert (Hhead : finished_flags head = []) by
    (subst head; destruct (Universal._get_duration ffp); reflexivity).
  pose proof (read_loop_finished (Universal.handle_line (Universal._get_duration ffp))
                [Log "Conversion cancelled."; Finished false ""]
                (fun last line => proj1 (universal_handle_by_rule _ last line))
                (stderr proc) (ConvertWorker._cancel w) 0%Q) as Hloop.
  unfold Universal.read_stderr.
  destruct (read_loop _ _ _ _ _) as [out ex]; cbn [fst snd] in *.
  destruct ex; [destruct (wait proc) as [e|rc]; [|destruct (rc =? 0)%Z]| |];
    cbn [signals]; rewrite !finished_flags_app, Hhead, Hloop; reflexivity.
Qed.

(** C1, as the code has it: when [kill] is called and the worker reads the
    stream once more after it (a line, or an exception of the read), the run
    returns after one [finished] with [success=False]. When [kill] is called
    only after the last line has been read, the flag is not looked at again.
    On a worker [w'] whose flag was clear at the start and a stream of
    [lines] followed by calls of [kill], [finished] then carries the return
    code: success exactly when it is zero. *)
Theorem cancel_seen_at_next_read (P : Platform) (w w' : ConvertWorker.t)
    (ffp : Exc + string) (proc : Process) (pre post : list StderrEvent)
    (lines : list string) (kills : nat) (rc : Z) :
  stderr proc = pre ++ Kill :: post ->
  existsb is_read post = true ->
  ConvertWorker._cancel w' = false ->
  (completion (Universal.run w {| ffprobe := ffp; popen := inr proc |}) = Returns /\
   finished_flags (signals (Universal.run w {| ffprobe := ffp; popen := inr proc |})) = [false]) /\
  finished_flags (signals (Universal.run w'
    {| ffprobe := ffp;
       popen := inr {| stderr := map Line lines ++ repeat Kill kills; wait := inr rc |} |}))
  = [(rc =? 0)%Z].
Proof.
  intros Hst Hread Hclear. split; [split|].
  - apply universal_run_returns.
  - rewrite universal_run_flags. unfold Universal.read_stderr. rewrite Hst.
    pose proof (read_loop_killed (Universal.handle_line (Universal._get_duration ffp))
                  [Log "Conversion cancelled."; Finished false ""]
                  pre post (ConvertWorker._cancel w) 0%Q Hread) as Hne.
    destruct (snd _); [contradiction | reflexivity | reflexivity].
  - rewrite universal_run_flags. unfold Universal.read_stderr. cbn [stderr wait].
    rewrite Hclear, read_loop_unseen; [reflexivity|].
    intros last line. apply universal_handle_no_raise.
Qed.

Lemma cancel_seen_at_next_read_witness :
  (completion (@Universal.run example_platform example_worker cancelled_early) = Returns /\
   finished_flags (signals (@Universal.run example_platform example_worker cancelled_early))
   = [false]) /\
  finished_flags (signals (@Universal.run example_platform example_worker cancelled_late))
  = [true].
Proof.
  apply (cancel_seen_at_next_read example_platform example_worker example_worker
           (inr "120.000000")
           {| stderr := [Line "frame=  720 fps= 24 time=00:00:30.00 bitrate= 900kbits/s";
                         Kill;
                         Line "frame= 1440 fps= 24 time=00:01:00.00 bitrate= 900kbits/s"];
              wait := inr 0%Z |}
           [Line "frame=  720 fps= 24 time=00:00:30.00 bitrate= 900kbits/s"]
           [Line "frame= 1440 fps= 24 time=00:01:00.00 bitrate= 900kbits/s"]
           ["frame= 2870 fps= 24 time=00:01:59.50 bitrate= 900kbits/s"] 1 0%Z);
    reflexivity.
Defined.

(** C1 as stated fails: [kill] is called during the run, after the last
    line has been read, and the run ends with [finished(True, output_path)]. *)
Lemma cancel_after_last_line_succeeds :
  (exists proc, popen cancelled_late = inr proc /\ In Kill (stderr proc)) /\
  map (fun s => match s with Progress p => Progress (Qred p) | _ => s end)
      (signals (@Universal.run example_platform example_worker cancelled_late))
  = [Started;
     Log "frame= 2870 fps= 24 time=00:01:59.50 bitrate= 900kbits/s";
     Progress (1195 # 12);
     Progress 100;
     Finished true "/videos/a.mp4"].
Proof.
  split; [eexists; split; [reflexivity | right; left; reflexivity] | reflexivity].
Qed.

(** C6 on mkv_to_mp4_gui.py: an exception of [Popen] other than
    [FileNotFoundError], and an exception raised while the stream is read,
    leave [run]; no [finished] is emitted. *)
Theorem mkv_exception_escapes :
  (completion (@Mkv.run example_platform example_worker ffmpeg_not_executable)
   = Raises permission_denied /\
   finished_flags (signals (@Mkv.run example_platform example_worker ffmpeg_not_executable))
   = []) /\
  (completion (@Mkv.run example_platform example_worker stderr_undecodable)
   = Raises undecodable /\
   finished_flags (signals (@Mkv.run example_platform example_worker stderr_undecodable)) = []).
Proof. repeat split. Qed.

(** The same worlds in universal_to_mp4_gui.py and avi_to_mp4_gui.py: the
    exception is caught and one [finished(False, "")] is emitted. *)
Lemma siblings_catch :
  (completion (@Universal.run example_platform example_worker ffmpeg_not_executable) = Returns /\
   finished_flags (signals (@Universal.run example_platform example_worker ffmpeg_not_executable))
   = [false]) /\
  (completion (@Universal.run example_platform example_worker stderr_undecodable) = Returns /\
   finished_flags (signals (@Universal.run example_platform example_worker stderr_undecodable))
   = [false]) /\
  (completion (@Avi.run example_platform example_worker ffmpeg_not_executable) = Returns /\
   finished_flags (signals (@Avi.run example_platform example_worker ffmpeg_not_executable))
   = [false]) /\
  (completion (@Avi.run example_platform example_worker stderr_undecodable) = Returns /\
   finished_flags (signals (@Avi.run example_platform example_worker stderr_undecodable))
   = [false]).
Proof. repeat split. Qed.

Lemma universal_run_flags_spawn `{Platform} (w : ConvertWorker.t) (ffp : Exc + string) (e : Exc) :
  finished_flags (signals (Universal.run w {| ffprobe := ffp; popen := inl e |})) = [false].
Proof.
  unfold Universal.run. cbn [ffprobe popen].
  destruct (exc_class e), (Universal._get_duration ffp); reflexivity.
Qed.

(** C10: when ffprobe gives no duration, or a duration of zero, a turn of
    the loop does nothing but log the line: the percent is not computed (so
    nothing is divided by the duration) and [last] is kept, in the three
    workers; their loops emit no progress value. A run of
    universal_to_mp4_gui.py then returns, and its only progress value is the
    100 of a successful end. On a stream that is read to its end, the three
    workers log every line that is not blank and end as the return code says:
    [progress(100)] and [finished(True, output_path)] for zero, a failure
    otherwise. *)
Theorem unknown_duration_is_quiet (P : Platform) (d : option Q) (env : World)
    (w w' : ConvertWorker.t) (lines : list string) (kills : nat) (rc : Z) :
  known d = None ->
  Universal._get_duration (ffprobe env) = d ->
  known (Mkv.get_duration (ffprobe env)) = None ->
  ConvertWorker._cancel w' = false ->
  let clean := {| ffprobe := ffprobe env;
                  popen := inr {| stderr := map Line lines ++ repeat Kill kills;
                                  wait := inr rc |} |} in
  (forall last line,
     Universal.handle_line d last line = (log_line (Py.strip line), inr last) /\
     Avi.handle_line d last line = (log_line (Py.strip line), inr last) /\
     Mkv.handle_line d last line = (log_line (Py.strip line), inr last)) /\
  (forall cancel last evs,
     progress_values (fst (Universal.read_stderr d cancel last evs)) = [] /\
     progress_values (fst (Avi.read_stderr d cancel last evs)) = [] /\
     progress_values (fst (Mkv.read_stderr d cancel last evs)) = []) /\
  completion (Universal.run w env) = Returns /\
  progress_values (signals (Universal.run w env)) =
    (if succeeded (Universal.run w env) then [100%Q] else []) /\
  signals (Universal.run w' clean)
    = universal_opening d ++ plain_logs lines ++ universal_ending w' rc /\
  signals (Avi.run w' clean) = avi_opening d ++ plain_logs lines ++ avi_ending w' rc /\
  signals (Mkv.run w' clean)
    = mkv_opening (Mkv.get_duration (ffprobe env)) ++ plain_logs lines ++ mkv_ending w' rc.
Proof.
  intros K Hd Km Hclear clean.
  assert (Hu := fun last line => universal_handle_unknown d last line K).
  assert (Ha := fun last line => avi_handle_unknown d last line K).
  assert (Hm := fun last line => mkv_handle_unknown d last line K).
  split; [auto|].
  split; [intros cancel last evs; repeat split; apply read_loop_quiet; auto|].
  split; [apply universal_run_returns|].
  split; [|split; [|split]].
  - destruct env as [ffp [e|proc]]; cbn [ffprobe] in Hd.
    + unfold succeeded. rewrite universal_run_progress, universal_run_flags_spawn. reflexivity.
    + unfold succeeded. rewrite universal_run_progress, universal_run_flags.
      cbn [ffprobe popen]. cbv zeta. rewrite Hd.
      unfold Universal.read_stderr at 1. rewrite read_loop_quiet by auto.
      destruct (snd _); [|reflexivity|reflexivity].
      destruct (wait proc) as [e|rc']; [reflexivity|].
      destruct (rc' =? 0)%Z; reflexivity.
  - subst clean. unfold Universal.run. cbn [ffprobe popen stderr wait]. rewrite Hd, Hclear.
    unfold Universal.read_stderr. rewrite read_loop_plain by auto.
    unfold universal_opening, universal_ending.
    destruct (rc =? 0)%Z; reflexivity.
  - subst clean. unfold Avi.run. cbn [ffprobe popen stderr wait].
    change (Avi._get_duration (ffprobe env)) with (Universal._get_duration (ffprobe env)).
    rewrite Hd, Hclear.
    unfold Avi.read_stderr. rewrite read_loop_plain by auto.
    unfold avi_opening, avi_ending.
    destruct (rc =? 0)%Z; reflexivity.
  - subst clean. unfold Mkv.run. cbn [ffprobe popen stderr wait]. rewrite Hclear.
    unfold Mkv.read_stderr.
    rewrite read_loop_plain by (intros; apply mkv_handle_unknown, Km).
    unfold mkv_opening, mkv_ending.
    destruct (rc =? 0)%Z; reflexivity.
Qed.

Lemma unknown_duration_is_quiet_witness :
  (forall last line,
     @Universal.handle_line example_platform None last line
     = (log_line (Py.strip line), inr last) /\
     @Avi.handle_line example_platform None last line
     = (log_line (Py.strip line), inr last) /\
     @Mkv.handle_line example_platform None last line
     = (log_line (Py.strip line), inr last)) /\
  (forall cancel last evs,
     progress_values (fst (@Universal.read_stderr example_platform None cancel last evs)) = [] /\
     progress_values (fst (@Avi.read_stderr example_platform None cancel last evs)) = [] /\
     progress_values (fst (@Mkv.read_stderr example_platform None cancel last evs)) = []) /\
  completion (@Universal.run example_platform example_worker no_duration) = Returns /\
  progress_values (signals (@Universal.run example_platform example_worker no_duration)) =
    (if succeeded (@Universal.run example_platform example_worker no_duration)
     then [100%Q] else []) /\
  signals (@Universal.run example_platform example_worker no_duration)
    = universal_opening None ++ plain_logs no_duration_lines ++ universal_ending example_worker 0 /\
  signals (@Avi.run example_platform example_worker no_duration)
    = avi_opening None ++ plain_logs no_duration_lines ++ avi_ending example_worker 0 /\
  signals (@Mkv.run example_platform example_worker no_duration)
    = mkv_opening None ++ plain_logs no_duration_lines ++ mkv_ending example_worker 0.
Proof.
  apply (unknown_duration_is_quiet example_platform None no_duration
           example_worker example_worker no_duration_lines 0 0%Z);
    reflexivity.
Defined.

(** ** Facts on the dict [self.items] *)

Lemma get_In (its : list (string * Meta)) (path : string) (m : Meta) :
  get its path = Some m -> In (path, m) its.
Proof.
  induction its as [|[k m0] r IH]; simpl; [discriminate|].
  destruct (String.eqb k path) eqn:E.
  - apply String.eqb_eq in E. intros [= ->]. subst. left. reflexivity.
  - intros H. right. apply IH, H.
Qed.

Lemma get_None_keys (its : list (string * Meta)) (path : string) :
  get its path = None <-> ~ In path (map fst its).
Proof.
  induction its as [|[k m0] r IH]; simpl; [tauto|].
  destruct (String.eqb k path) eqn:E.
  - apply String.eqb_eq in E. split; [discriminate | intros H; exfalso; apply H; auto].
  - apply String.eqb_neq in E. rewrite IH. tauto.
Qed.

Lemma replace_keys (its : list (string * Meta)) (path : string) (m : Meta) :
  map fst (replace its path m) = map fst its.
Proof.
  induction its as [|[k m0] r IH]; simpl; [reflexivity|].
  destruct (String.eqb k path); simpl; [reflexivity | rewrite IH; reflexivity].
Qed.

Lemma replace_length (its : list (string * Meta)) (path : string) (m : Meta) :
  List.length (replace its path m) = List.length its.
Proof.
  rewrite <- (length_map fst (replace its path m)), replace_keys, length_map. reflexivity.
Qed.

Lemma replace_Forall (Q : Meta -> Prop) (its : list (string * Meta)) (path : string) (m : Meta) :
  Forall (fun e => Q (snd e)) its -> Q m -> Forall (fun e => Q (snd e)) (replace its path m).
Proof.
  intros H Hm. induction its as [|[k m0] r IH]; simpl; [constructor|].
  apply Forall_cons in H as [H0 Hr].
  destruct (String.eqb k path); constructor; auto.
Qed.

Lemma get_replace_same (its : list (string * Meta)) (path : string) (m0 m : Meta) :
  get its path = Some m0 -> get (replace its path m) path = Some m.
Proof.
  induction its as [|[k m1] r IH]; simpl; [discriminate|].
  destruct (String.eqb k path) eqn:E; simpl; rewrite E; [reflexivity | exact IH].
Qed.

Lemma get_replace_other (its : list (string * Meta)) (path other : string) (m : Meta) :
  other <> path -> get (replace its path m) other = get its other.
Proof.
  intros Hne. induction its as [|[k m1] r IH]; simpl; [reflexivity|].
  destruct (String.eqb k path) eqn:E; simpl.
  - apply String.eqb_eq in E. subst k.
    destruct (String.eqb path other) eqn:E2; [|reflexivity].
    apply String.eqb_eq in E2. congruence.
  - rewrite IH. reflexivity.
Qed.

Lemma pop_keys_incl (its : list (string * Meta)) (path k : string) :
  In k (map fst (pop its path)) -> In k (map fst its).
Proof.
  induction its as [|[k0 m0] r IH]; simpl; [tauto|].
  destruct (String.eqb k0 path); simpl; [tauto|]. intros [H|H]; auto.
Qed.

Lemma pop_NoDup (its : list (string * Meta)) (path : string) :
  NoDup (map fst its) -> NoDup (map fst (pop its path)).
Proof.
  induction its as [|[k0 m0] r IH]; simpl; [trivial|].
  intros H. apply NoDup_cons in H as [Hk Hr].
  destruct (String.eqb k0 path); simpl; [exact Hr|].
  apply NoDup_cons. split; [|apply IH, Hr].
  intros Hin. apply Hk. apply list_elem_of_In. apply list_elem_of_In in Hin.
  eapply pop_keys_incl, Hin.
Qed.

Lemma pop_Forall (Q : string * Meta -> Prop) (its : list (string * Meta)) (path : string) :
  Forall Q its -> Forall Q (pop its path).
Proof.
  intros H. induction its as [|[k m0] r IH]; simpl; [constructor|].
  apply Forall_cons in H as [H0 Hr].
  destruct (String.eqb k path); [exact Hr | constructor; auto].
Qed.

Lemma get_pop_same (its : list (string * Meta)) (path : string) :
  NoDup (map fst its) -> get (pop its path) path = None.
Proof.
  induction its as [|[k m0] r IH]; simpl; [reflexivity|].
  intros H. apply NoDup_cons in H as [Hk Hr].
  destruct (String.eqb k path) eqn:E; simpl.
  - apply String.eqb_eq in E. subst k. apply get_None_keys.
    intros Hin. apply Hk, list_elem_of_In, Hin.
  - rewrite E. apply IH, Hr.
Qed.

Lemma get_pop_other (its : list (string * Meta)) (path other : string) :
  other <> path -> get (pop its path) other = get its other.
Proof.
  intros Hne. induction its as [|[k m0] r IH]; simpl; [reflexivity|].
  destruct (String.eqb k path) eqn:E; simpl.
  - apply String.eqb_eq in E. subst k.
    destruct (String.eqb path other) eqn:E2; [|reflexivity].
    apply String.eqb_eq in E2. congruence.
  - rewrite IH. reflexivity.
Qed.

Lemma meta_ok_more (n n' : nat) (m : Meta) : (n <= n')%nat -> meta_ok n m -> meta_ok n' m.
Proof.
  unfold meta_ok. intros Hle. destruct (status m); auto.
  intros (ref & Hw & Hlt). exists ref. split; [exact Hw | lia].
Qed.

Lemma kill_at_length (ws : list ConvertWorker.t) (i : nat) :
  List.length (kill_at ws i) = List.length ws.
Proof.
  revert i. induction ws as [|x r IH]; intros i; simpl; [reflexivity|].
  destruct i; simpl; [reflexivity | rewrite IH; reflexivity].
Qed.

Lemma kill_at_flag (ws : list ConvertWorker.t) (i : nat) :
  (i < List.length ws)%nat ->
  option_map ConvertWorker._cancel (nth_error (kill_at ws i) i) = Some true.
Proof.
  revert i. induction ws as [|x r IH]; intros i; simpl; [lia|].
  destruct i; simpl; [reflexivity | intros H; apply IH; lia].
Qed.

(** ** The invariant of the window *)

Lemma meta_ok_setText (n : nat) (m : Meta) (t : StatusText) :
  meta_ok n m -> meta_ok n (with_widget m (setText (widget m) t)).
Proof. unfold meta_ok. simpl. trivial. Qed.

Lemma meta_ok_worker (n : nat) (m : Meta) (ref : nat) :
  meta_ok n m -> worker m = Some ref -> status m = Running /\ (ref < n)%nat.
Proof.
  unfold meta_ok. intros H Hw. destruct (status m).
  - destruct H as [_ H]. congruence.
  - destruct H as (r & Hr & Hlt). split; [reflexivity|]. congruence.
  - destruct H as [_ H]. congruence.
  - congruence.
Qed.

Lemma meta_ok_idle (n : nat) (m : Meta) :
  meta_ok n m -> worker m = None -> status m <> Running.
Proof.
  unfold meta_ok. intros H Hw. destruct (status m); try discriminate.
  destruct H as (r & Hr & _). congruence.
Qed.

Lemma window_ok_get (w : MainWindow) (path : string) (m : Meta) :
  window_ok w -> get (items w) path = Some m -> meta_ok (List.length (workers w)) m.
Proof.
  intros [_ H] Hg. apply get_In in Hg.
  rewrite Forall_forall in H. apply (H (path, m)). apply list_elem_of_In, Hg.
Qed.

Lemma window_ok_replace (w : MainWindow) (path : string) (m : Meta) :
  window_ok w -> meta_ok (List.length (workers w)) m ->
  window_ok (set_items w (replace (items w) path m)).
Proof.
  intros [Hk Hm] Hok. split; cbn.
  - rewrite replace_keys. exact Hk.
  - apply (replace_Forall (meta_ok (List.length (workers w)))); assumption.
Qed.

(** The invariant looks only at [self.items] and at the number of workers. *)
Lemma window_ok_same (w w' : MainWindow) :
  items w' = items w -> List.length (workers w') = List.length (workers w) ->
  window_ok w -> window_ok w'.
Proof. unfold window_ok. intros -> ->. trivial. Qed.

Section Invariant.
Context {P : Platform}.
Variable accepts : string -> bool.
Variable log_limit : Z.
Variable preset_args : list string.

Lemma ok_log (w : MainWindow) (text : string) :
  window_ok w -> window_ok (_log log_limit w text).
Proof. apply window_ok_same; reflexivity. Qed.

Lemma ok_add_file (w : MainWindow) (path : string) :
  window_ok w -> window_ok (_add_file accepts log_limit w path).
Proof.
  intros Hok. unfold _add_file.
  destruct (accepts path); cbn [negb]; [|exact Hok].
  unfold contains. destruct (get (items w) (abspath path)) eqn:G; [exact Hok|].
  apply ok_log. destruct Hok as [Hk Hm]. split; cbn.
  - rewrite map_app. cbn. apply NoDup_app. split; [exact Hk|]. split.
    + intros x Hx Hx'. apply list_elem_of_singleton in Hx'. subst x.
      apply get_None_keys in G. apply G, list_elem_of_In, Hx.
    + apply NoDup_singleton.
  - apply Forall_app. split; [exact Hm|].
    constructor; [|constructor]. unfold meta_ok. cbn. auto.
Qed.

Lemma ok_scan_files (root : string) (files : list string) :
  forall w count, window_ok w ->
    window_ok (fst (scan_files accepts log_limit w root files count)).
Proof.
  induction files as [|fn rest IH]; intros w count Hok; simpl; [exact Hok|].
  destruct (accepts fn); apply IH; [apply ok_add_file|]; exact Hok.
Qed.

Lemma ok_scan_walk (walk : list (string * list string)) :
  forall w count, window_ok w ->
    window_ok (fst (scan_walk accepts log_limit w walk count)).
Proof.
  induction walk as [|[root files] rest IH]; intros w count Hok; simpl; [exact Hok|].
  pose proof (ok_scan_files root files w count Hok) as H1.
  destruct (scan_files accepts log_limit w root files count) as [w1 c1]. apply IH, H1.
Qed.

Lemma ok_watch_folder (w : MainWindow) (folder : string) :
  window_ok w -> window_ok (_watch_folder log_limit w folder).
Proof.
  unfold _watch_folder. destruct (bool_decide _); [trivial|].
  apply window_ok_same; reflexivity.
Qed.

Lemma ok_scan_folder (w : MainWindow) (folder : string) (walk : list (string * list string)) :
  window_ok w -> window_ok (_scan_folder accepts log_limit w folder walk).
Proof.
  intros Hok. unfold _scan_folder.
  pose proof (ok_scan_walk walk w 0%Z Hok) as H1.
  destruct (scan_walk accepts log_limit w walk 0) as [w1 c1]. cbn [fst] in H1.
  destruct (chk_watch _); [apply ok_watch_folder|]; apply ok_log, H1.
Qed.

Lemma ok_toggle_watch (w : MainWindow) (state : Z) :
  window_ok w -> window_ok (_toggle_watch log_limit w state).
Proof.
  unfold _toggle_watch. destruct (state =? 0)%Z; [|trivial].
  apply window_ok_same; reflexivity.
Qed.

Lemma ok_start_conversion (w : MainWindow) (src_path : string) :
  window_ok w -> window_ok (_start_conversion log_limit preset_args w src_path).
Proof.
  intros Hok. unfold _start_conversion.
  destruct (get (items w) src_path) as [meta|] eqn:G; [|exact Hok].
  apply ok_log. destruct Hok as [Hk Hm]. split; cbn.
  - rewrite replace_keys. exact Hk.
  - rewrite length_app. cbn.
    apply (replace_Forall (meta_ok (List.length (workers w) + 1))).
    + eapply Forall_impl; [exact Hm|]. intros e. apply meta_ok_more. lia.
    + unfold meta_ok. cbn. exists (List.length (workers w)). split; [reflexivity | lia].
Qed.

Lemma ok_start_all (w : MainWindow) (which : option string) :
  window_ok w -> window_ok (start_all log_limit preset_args w which).
Proof.
  intros Hok. unfold start_all.
  set (w1 := set_ffprobe_path _ _).
  assert (H1 : window_ok w1) by (revert Hok; apply window_ok_same; reflexivity).
  destruct (map fst _) as [|p queue] eqn:Q.
  - revert H1. apply window_ok_same; reflexivity.
  - clear Q. generalize (p :: queue). intros l. revert H1. generalize w1.
    induction l as [|q l IH]; intros w2 H2; simpl; [exact H2|].
    apply IH, ok_start_conversion, H2.
Qed.

Lemma ok_on_started (w : MainWindow) (src : string) :
  window_ok w -> window_ok (_on_started w src).
Proof.
  intros Hok. unfold _on_started.
  destruct (get (items w) src) as [m|] eqn:G; [|exact Hok].
  apply window_ok_replace; [exact Hok|].
  apply meta_ok_setText, (window_ok_get w src m Hok G).
Qed.

Lemma ok_on_progress (w : MainWindow) (src : string) (percent : Q) :
  deliverable w (SigProgress src percent) = true ->
  window_ok w -> window_ok (_on_progress w src percent).
Proof.
  intros Hd Hok. unfold _on_progress. cbn in Hd.
  destruct (get (items w) src) as [m|] eqn:G; [|exact Hok].
  apply window_ok_replace; [exact Hok|].
  pose proof (window_ok_get w src m Hok G) as Hm.
  destruct (worker m) as [ref|] eqn:W; [|discriminate].
  destruct (meta_ok_worker _ m ref Hm W) as [Hs Hlt].
  unfold meta_ok. cbn. rewrite Hs. eauto.
Qed.

Lemma ok_on_finished (w : MainWindow) (src : string) (ok : bool) (outpath : string) :
  window_ok w -> window_ok (_on_finished log_limit w src ok outpath).
Proof.
  intros Hok. unfold _on_finished.
  destruct (get (items w) src) as [m|] eqn:G; [|exact Hok].
  assert (H1 : window_ok (set_items w (replace (items w) src
            {| widget := set_done (widget m) ok; item := item m; worker := None;
               status := if ok then Done else Failed |}))).
  { apply window_ok_replace; [exact Hok|]. unfold meta_ok. destruct ok; cbn; auto. }
  destruct ok; apply ok_log, H1.
Qed.

Lemma ok_stop_one (w : MainWindow) (e : string * Meta) :
  window_ok w -> window_ok (stop_one w e).
Proof.
  intros Hok. unfold stop_one. destruct (worker (snd e)) as [ref|]; [|exact Hok].
  set (w1 := set_workers w _).
  assert (H1 : window_ok w1).
  { revert Hok. apply window_ok_same; [reflexivity|]. apply kill_at_length. }
  destruct (get (items w1) (fst e)) as [m|] eqn:G; [|exact H1].
  apply window_ok_replace; [exact H1|].
  apply meta_ok_setText, (window_ok_get w1 (fst e) m H1 G).
Qed.

Lemma ok_stop_all (w : MainWindow) : window_ok w -> window_ok (stop_all log_limit w).
Proof.
  intros Hok. unfold stop_all. apply ok_log.
  revert Hok. generalize (items w). intros l. revert w.
  induction l as [|e l IH]; intros w Hok; simpl; [exact Hok|].
  apply IH, ok_stop_one, Hok.
Qed.

Lemma ok_remove_item (w : MainWindow) (src : string) :
  window_ok w -> window_ok (_remove_item log_limit w src).
Proof.
  intros Hok. unfold _remove_item.
  destruct (get (items w) src) as [m|]; [|exact Hok].
  apply ok_log. destruct Hok as [Hk Hm]. split; cbn.
  - apply pop_NoDup, Hk.
  - apply pop_Forall, Hm.
Qed.

Lemma ok_cancel_item (w : MainWindow) (src : string) :
  window_ok w -> window_ok (_cancel_item log_limit w src).
Proof.
  intros Hok. unfold _cancel_item.
  destruct (get (items w) src) as [m|] eqn:G; [|exact Hok].
  destruct (worker m) as [ref|]; [|apply ok_remove_item, Hok].
  set (w1 := set_workers w _).
  assert (H1 : window_ok w1).
  { revert Hok. apply window_ok_same; [reflexivity|]. apply kill_at_length. }
  apply (window_ok_replace w1); [exact H1|].
  apply meta_ok_setText. subst w1. cbn [workers set_workers].
  rewrite (kill_at_length (workers w) ref).
  apply (window_ok_get w src m Hok G).
Qed.

Lemma ok_refresh_overall (w : MainWindow) : window_ok w -> window_ok (_refresh_overall w).
Proof.
  unfold _refresh_overall. destruct (List.length (items w)); apply window_ok_same; reflexivity.
Qed.

(** Every deliverable event keeps the invariant. *)
Lemma ok_handle (w : MainWindow) (ev : Event) :
  deliverable w ev = true -> window_ok w ->
  window_ok (handle accepts log_limit preset_args w ev).
Proof.
  intros Hd Hok. destruct ev; cbn [handle].
  - apply ok_add_file, Hok.
  - apply ok_scan_folder, Hok.
  - unfold _on_folder_changed. apply ok_scan_folder, ok_log, Hok.
  - apply ok_toggle_watch. revert Hok. apply window_ok_same; reflexivity.
  - revert Hok. apply window_ok_same; reflexivity.
  - unfold browse_ffmpeg. destruct (Py.truthy path); [|exact Hok].
    revert Hok. apply window_ok_same; reflexivity.
  - apply ok_start_all, Hok.
  - apply ok_stop_all, Hok.
  - apply ok_cancel_item, Hok.
  - revert Hok. apply window_ok_same; reflexivity.
  - apply ok_refresh_overall, Hok.
  - apply ok_on_started, Hok.
  - apply ok_on_progress; assumption.
  - apply ok_on_finished, Hok.
  - apply ok_log, Hok.
Qed.

Lemma ok_run_events (evs : list Event) :
  forall w, window_ok w -> window_ok (run_events accepts log_limit preset_args w evs).
Proof.
  induction evs as [|ev rest IH]; intros w Hok; simpl; [exact Hok|].
  apply IH. destruct (deliverable w ev) eqn:D; [apply ok_handle; assumption | exact Hok].
Qed.

Lemma reachable_ok (w : MainWindow) :
  reachable accepts log_limit preset_args w -> window_ok w.
Proof.
  intros (ideal & ffmpeg & ffprobe & evs & ->). apply ok_run_events.
  split; cbn; constructor.
Qed.

End Invariant.

(** ** The watch *)

(** C7 on the code: unchecking the box detaches every watched directory
    and also empties the set [self.watched]; checking it again brings nothing
    back, in universal_to_mp4_gui.py (and mkv_to_mp4_gui.py, whose slot is the
    same) as in avi_to_mp4_gui.py, whose branch for the checked box
    re-attaches the members of a set that the other branch has emptied. *)
Theorem unwatch_forgets_directories :
  let w1 := universal_events universal_window watching_videos in
  let w2 := universal_handle w1 (ToggleWatch 0) in
  let w3 := universal_handle w2 (ToggleWatch 2) in
  let a2 := avi_update_watch 5000 (fun _ => true) w1 0 in
  let a3 := avi_update_watch 5000 (fun _ => true) a2 2 in
  (elements (watched w1) = ["/videos"] /\ elements (watcher w1) = ["/videos"]) /\
  (elements (watched w2) = [] /\ elements (watcher w2) = []) /\
  (elements (watched w3) = [] /\ elements (watcher w3) = []) /\
  (elements (watched a2) = [] /\ elements (watcher a2) = []) /\
  (elements (watched a3) = [] /\ elements (watcher a3) = []).
Proof. vm_compute. repeat split. Qed.

(** Whatever was watched, [_toggle_watch] with state 0 leaves [self.watched] empty. *)
Lemma toggle_off_clears (log_limit : Z) (w : MainWindow) :
  watched (_toggle_watch log_limit w 0) = ∅ /\
  watcher (_toggle_watch log_limit w 0) = watcher w ∖ watched w.
Proof. split; reflexivity. Qed.

(** ** Removal *)

Section Removal.
Context {P : Platform}.
Variable accepts : string -> bool.
Variable log_limit : Z.
Variable preset_args : list string.

(** C8 on the code: the cancel button of a job takes the branch commented
    [# remove queued item] whenever the job has no worker, and a job has no
    worker when it is queued and also when it is done or has failed: the
    button removes a done job and a failed job from the registry, where the
    claim (and the comment) keep them. The other jobs stay as they are. On a
    running job the button removes nothing: the job keeps its entry, its
    status and its worker, whose flag is now set. *)
Theorem cancel_item_removes_idle (w : MainWindow) (src : string) (m : Meta) :
  reachable accepts log_limit preset_args w ->
  get (items w) src = Some m ->
  let w' := _cancel_item log_limit w src in
  (forall other, other <> src -> get (items w') other = get (items w) other) /\
  match status m with
  | Queued | Done | Failed => get (items w') src = None
  | Running =>
      exists ref m',
        worker m = Some ref /\ get (items w') src = Some m' /\
        status m' = Running /\ worker m' = Some ref /\
        option_map ConvertWorker._cancel (nth_error (workers w') ref) = Some true
  end.
Proof.
  intros Hr G w'. apply reachable_ok in Hr.
  pose proof (window_ok_get w src m Hr G) as Hm.
  subst w'. unfold _cancel_item. rewrite G.
  destruct (worker m) as [ref|] eqn:W.
  - destruct (meta_ok_worker _ m ref Hm W) as [Hs Hlt]. rewrite Hs. split.
    + intros other Hne. cbn. apply get_replace_other, Hne.
    + exists ref, (with_widget m (setText (widget m) TxtCancelling)).
      split; [reflexivity|]. split; [cbn; eapply get_replace_same, G|].
      split; [exact Hs|]. split; [exact W|]. cbn. apply kill_at_flag, Hlt.
  - pose proof (meta_ok_idle _ m Hm W) as Hs.
    unfold _remove_item. rewrite G. cbn. split.
    + intros other Hne. apply get_pop_other, Hne.
    + destruct Hr as [Hk _].
      destruct (status m); [| congruence | |]; apply get_pop_same, Hk.
Qed.

End Removal.

Lemma universal_reachable (evs : list Event) :
  @reachable example_platform universal_accepts 8000 universal_preset
    (universal_events universal_window evs).
Proof. exists 2%Z, "ffmpeg", "ffprobe", evs. reflexivity. Qed.

Lemma cancel_item_removes_idle_witness :
  let w := universal_events universal_window failed_then_cancel in
  let w' := _cancel_item 8000 w "/videos/a.avi" in
  (forall other, other <> "/videos/a.avi" -> get (items w') other = get (items w) other) /\
  get (items w') "/videos/a.avi" = None.
Proof.
  exact (cancel_item_removes_idle universal_accepts 8000 universal_preset
           (universal_events universal_window failed_then_cancel) "/videos/a.avi"
           {| widget := {| src := "/videos/a.avi"; dst := "/videos/a.mp4"; progress := 0;
                           status_text := TxtFailed |};
              item := 0; worker := None; status := Failed |}
           (universal_reachable failed_then_cancel) eq_refl).
Defined.

(** The two failing inputs: a job that is done, and a job that has failed,
    is in the registry, and the cancel button removes it. *)
Lemma cancel_removes_finished_jobs :
  let d := universal_events universal_window done_then_cancel in
  let f := universal_events universal_window failed_then_cancel in
  (option_map status (get (items d) "/videos/a.avi") = Some Done /\
   get (items (universal_handle d (CancelItem "/videos/a.avi"))) "/videos/a.avi" = None /\
   items (universal_handle d (CancelItem "/videos/a.avi")) = []) /\
  (option_map status (get (items f) "/videos/a.avi") = Some Failed /\
   get (items (universal_handle f (CancelItem "/videos/a.avi"))) "/videos/a.avi" = None /\
   items (universal_handle f (CancelItem "/videos/a.avi")) = []).
Proof. vm_compute. repeat split. Qed.

(** ** Dispatch *)

Lemma In_get (its : list (string * Meta)) (path : string) (m : Meta) :
  NoDup (map fst its) -> In (path, m) its -> get its path = Some m.
Proof.
  induction its as [|[k m0] r IH]; simpl; [tauto|].
  intros H. apply NoDup_cons in H as [Hk Hr]. intros [Heq|Hin].
  - injection Heq as -> ->. rewrite String.eqb_refl. reflexivity.
  - destruct (String.eqb k path) eqn:E; [|apply IH; assumption].
    apply String.eqb_eq in E. subst k. exfalso. apply Hk.
    apply list_elem_of_In. apply (in_map fst) in Hin. exact Hin.
Qed.

Lemma filter_keys_In (f : string * Meta -> bool) (its : list (string * Meta)) (k : string) :
  In k (map fst (List.filter f its)) -> In k (map fst its).
Proof.
  intros H. apply in_map_iff in H as (e & <- & He).
  apply List.filter_In in He as [He _]. apply in_map, He.
Qed.

Lemma filter_keys_NoDup (f : string * Meta -> bool) (its : list (string * Meta)) :
  NoDup (map fst its) -> NoDup (map fst (List.filter f its)).
Proof.
  induction its as [|e r IH]; simpl; [trivial|].
  intros H. apply NoDup_cons in H as [Hk Hr].
  destruct (f e); simpl; [|apply IH, Hr].
  apply NoDup_cons. split; [|apply IH, Hr].
  intros Hin. apply Hk. apply list_elem_of_In. apply list_elem_of_In in Hin.
  eapply filter_keys_In, Hin.
Qed.

Lemma queue_length (its : list (string * Meta)) :
  List.length (map fst (List.filter is_eligible its)) = eligible its.
Proof.
  rewrite length_map. unfold eligible, count_status.
  induction its as [|e r IH]; simpl; [reflexivity|].
  unfold is_eligible at 1. destruct (status (snd e)); simpl; lia.
Qed.

Lemma queue_entries (its : list (string * Meta)) :
  NoDup (map fst its) ->
  Forall (fun p => exists m, get its p = Some m /\ is_eligible (p, m) = true)
         (map fst (List.filter is_eligible its)).
Proof.
  intros Hk. apply Forall_forall. intros p Hp. apply list_elem_of_In in Hp.
  apply in_map_iff in Hp as ([k m] & <- & He).
  apply List.filter_In in He as [He Hel]. exists m. split; [|exact Hel].
  apply In_get; assumption.
Qed.

Lemma count_status_replace (s : Status) (its : list (string * Meta)) (path : string) (m m' : Meta) :
  get its path = Some m ->
  (count_status s (replace its path m') + (if Status_eqb (status m) s then 1 else 0) =
   count_status s its + (if Status_eqb (status m') s then 1 else 0))%nat.
Proof.
  unfold count_status. induction its as [|[k m0] r IH]; simpl; [discriminate|].
  destruct (String.eqb k path) eqn:E.
  - intros [= ->]. simpl.
    destruct (Status_eqb (status m) s), (Status_eqb (status m') s); simpl; lia.
  - intros G. specialize (IH G). simpl.
    destruct (Status_eqb (status m0) s); simpl; lia.
Qed.

Section Dispatch.
Variable log_limit : Z.
Variable preset_args : list string.

(** What one [_start_conversion] does to a job that is queued or failed. *)
Lemma start_conversion_counts (w : MainWindow) (path : string) (m : Meta) :
  get (items w) path = Some m -> is_eligible (path, m) = true ->
  let w' := _start_conversion log_limit preset_args w path in
  count_status Running (items w') = S (count_status Running (items w)) /\
  S (eligible (items w')) = eligible (items w) /\
  List.length (started (threadpool w')) = S (List.length (started (threadpool w))) /\
  maxThreadCount (threadpool w') = maxThreadCount (threadpool w) /\
  (forall other, other <> path -> get (items w') other = get (items w) other).
Proof.
  intros G El w'. subst w'. unfold _start_conversion. rewrite G. cbn.
  set (m' := {| widget := _; item := _; worker := _; status := Running |}).
  pose proof (count_status_replace Running (items w) path m m' G) as HR.
  pose proof (count_status_replace Queued (items w) path m m' G) as HQ.
  pose proof (count_status_replace Failed (items w) path m m' G) as HF.
  unfold is_eligible in El. cbn in El, HR, HQ, HF. unfold eligible.
  repeat split.
  - destruct (status m); cbn in *; try discriminate; unfold count_status in *; lia.
  - destruct (status m); cbn in *; try discriminate; unfold count_status in *; lia.
  - rewrite length_app. cbn. lia.
  - intros other Hne. apply get_replace_other, Hne.
Qed.

Lemma start_queue_counts (queue : list string) :
  forall w, NoDup queue ->
    Forall (fun p => exists m, get (items w) p = Some m /\ is_eligible (p, m) = true) queue ->
    let w' := fold_left (_start_conversion log_limit preset_args) queue w in
    (count_status Running (items w') = count_status Running (items w) + List.length queue)%nat /\
    (eligible (items w') + List.length queue = eligible (items w))%nat /\
    (List.length (started (threadpool w')) =
     List.length (started (threadpool w)) + List.length queue)%nat /\
    maxThreadCount (threadpool w') = maxThreadCount (threadpool w).
Proof.
  induction queue as [|q rest IH]; intros w Hnd Hall; simpl; [repeat split; lia|].
  apply NoDup_cons in Hnd as [Hq Hrest].
  apply Forall_cons in Hall as [(m & G & El) Hall].
  destruct (start_conversion_counts w q m G El) as (HR & HE & HS & HM & Hother).
  assert (Hall' : Forall (fun p => exists m0,
            get (items (_start_conversion log_limit preset_args w q)) p = Some m0 /\
            is_eligible (p, m0) = true) rest).
  { rewrite Forall_forall in *. intros p Hp. rewrite Hother; [apply Hall, Hp|].
    intros ->. apply Hq, Hp. }
  destruct (IH _ Hrest Hall') as (HR' & HE' & HS' & HM').
  repeat split; [lia | lia | lia | congruence].
Qed.

End Dispatch.

Section StartAll.
Context {P : Platform}.
Variable accepts : string -> bool.
Variable log_limit : Z.
Variable preset_args : list string.

(** C2, as the code has it: [start_all] marks every job that is queued or
    failed as running at once and hands one worker per such job to the pool,
    whatever the capacity; afterwards no job is queued or failed, and the
    number of running jobs has grown by the number of jobs dispatched. The
    capacity is a number kept by the pool: [start_all] does not change it,
    and [_set_threads] changes nothing else, so lowering it leaves the
    running jobs running. How many of the workers handed over execute at a
    time is decided inside [QThreadPool]. *)
Theorem start_all_dispatches_every_eligible_job (w : MainWindow) (which : option string) (n : Z) :
  reachable accepts log_limit preset_args w ->
  let w' := start_all log_limit preset_args w which in
  (count_status Running (items w') = count_status Running (items w) + eligible (items w))%nat /\
  eligible (items w') = 0%nat /\
  (List.length (started (threadpool w')) =
   List.length (started (threadpool w)) + eligible (items w))%nat /\
  maxThreadCount (threadpool w') = maxThreadCount (threadpool w) /\
  items (_set_threads w n) = items w /\
  started (threadpool (_set_threads w n)) = started (threadpool w) /\
  maxThreadCount (threadpool (_set_threads w n)) = n.
Proof.
  intros Hr w'. apply reachable_ok in Hr as [Hk _].
  assert (Hmain :
    (count_status Running (items w') = count_status Running (items w) + eligible (items w))%nat /\
    (eligible (items w') + eligible (items w) = eligible (items w))%nat /\
    (List.length (started (threadpool w')) =
     List.length (started (threadpool w)) + eligible (items w))%nat /\
    maxThreadCount (threadpool w') = maxThreadCount (threadpool w)).
  { subst w'. unfold start_all.
    set (w1 := set_ffprobe_path _ _).
    change (items w1) with (items w).
    fold is_eligible.
    pose proof (queue_length (items w)) as Hlen.
    pose proof (start_queue_counts log_limit preset_args
                  (map fst (List.filter is_eligible (items w))) w1
                  (filter_keys_NoDup _ _ Hk) (queue_entries _ Hk)) as Hq.
    rewrite Hlen in Hq. cbv zeta in Hq.
    destruct (map fst (List.filter is_eligible (items w))) as [|p queue] eqn:Q.
    - cbn in Hlen. cbn. unfold eligible, count_status in *. repeat split; lia.
    - exact Hq. }
  destruct Hmain as (H1 & H2 & H3 & H4).
  repeat split; try assumption. lia.
Qed.

End StartAll.

Lemma start_all_dispatches_every_eligible_job_witness :
  let w := universal_events universal_window
             [AddFile "/videos/a.avi"; AddFile "/videos/b.mkv"; AddFile "/videos/c.mov"] in
  let w' := start_all 8000 universal_preset w None in
  (count_status Running (items w') = count_status Running (items w) + eligible (items w))%nat /\
  eligible (items w') = 0%nat /\
  (List.length (started (threadpool w')) =
   List.length (started (threadpool w)) + eligible (items w))%nat /\
  maxThreadCount (threadpool w') = maxThreadCount (threadpool w) /\
  items (_set_threads w 1) = items w /\
  started (threadpool (_set_threads w 1)) = started (threadpool w) /\
  maxThreadCount (threadpool (_set_threads w 1)) = 1%Z.
Proof.
  exact (@start_all_dispatches_every_eligible_job example_platform universal_accepts 8000
           universal_preset _ None 1%Z
           (universal_reachable
              [AddFile "/videos/a.avi"; AddFile "/videos/b.mkv"; AddFile "/videos/c.mov"])).
Defined.

(** C2 as stated fails: with a capacity of 2, three jobs are running
    right after "start all"; and two jobs started under a capacity of 2 are
    still running when the capacity has been set to 1. *)
Lemma running_jobs_exceed_capacity :
  let a := universal_events universal_window three_started in
  let b := universal_events universal_window capacity_lowered in
  (count_status Running (items a) = 3%nat /\ maxThreadCount (threadpool a) = 2%Z /\
   started (threadpool a) = [0; 1; 2]%nat) /\
  (count_status Running (items b) = 2%nat /\ maxThreadCount (threadpool b) = 1%Z).
Proof. vm_compute. repeat split. Qed.

(** ** Enqueueing *)

Lemma get_app (its more : list (string * Meta)) (k : string) :
  get (its ++ more) k = match get its k with Some m => Some m | None => get more k end.
Proof.
  induction its as [|[k0 m0] r IH]; simpl; [destruct (get more k); reflexivity|].
  destruct (String.eqb k0 k); [reflexivity | exact IH].
Qed.

Lemma count_jobs_absent (its : list (string * Meta)) (k : string) :
  get its k = None -> count_jobs k its = 0%nat.
Proof.
  unfold count_jobs. induction its as [|[k0 m0] r IH]; simpl; [reflexivity|].
  destruct (String.eqb k0 k); [discriminate | exact IH].
Qed.

Lemma count_jobs_unique (its : list (string * Meta)) (k : string) :
  NoDup (map fst its) ->
  count_jobs k its = match get its k with Some _ => 1%nat | None => 0%nat end.
Proof.
  induction its as [|[k0 m0] r IH]; simpl; [reflexivity|].
  intros H. apply NoDup_cons in H as [Hk Hr].
  unfold count_jobs in *. simpl. destruct (String.eqb k0 k) eqn:E; simpl.
  - apply String.eqb_eq in E. subst k0.
    assert (G : get r k = None)
      by (apply get_None_keys; intros Hin; apply Hk, list_elem_of_In, Hin).
    pose proof (count_jobs_absent r k G) as C. unfold count_jobs in C. rewrite C. reflexivity.
  - apply IH, Hr.
Qed.

Section Enqueue.
Context {P : Platform}.
Variable accepts : string -> bool.
Variable log_limit : Z.
Variable preset_args : list string.

Lemma add_file_cases (w : MainWindow) (path : string) :
  if negb (accepts path) || contains (items w) (abspath path)
  then _add_file accepts log_limit w path = w
  else items (_add_file accepts log_limit w path) = items w ++ [fresh_entry w (abspath path)].
Proof.
  unfold _add_file. destruct (accepts path); cbn [negb orb]; [|reflexivity].
  destruct (contains (items w) (abspath path)); reflexivity.
Qed.

Lemma add_file_present (w : MainWindow) (path : string) :
  accepts path = true ->
  contains (items (_add_file accepts log_limit w path)) (abspath path) = true.
Proof.
  intros A. pose proof (add_file_cases w path) as H. rewrite A in H. cbn [negb orb] in H.
  destruct (contains (items w) (abspath path)) eqn:C; [rewrite H; exact C|].
  rewrite H. unfold contains, fresh_entry. rewrite get_app.
  destruct (get (items w) (abspath path)); [reflexivity|].
  cbn. rewrite String.eqb_refl. reflexivity.
Qed.

Lemma add_file_keeps (w : MainWindow) (path k : string) :
  contains (items w) k = true ->
  contains (items (_add_file accepts log_limit w path)) k = true.
Proof.
  intros C. pose proof (add_file_cases w path) as H.
  destruct (negb (accepts path) || contains (items w) (abspath path)); [rewrite H; exact C|].
  rewrite H. unfold contains in *. rewrite get_app.
  destruct (get (items w) k); [reflexivity | discriminate].
Qed.

Lemma add_file_noop (w : MainWindow) (path : string) :
  contains (items w) (abspath path) = true -> _add_file accepts log_limit w path = w.
Proof.
  intros C. pose proof (add_file_cases w path) as H. rewrite C, orb_true_r in H. exact H.
Qed.

Lemma add_file_twice (w : MainWindow) (path : string) :
  _add_file accepts log_limit (_add_file accepts log_limit w path) path
  = _add_file accepts log_limit w path.
Proof.
  destruct (accepts path) eqn:A.
  - apply add_file_noop, add_file_present, A.
  - unfold _add_file. rewrite A. reflexivity.
Qed.

Lemma scan_files_keeps (root : string) (files : list string) (k : string) :
  forall w count, contains (items w) k = true ->
    contains (items (fst (scan_files accepts log_limit w root files count))) k = true.
Proof.
  induction files as [|fn rest IH]; intros w count C; simpl; [exact C|].
  destruct (accepts fn); apply IH; [apply add_file_keeps|]; exact C.
Qed.

Lemma scan_files_settles (root : string) (files : list string) :
  forall w count,
    settled accepts (items (fst (scan_files accepts log_limit w root files count))) root files.
Proof.
  unfold settled. induction files as [|fn rest IH]; intros w count; simpl; [constructor|].
  destruct (accepts fn) eqn:A.
  - constructor; [|apply IH]. intros _ A2.
    apply scan_files_keeps, add_file_present, A2.
  - constructor; [cbv beta; intros A'; congruence | apply IH].
Qed.

Lemma scan_files_noop (root : string) (files : list string) :
  forall w count, settled accepts (items w) root files ->
    fst (scan_files accepts log_limit w root files count) = w.
Proof.
  unfold settled. induction files as [|fn rest IH]; intros w count H; simpl; [reflexivity|].
  apply Forall_cons in H as [Hfn Hrest].
  destruct (accepts fn) eqn:A; [|apply IH, Hrest].
  assert (Hadd : _add_file accepts log_limit w (Os.join root fn) = w).
  { destruct (accepts (Os.join root fn)) eqn:A2.
    - apply add_file_noop, Hfn; reflexivity.
    - unfold _add_file. rewrite A2. reflexivity. }
  rewrite Hadd. apply IH, Hrest.
Qed.

Lemma settled_keeps (its its' : list (string * Meta)) (root : string) (files : list string) :
  (forall k, contains its k = true -> contains its' k = true) ->
  settled accepts its root files -> settled accepts its' root files.
Proof.
  unfold settled. intros Hk H. eapply Forall_impl; [exact H|]. cbn. auto.
Qed.

Lemma scan_walk_keeps (walk : list (string * list string)) (k : string) :
  forall w count, contains (items w) k = true ->
    contains (items (fst (scan_walk accepts log_limit w walk count))) k = true.
Proof.
  induction walk as [|[root files] rest IH]; intros w count C; simpl; [exact C|].
  pose proof (scan_files_keeps root files k w count C) as H1.
  destruct (scan_files accepts log_limit w root files count) as [w1 c1]. apply IH, H1.
Qed.

Lemma scan_walk_settles (walk : list (string * list string)) :
  forall w count,
    Forall (fun d => settled accepts (items (fst (scan_walk accepts log_limit w walk count)))
                       (fst d) (snd d))
           walk.
Proof.
  induction walk as [|[root files] rest IH]; intros w count; simpl; [constructor|].
  pose proof (scan_files_settles root files w count) as H1.
  destruct (scan_files accepts log_limit w root files count) as [w1 c1]. cbn [fst] in H1.
  constructor; [|apply IH].
  cbn [fst snd]. eapply settled_keeps; [|exact H1].
  intros k. apply scan_walk_keeps.
Qed.

Lemma scan_walk_noop (walk : list (string * list string)) :
  forall w count, Forall (fun d => settled accepts (items w) (fst d) (snd d)) walk ->
    fst (scan_walk accepts log_limit w walk count) = w.
Proof.
  induction walk as [|[root files] rest IH]; intros w count H; simpl; [reflexivity|].
  apply Forall_cons in H as [Hd Hrest]. cbn [fst snd] in Hd.
  pose proof (scan_files_noop root files w count Hd) as H1.
  destruct (scan_files accepts log_limit w root files count) as [w1 c1]. cbn [fst] in H1.
  subst w1. apply IH, Hrest.
Qed.

Lemma scan_folder_items (w : MainWindow) (folder : string) (walk : list (string * list string)) :
  items (_scan_folder accepts log_limit w folder walk)
  = items (fst (scan_walk accepts log_limit w walk 0)).
Proof.
  unfold _scan_folder. destruct (scan_walk accepts log_limit w walk 0) as [w1 c1].
  cbn [fst]. destruct (chk_watch _); [|reflexivity].
  unfold _watch_folder. destruct (bool_decide _); reflexivity.
Qed.

(** A scan of a window whose registry already holds what a scan of it
    would add leaves the registry as it is. *)
Lemma rescan_items (w w2 : MainWindow) (folder : string) (walk : list (string * list string)) :
  items w2 = items (_scan_folder accepts log_limit w folder walk) ->
  items (_scan_folder accepts log_limit w2 folder walk) = items w2.
Proof.
  intros H2. rewrite scan_folder_items in H2. rewrite scan_folder_items.
  rewrite scan_walk_noop; [reflexivity|].
  rewrite H2. apply scan_walk_settles.
Qed.

(** C3: enqueueing a path a second time changes nothing in the window;
    a path that the test on the name rejects, and a path whose absolute form
    is already a key, leave the window as it is, and any other path adds one
    queued job at the end of the registry; after the two calls there is
    exactly one job under the key when the name is accepted, and in every
    window reached from a fresh one a key has at most one job; scanning a
    folder again, by the user or on a notification of the watcher, leaves
    the registry as the first scan left it. [_add_file] is total: it raises
    nothing. *)
Theorem enqueue_is_idempotent (w : MainWindow) (path folder : string)
    (walk : list (string * list string)) (k : string) :
  reachable accepts log_limit preset_args w ->
  let add := _add_file accepts log_limit in
  let scan := fun w => _scan_folder accepts log_limit w folder walk in
  add (add w path) path = add w path /\
  (if negb (accepts path) || contains (items w) (abspath path)
   then add w path = w
   else items (add w path) = items w ++ [fresh_entry w (abspath path)]) /\
  (if accepts path
   then count_jobs (abspath path) (items (add (add w path) path)) = 1%nat
   else add w path = w) /\
  (count_jobs k (items (add (add w path) path)) <= 1)%nat /\
  items (scan (scan w)) = items (scan w) /\
  items (_on_folder_changed accepts log_limit (scan w) folder walk) = items (scan w).
Proof.
  intros Hr add scan. subst add scan. cbv beta.
  pose proof (reachable_ok accepts log_limit preset_args w Hr) as Hok.
  pose proof (ok_add_file accepts log_limit w path Hok) as [Hk _].
  split; [apply add_file_twice|].
  split; [apply add_file_cases|].
  split; [|split; [|split]].
  - destruct (accepts path) eqn:A.
    + rewrite add_file_twice, (count_jobs_unique _ _ Hk).
      pose proof (add_file_present w path A) as C. unfold contains in C.
      destruct (get _ _); [reflexivity | discriminate].
    + unfold _add_file. rewrite A. reflexivity.
  - rewrite add_file_twice, (count_jobs_unique _ _ Hk). destruct (get _ _); lia.
  - apply (rescan_items w). reflexivity.
  - unfold _on_folder_changed.
    etransitivity; [apply (rescan_items w); reflexivity | reflexivity].
Qed.

End Enqueue.

Lemma enqueue_is_idempotent_witness :
  let w := universal_events universal_window [AddFile "/videos/a.avi"; StartAll None] in
  let add := @_add_file example_platform universal_accepts 8000 in
  let scan := fun w => @_scan_folder example_platform universal_accepts 8000 w "/videos"
                         [("/videos", ["a.avi"; "b.MKV"; "notes.txt"])] in
  add (add w "b.mkv") "b.mkv" = add w "b.mkv" /\
  (if negb (universal_accepts "b.mkv") || contains (items w) (@abspath example_platform "b.mkv")
   then add w "b.mkv" = w
   else items (add w "b.mkv") = items w ++ [fresh_entry w (@abspath example_platform "b.mkv")]) /\
  (if universal_accepts "b.mkv"
   then count_jobs (@abspath example_platform "b.mkv") (items (add (add w "b.mkv") "b.mkv")) = 1%nat
   else add w "b.mkv" = w) /\
  (count_jobs "/videos/a.avi" (items (add (add w "b.mkv") "b.mkv")) <= 1)%nat /\
  items (scan (scan w)) = items (scan w) /\
  items (@_on_folder_changed example_platform universal_accepts 8000 (scan w) "/videos"
           [("/videos", ["a.avi"; "b.MKV"; "notes.txt"])]) = items (scan w).
Proof.
  exact (@enqueue_is_idempotent example_platform universal_accepts 8000 universal_preset
           _ "b.mkv" "/videos" [("/videos", ["a.avi"; "b.MKV"; "notes.txt"])] "/videos/a.avi"
           (universal_reachable [AddFile "/videos/a.avi"; StartAll None])).
Defined.

(** ** The overall progress *)

Lemma trunc_range (x : Q) :
  (0 <= x)%Q -> (x <= 100)%Q -> (0 <= Py.trunc x <= 100)%Z.
Proof.
  intros H0 H1. unfold Py.trunc.
  assert (E : Qle_bool 0 x = true) by (apply Qle_bool_iff, H0). rewrite E.
  split.
  - change 0%Z with (Qfloor (inject_Z 0)). apply Qfloor_resp_le, H0.
  - change 100%Z with (Qfloor (inject_Z 100)). apply Qfloor_resp_le, H1.
Qed.

Lemma bar_at_replace (w w' : MainWindow) (p : string) (m m' : Meta) :
  get (items w) p = Some m ->
  items w' = replace (items w) p m' ->
  progress (widget m') = progress (widget m) ->
  forall q, bar_at w' q = bar_at w q.
Proof.
  intros G Hi Hb q. unfold bar_at. rewrite Hi.
  destruct (String.eqb q p) eqn:E.
  - apply String.eqb_eq in E. subst q.
    rewrite (get_replace_same _ _ m m' G), G. cbn. rewrite Hb. reflexivity.
  - apply String.eqb_neq in E. rewrite (get_replace_other _ _ _ _ E). reflexivity.
Qed.

Lemma grows_refl (w : MainWindow) : grows w w.
Proof. intros p. left. reflexivity. Qed.

Lemma grows_trans (w1 w2 w3 : MainWindow) : grows w1 w2 -> grows w2 w3 -> grows w1 w3.
Proof.
  intros H12 H23 p. destruct (H23 p) as [E|[E1 E2]], (H12 p) as [F|[F1 F2]].
  - left. congruence.
  - right. split; congruence.
  - right. split; congruence.
  - congruence.
Qed.

Lemma grows_same (w w' : MainWindow) : items w' = items w -> grows w w'.
Proof. intros E p. left. unfold bar_at. rewrite E. reflexivity. Qed.

Lemma grows_replace (w w' : MainWindow) (p : string) (m m' : Meta) :
  get (items w) p = Some m ->
  items w' = replace (items w) p m' ->
  progress (widget m') = progress (widget m) ->
  grows w w'.
Proof. intros G Hi Hb q. left. eapply bar_at_replace; eassumption. Qed.

Section Bars.
Context {P : Platform}.
Variable accepts : string -> bool.
Variable log_limit : Z.
Variable preset_args : list string.

Lemma grows_add_file (w : MainWindow) (path : string) :
  grows w (_add_file accepts log_limit w path).
Proof.
  pose proof (add_file_cases accepts log_limit w path) as H.
  destruct (negb (accepts path) || contains (items w) (abspath path)) eqn:E.
  - rewrite H. apply grows_refl.
  - apply orb_false_iff in E as [_ C]. unfold contains in C.
    intros q. unfold bar_at. rewrite H, get_app.
    destruct (get (items w) q) as [m|] eqn:G; [left; reflexivity|].
    unfold fresh_entry. cbn [get]. destruct (String.eqb (abspath path) q).
    + right. split; reflexivity.
    + left. reflexivity.
Qed.

Lemma grows_scan_files (root : string) (files : list string) :
  forall w count, grows w (fst (scan_files accepts log_limit w root files count)).
Proof.
  induction files as [|fn rest IH]; intros w count; simpl; [apply grows_refl|].
  destruct (accepts fn); [|apply IH].
  eapply grows_trans; [apply grows_add_file | apply IH].
Qed.

Lemma grows_scan_walk (walk : list (string * list string)) :
  forall w count, grows w (fst (scan_walk accepts log_limit w walk count)).
Proof.
  induction walk as [|[root files] rest IH]; intros w count; simpl; [apply grows_refl|].
  pose proof (grows_scan_files root files w count) as H1.
  destruct (scan_files accepts log_limit w root files count) as [w1 c1]. cbn [fst] in H1.
  eapply grows_trans; [exact H1 | apply IH].
Qed.

Lemma grows_scan_folder (w : MainWindow) (folder : string) (walk : list (string * list string)) :
  grows w (_scan_folder accepts log_limit w folder walk).
Proof.
  intros q. unfold bar_at. rewrite scan_folder_items. apply grows_scan_walk.
Qed.

Lemma grows_start_conversion (w : MainWindow) (p : string) :
  grows w (_start_conversion log_limit preset_args w p).
Proof.
  unfold _start_conversion. destruct (get (items w) p) as [m|] eqn:G; [|apply grows_refl].
  eapply (grows_replace w _ p m); [exact G | reflexivity | reflexivity].
Qed.

Lemma grows_start_all (w : MainWindow) (which : option string) :
  grows w (start_all log_limit preset_args w which).
Proof.
  unfold start_all. set (w1 := set_ffprobe_path _ _).
  assert (H1 : grows w w1) by (apply grows_same; reflexivity).
  destruct (map fst _) as [|q queue]; [apply grows_same; reflexivity|].
  eapply grows_trans; [exact H1|]. generalize (q :: queue). intros l. generalize w1.
  induction l as [|x l IH]; intros w2; simpl; [apply grows_refl|].
  eapply grows_trans; [apply grows_start_conversion | apply IH].
Qed.

Lemma grows_stop_one (w : MainWindow) (e : string * Meta) : grows w (stop_one w e).
Proof.
  unfold stop_one. destruct (worker (snd e)) as [ref|]; [|apply grows_refl].
  set (w1 := set_workers w _).
  assert (H1 : grows w w1) by (apply grows_same; reflexivity).
  destruct (get (items w1) (fst e)) as [m|] eqn:G; [|exact H1].
  eapply grows_trans; [exact H1|].
  eapply (grows_replace w1 _ (fst e) m); [exact G | reflexivity | reflexivity].
Qed.

Lemma grows_stop_all (w : MainWindow) : grows w (stop_all log_limit w).
Proof.
  unfold stop_all.
  assert (H : grows w (fold_left stop_one (items w) w)).
  { generalize (items w). intros l. generalize w.
    induction l as [|x l IH]; intros w0; simpl; [apply grows_refl|].
    eapply grows_trans; [apply grows_stop_one | apply IH]. }
  eapply grows_trans; [exact H | apply grows_same; reflexivity].
Qed.

(** The events other than a progress, a success and a cancel button leave
    the bars as they are. *)
Lemma grows_handle (w : MainWindow) (ev : Event) :
  match ev with
  | SigProgress _ _ | SigFinished _ true _ | CancelItem _ => True
  | _ => grows w (handle accepts log_limit preset_args w ev)
  end.
Proof.
  destruct ev as [path|folder walk|folder walk|state|text|path|which| |p|n| |p|p percent
                 |p ok outpath|text]; cbn [handle]; try exact I.
  - apply grows_add_file.
  - apply grows_scan_folder.
  - unfold _on_folder_changed. eapply grows_trans; [|apply grows_scan_folder].
    apply grows_same. reflexivity.
  - unfold _toggle_watch. destruct (state =? 0)%Z; apply grows_same; reflexivity.
  - apply grows_same. reflexivity.
  - unfold browse_ffmpeg. destruct (Py.truthy path); [|apply grows_refl].
    apply grows_same. reflexivity.
  - apply grows_start_all.
  - apply grows_stop_all.
  - apply grows_same. reflexivity.
  - unfold _refresh_overall. destruct (List.length (items w)); apply grows_same; reflexivity.
  - unfold _on_started. destruct (get (items w) p) as [m|] eqn:G; [|apply grows_refl].
    eapply (grows_replace w _ p m); [exact G | reflexivity | reflexivity].
  - destruct ok; [exact I|].
    unfold _on_finished. destruct (get (items w) p) as [m|] eqn:G; [|apply grows_refl].
    eapply grows_trans; [|apply grows_same; reflexivity].
    eapply (grows_replace w _ p m); [exact G | reflexivity | reflexivity].
  - apply grows_same. reflexivity.
Qed.

Lemma follows_grows (w w' : MainWindow) (r : string -> Q) :
  grows w w' -> follows w r -> follows w' r.
Proof.
  intros Hg [Hn Hb]. split.
  - intros p E. apply Hn. destruct (Hg p) as [F|[_ F]]; congruence.
  - intros p b E. destruct (Hg p) as [F|[F1 F2]].
    + apply Hb. congruence.
    + rewrite (Hn p F1). assert (b = 0%Z) by congruence. subst b. reflexivity.
Qed.

Lemma upd_same (r : string -> Q) (p : string) (x : Q) : upd r p x p = x.
Proof. unfold upd. rewrite String.eqb_refl. reflexivity. Qed.

Lemma upd_other (r : string -> Q) (p q : string) (x : Q) : q <> p -> upd r p x q = r q.
Proof. intros H. unfold upd. apply String.eqb_neq in H. rewrite H. reflexivity. Qed.

(** A slot that sets the bar of the job [p] to the integer part of [x]. *)
Lemma follows_replace (w w' : MainWindow) (r : string -> Q) (p : string) (m m' : Meta) (x : Q) :
  get (items w) p = Some m ->
  items w' = replace (items w) p m' ->
  progress (widget m') = Py.trunc x ->
  follows w r -> follows w' (upd r p x).
Proof.
  intros G Hi Hb [Hn Hf]. split.
  - intros q E. unfold bar_at in E. rewrite Hi in E.
    destruct (String.eqb q p) eqn:Eq.
    + apply String.eqb_eq in Eq. subst q. rewrite (get_replace_same _ _ m m' G) in E.
      discriminate E.
    + apply String.eqb_neq in Eq. rewrite (get_replace_other _ _ _ _ Eq) in E.
      rewrite (upd_other _ _ _ _ Eq). apply Hn, E.
  - intros q b E. unfold bar_at in E. rewrite Hi in E.
    destruct (String.eqb q p) eqn:Eq.
    + apply String.eqb_eq in Eq. subst q. rewrite (get_replace_same _ _ m m' G) in E.
      cbn in E. rewrite upd_same. congruence.
    + apply String.eqb_neq in Eq. rewrite (get_replace_other _ _ _ _ Eq) in E.
      rewrite (upd_other _ _ _ _ Eq). apply Hf, E.
Qed.

Lemma follows_handle (w : MainWindow) (ev : Event) (r : string -> Q) :
  window_ok w -> deliverable w ev = true -> percent_in_range ev ->
  follows w r -> follows (handle accepts log_limit preset_args w ev) (spec_report w ev r).
Proof.
  intros Hok Hd Hp Hf.
  pose proof (grows_handle w ev) as Hg.
  destruct ev as [path|folder walk|folder walk|state|text|path|which| |p|n| |p|p percent
                 |p ok outpath|text];
    try (exact (follows_grows _ _ _ Hg Hf)).
  - cbn [handle spec_report]. unfold _cancel_item.
    destruct (get (items w) p) as [m|] eqn:G; [|exact Hf].
    destruct (worker m) as [ref|].
    + eapply follows_grows; [|exact Hf].
      eapply grows_trans; [apply (grows_same w (set_workers w (kill_at (workers w) ref)));
                           reflexivity|].
      eapply (grows_replace _ _ p m); [exact G | reflexivity | reflexivity].
    + unfold _remove_item. rewrite G. destruct Hf as [Hn Hb]. destruct Hok as [Hk _].
      split.
      * intros q E. destruct (String.eqb q p) eqn:Eq.
        -- apply String.eqb_eq in Eq. subst q. apply upd_same.
        -- apply String.eqb_neq in Eq. rewrite (upd_other _ _ _ _ Eq). apply Hn.
           unfold bar_at in *. cbn in E. rewrite (get_pop_other _ _ _ Eq) in E. exact E.
      * intros q b E. unfold bar_at in E. cbn in E. destruct (String.eqb q p) eqn:Eq.
        -- apply String.eqb_eq in Eq. subst q. rewrite (get_pop_same _ _ Hk) in E.
           discriminate E.
        -- apply String.eqb_neq in Eq. rewrite (get_pop_other _ _ _ Eq) in E.
           rewrite (upd_other _ _ _ _ Eq). apply Hb, E.
  - cbn [handle spec_report]. unfold _on_progress.
    cbn [deliverable] in Hd. destruct (get (items w) p) as [m|] eqn:G; [|discriminate Hd].
    eapply (follows_replace w _ r p m); [exact G | reflexivity | | exact Hf].
    cbn. destruct Hp as [H0 H1]. pose proof (trunc_range percent H0 H1) as [Ha Hb].
    unfold setValue. apply Z.leb_le in Ha, Hb. rewrite Ha, Hb. reflexivity.
  - cbn [handle spec_report]. destruct ok; [|exact (follows_grows _ _ _ Hg Hf)].
    unfold _on_finished.
    cbn [deliverable] in Hd. destruct (get (items w) p) as [m|] eqn:G; [|discriminate Hd].
    assert (Hf' : follows (set_items w (replace (items w) p
                    {| widget := set_done (widget m) true; item := item m; worker := None;
                       status := Done |})) (upd r p 100)).
    { eapply (follows_replace w _ r p m); [exact G | reflexivity | reflexivity | exact Hf]. }
    destruct Hf' as [Hn Hb]. split; [exact Hn | exact Hb].
Qed.

Lemma follows_run_events (evs : list Event) :
  Forall percent_in_range evs ->
  forall w r, window_ok w -> follows w r ->
    follows (run_events accepts log_limit preset_args w evs)
            (spec_reported accepts log_limit preset_args w r evs).
Proof.
  induction 1 as [|ev rest Hev Hrest IH]; intros w r Hok Hf; simpl; [exact Hf|].
  destruct (deliverable w ev) eqn:D; [|apply IH; assumption].
  apply IH; [apply ok_handle; assumption | apply follows_handle; assumption].
Qed.

(** In a window that follows the reports, the bar of every job is the
    integer part of its last known percent. *)
Lemma sum_progress_parts (n : nat) (r : string -> Q) (its : list (string * Meta)) :
  (forall k m, In (k, m) its -> progress (widget m) = Py.trunc (r k)) ->
  Forall (fun e => meta_ok n (snd e)) its ->
  sum_progress its = sum_integer_parts r its.
Proof.
  induction its as [|[k m] rest IH]; intros Hb Hm; [reflexivity|].
  apply Forall_cons in Hm as [Hm0 Hm]. cbn [snd] in Hm0.
  cbn [sum_progress sum_integer_parts fold_right fst snd].
  fold (sum_progress rest). fold (sum_integer_parts r rest).
  rewrite (IH (fun k0 m0 H0 => Hb k0 m0 (or_intror H0)) Hm). f_equal.
  unfold spec_last_known, meta_ok in *. destruct (status m).
  - destruct Hm0 as [-> _]. reflexivity.
  - apply Hb. left. reflexivity.
  - destruct Hm0 as [-> _]. reflexivity.
  - apply Hb. left. reflexivity.
Qed.

Lemma sum_progress_integer_parts (w : MainWindow) (r : string -> Q) :
  window_ok w -> follows w r ->
  sum_progress (items w) = sum_integer_parts r (items w).
Proof.
  intros [Hk Hm] [_ Hb]. apply (sum_progress_parts (List.length (workers w)) r); [|exact Hm].
  intros k m Hin. apply Hb. unfold bar_at. rewrite (In_get _ _ _ Hk Hin). reflexivity.
Qed.

(** C9 as the code has it: on a registry that is not empty, the overall
    percent that [_refresh_overall] reports is the mean, with equal weight
    per job, of the integer parts of the last known percents of the jobs (0
    for a queued job, 100 for a done one, the percent last reported for a
    running or failed one): the bar of a job keeps [int(percent)], and the
    bars are what is averaged. The label also carries the number of done
    jobs and the number of jobs, and the overall bar is set to the integer
    part of the mean. *)
Theorem overall_is_mean_of_integer_parts (ideal : Z) (ffmpeg ffprobe : string)
    (evs : list Event) :
  Forall percent_in_range evs ->
  let w := run_events accepts log_limit preset_args (MainWindow_init ideal ffmpeg ffprobe) evs in
  let r := spec_reported accepts log_limit preset_args (MainWindow_init ideal ffmpeg ffprobe)
             (fun _ => 0%Q) evs in
  items w <> [] ->
  exists avg,
    lbl_overall (_refresh_overall w) =
      OverallOf (count_status Done (items w)) (List.length (items w)) avg /\
    (avg == inject_Z (sum_integer_parts r (items w)) /
            inject_Z (Z.of_nat (List.length (items w))))%Q /\
    overall (_refresh_overall w) = setValue (overall w) (Py.trunc avg).
Proof.
  intros Hev w r Hne.
  assert (Hok : window_ok w).
  { apply (reachable_ok accepts log_limit preset_args).
    exists ideal, ffmpeg, ffprobe, evs. reflexivity. }
  assert (Hf : follows w r).
  { apply follows_run_events; [exact Hev | | split; [reflexivity | intros p b E; discriminate E]].
    split; [constructor | constructor]. }
  assert (Hlen : List.length (items w) <> 0%nat)
    by (destruct (items w); [congruence | discriminate]).
  exists (average (items w)). split; [|split].
  - unfold _refresh_overall. destruct (List.length (items w)); [congruence | reflexivity].
  - unfold average. rewrite (sum_progress_integer_parts w r Hok Hf). reflexivity.
  - unfold _refresh_overall. destruct (List.length (items w)); [congruence | reflexivity].
Qed.

End Bars.

Lemma overall_is_mean_of_integer_parts_witness :
  let w := universal_events universal_window three_jobs in
  let r := @spec_reported example_platform universal_accepts 8000 universal_preset
             universal_window (fun _ => 0%Q) three_jobs in
  exists avg,
    lbl_overall (_refresh_overall w) =
      OverallOf (count_status Done (items w)) (List.length (items w)) avg /\
    (avg == inject_Z (sum_integer_parts r (items w)) /
            inject_Z (Z.of_nat (List.length (items w))))%Q /\
    overall (_refresh_overall w) = setValue (overall w) (Py.trunc avg).
Proof.
  apply (@overall_is_mean_of_integer_parts example_platform universal_accepts 8000
           universal_preset 2%Z "ffmpeg" "ffprobe" three_jobs).
  - repeat constructor; discriminate.
  - vm_compute. discriminate.
Defined.

(** C9 as stated fails: with a job that last reported 50.5 percent, a done
    job and a queued job, the mean of the last known percents is 301/6, and
    the overall percent reported is 50. *)
Lemma overall_drops_fractions :
  let w := universal_events universal_window three_jobs in
  let r := @spec_reported example_platform universal_accepts 8000 universal_preset
             universal_window (fun _ => 0%Q) three_jobs in
  map (fun e => Qred (spec_last_known (snd e) (r (fst e)))) (items w) = [101 # 2; 100; 0]%Q /\
  Qred (spec_sum_last_known r (items w) / inject_Z (Z.of_nat (List.length (items w))))
    = (301 # 6)%Q /\
  exists avg,
    lbl_overall (_refresh_overall w) = OverallOf 1 3 avg /\ Qred avg = 50%Q /\
    ~ (avg == spec_sum_last_known r (items w) / inject_Z (Z.of_nat (List.length (items w))))%Q.
Proof.
  cbv zeta. split; [vm_compute; reflexivity|]. split; [vm_compute; reflexivity|].
  eexists. split; [vm_compute; reflexivity|]. split; [vm_compute; reflexivity|].
  vm_compute. discriminate.
Qed.

(** ** The progress marker always parses *)

Lemma append_cons (c : ascii) (a b : string) :
  (String c a ++ b)%string = String c (a ++ b)%string.
Proof. reflexivity. Qed.

Lemma append_assoc (a b c : string) : ((a ++ b) ++ c)%string = (a ++ b ++ c)%string.
Proof. induction a as [|x a IH]; [reflexivity | rewrite !append_cons, IH; reflexivity]. Qed.

Lemma append_empty_r (s : string) : (s ++ "")%string = s.
Proof. induction s as [|c r IH]; [reflexivity | rewrite append_cons, IH; reflexivity]. Qed.

Lemma rev_string_rev (a c acc : string) :
  Py.rev_string (Py.rev_string a c) acc = Py.rev_string c (a ++ acc)%string.
Proof.
  revert c acc. induction a as [|x a IH]; intros c acc; [reflexivity|].
  rewrite append_cons. simpl. rewrite IH. reflexivity.
Qed.

Lemma isdigit_not (c sep : ascii) :
  Py.isdigit sep = false -> Py.isdigit c = true -> Ascii.eqb c sep = false.
Proof.
  intros Hs Hc. destruct (Ascii.eqb c sep) eqn:E; [|reflexivity].
  apply Ascii.eqb_eq in E. congruence.
Qed.

(** Splitting passes over a run of digits when the separator is no digit. *)
Lemma split_aux_digits (sep : ascii) (a rest cur : string) :
  Py.isdigit sep = false -> all_digits a = true ->
  Py.split_aux sep (a ++ rest)%string cur = Py.split_aux sep rest (Py.rev_string a cur).
Proof.
  intros Hs. revert cur. induction a as [|x a IH]; intros cur Ha; [reflexivity|].
  rewrite append_cons. simpl.
  simpl in Ha. apply andb_true_iff in Ha as [Hx Ha].
  rewrite (isdigit_not x sep Hs Hx). apply IH, Ha.
Qed.

Lemma split_digits_end (sep : ascii) (a cur : string) :
  Py.isdigit sep = false -> all_digits a = true ->
  Py.split_aux sep a cur = [Py.rev_string cur a].
Proof.
  intros Hs Ha. pose proof (split_aux_digits sep a "" cur Hs Ha) as H.
  rewrite append_empty_r in H. rewrite H. simpl.
  rewrite rev_string_rev, append_empty_r. reflexivity.
Qed.

Lemma span_digits_spec (s : string) :
  all_digits (fst (Py.span_digits s)) = true /\
  s = (fst (Py.span_digits s) ++ snd (Py.span_digits s))%string.
Proof.
  induction s as [|c r [IH1 IH2]]; simpl; [auto|].
  destruct (Py.isdigit c) eqn:D; [|auto].
  destruct (Py.span_digits r) as [d t]; simpl in *.
  rewrite D, IH1. split; [reflexivity|]. rewrite append_cons. congruence.
Qed.

Lemma digits_value_some (s : string) :
  forall acc, all_digits s = true -> exists n, Py.digits_value s acc = Some n.
Proof.
  induction s as [|c r IH]; intros acc H; simpl; [eauto|].
  simpl in H. apply andb_true_iff in H as [Hc Hr]. rewrite Hc. apply IH, Hr.
Qed.

Lemma int_digit_run (s : string) :
  digit_run s -> exists z, Py.int s = Some z /\ (0 <= z)%Z.
Proof.
  intros [Hd Hne]. unfold Py.int. destruct s as [|c r]; [congruence|].
  destruct (digits_value_some (String c r) 0%N Hd) as [n ->].
  exists (Z.of_N n). split; [reflexivity | lia].
Qed.

(** The shape of a group matched by the pattern. *)
Lemma time_group_shape (t g : string) :
  time_group t = Some g ->
  exists h m sec frac,
    digit_run h /\ digit_run m /\ digit_run sec /\ digit_run frac /\
    g = (h ++ ":" ++ m ++ ":" ++ sec ++ "." ++ frac)%string.
Proof.
  unfold time_group.
  pose proof (span_digits_spec t) as [Hh _].
  destruct (Py.span_digits t) as [h r1]. cbn [fst] in Hh.
  destruct h as [|h0 h']; [discriminate|].
  destruct r1 as [|c1 r2]; [discriminate|].
  destruct (Ascii.eqb c1 ":") eqn:E1;
    [apply Ascii.eqb_eq in E1; subst c1
    |destruct c1 as [[] [] [] [] [] [] [] []]; try discriminate E1; discriminate].
  pose proof (span_digits_spec r2) as [Hm _].
  destruct (Py.span_digits r2) as [m r3]. cbn [fst] in Hm.
  destruct m as [|m0 m']; [discriminate|].
  destruct r3 as [|c3 r4]; [discriminate|].
  destruct (Ascii.eqb c3 ":") eqn:E3;
    [apply Ascii.eqb_eq in E3; subst c3
    |destruct c3 as [[] [] [] [] [] [] [] []]; try discriminate E3; discriminate].
  pose proof (span_digits_spec r4) as [Hs _].
  destruct (Py.span_digits r4) as [sec r5]. cbn [fst] in Hs.
  destruct sec as [|s0 s']; [discriminate|].
  destruct r5 as [|c5 r6]; [discriminate|].
  destruct (Ascii.eqb c5 ".") eqn:E5;
    [apply Ascii.eqb_eq in E5; subst c5
    |destruct c5 as [[] [] [] [] [] [] [] []]; try discriminate E5; discriminate].
  pose proof (span_digits_spec r6) as [Hf _].
  destruct (Py.span_digits r6) as [frac r7]. cbn [fst] in Hf.
  destruct frac as [|f0 f']; [discriminate|].
  intros [= <-].
  exists (String h0 h'), (String m0 m'), (String s0 s'), (String f0 f').
  unfold digit_run. repeat split; try assumption; discriminate.
Qed.

Lemma time_re_search_group (s g : string) :
  time_re_search s = Some g -> exists t, time_group t = Some g.
Proof.
  induction s as [|c r IH]; [discriminate|].
  cbn [time_re_search].
  destruct (if Py.startswith (String c r) "time=" then time_group (Py.drop 5 (String c r))
            else None) as [g'|] eqn:E.
  - intros [= <-]. destruct (Py.startswith _ _); [eauto | discriminate].
  - exact IH.
Qed.

Lemma split_colon_head (h rest : string) :
  all_digits h = true ->
  Py.split ":"%char (h ++ ":" ++ rest)%string = h :: Py.split ":"%char rest.
Proof.
  intros Hh. unfold Py.split.
  rewrite (split_aux_digits ":"%char h _ "" eq_refl Hh).
  change (":" ++ rest)%string with (String ":"%char rest). simpl.
  rewrite rev_string_rev, append_empty_r. reflexivity.
Qed.

Lemma split_colon_seconds (sec frac : string) :
  all_digits sec = true -> all_digits frac = true ->
  Py.split ":"%char (sec ++ "." ++ frac)%string = [(sec ++ "." ++ frac)%string].
Proof.
  intros Hs Hf. unfold Py.split.
  rewrite (split_aux_digits ":"%char sec _ "" eq_refl Hs).
  change ("." ++ frac)%string with (String "."%char frac). simpl.
  rewrite (split_digits_end ":"%char frac _ eq_refl Hf). simpl.
  rewrite rev_string_rev. reflexivity.
Qed.

Lemma split_point (sec frac : string) :
  all_digits sec = true -> all_digits frac = true ->
  Py.split "."%char (sec ++ "." ++ frac)%string = [sec; frac].
Proof.
  intros Hs Hf. unfold Py.split.
  rewrite (split_aux_digits "."%char sec _ "" eq_refl Hs).
  change ("." ++ frac)%string with (String "."%char frac). simpl.
  rewrite rev_string_rev, append_empty_r.
  rewrite (split_digits_end "."%char frac "" eq_refl Hf). reflexivity.
Qed.

Lemma inject_Z_nonneg (z : Z) : (0 <= z)%Z -> (0 <= inject_Z z)%Q.
Proof. intros H. unfold Qle. simpl. lia. Qed.

Lemma float_decimal_runs (sec frac : string) :
  digit_run sec -> digit_run frac ->
  exists x, Py.float_decimal (sec ++ "." ++ frac)%string = Some x /\ (0 <= x)%Q.
Proof.
  intros Hs Hf.
  destruct (int_digit_run sec Hs) as (a & Ha & Ha0).
  destruct (int_digit_run frac Hf) as (b & Hb & Hb0).
  destruct Hs as [Hs Hsne], Hf as [Hf Hfne].
  unfold Py.float_decimal. rewrite (split_point sec frac Hs Hf).
  destruct sec as [|s0 s']; [congruence|]. destruct frac as [|f0 f']; [congruence|].
  cbn [Py.int_or_zero]. rewrite Ha, Hb. eexists. split; [reflexivity|].
  assert (H1 : (0 <= inject_Z a)%Q) by (apply inject_Z_nonneg, Ha0).
  assert (H2 : (0 <= inject_Z b / inject_Z (10 ^ Z.of_nat (String.length (String f0 f'))))%Q).
  { apply Qmult_le_0_compat; [apply inject_Z_nonneg, Hb0|].
    apply Qinv_le_0_compat, inject_Z_nonneg, Z.pow_nonneg. lia. }
  lra.
Qed.

Lemma length_append (a b : string) :
  String.length (a ++ b)%string = (String.length a + String.length b)%nat.
Proof.
  induction a as [|c a IH]; [reflexivity|]. rewrite append_cons. simpl. rewrite IH. reflexivity.
Qed.

Lemma digits_value_bound (s : string) :
  forall acc n, Py.digits_value s acc = Some n ->
                (n < (acc + 1) * 10 ^ N.of_nat (String.length s))%N.
Proof.
  induction s as [|c r IH]; intros acc n H.
  - injection H as <-. cbn. lia.
  - cbn [Py.digits_value] in H. destruct (Py.isdigit c) eqn:D; [|discriminate].
    apply IH in H. unfold Py.isdigit in D. apply andb_true_iff in D as [D1 D2].
    apply Nat.leb_le in D1, D2.
    assert (Hd : (N.of_nat (nat_of_ascii c - 48) <= 9)%N) by lia.
    cbn [String.length]. rewrite Nat2N.inj_succ, N.pow_succ_r'.
    eapply N.lt_le_trans; [exact H|].
    set (t := (10 ^ N.of_nat (String.length r))%N). nia.
Qed.

(** A run of at most 300 digits converts, whatever the limit of the
    interpreter, to a number below 10^300. *)
Lemma int_text_run {P : Platform} (s : string) :
  digit_run s -> (String.length s <= 300)%nat ->
  exists z, int_text s = inr z /\ Py.int s = Some z /\ (0 <= z < 10 ^ 300)%Z.
Proof.
  intros [Hd Hne] Hlen. unfold int_text.
  replace (negb (int_max_str_digits =? 0)%nat && (int_max_str_digits <? String.length s)%nat)
    with false.
  2:{ symmetry. destruct int_max_str_digits_ok as [->|Hlim]; [reflexivity|].
      apply andb_false_iff. right. apply Nat.ltb_ge. lia. }
  unfold Py.int. destruct s as [|c r]; [congruence|].
  destruct (digits_value_some (String c r) 0%N Hd) as [n Hn]. rewrite Hn.
  exists (Z.of_N n). split; [reflexivity|]. split; [reflexivity|].
  apply digits_value_bound in Hn. split; [lia|].
  apply N2Z.inj_lt in Hn. rewrite N2Z.inj_mul, N2Z.inj_pow, nat_N_Z in Hn.
  change (Z.of_N (0 + 1)) with 1%Z in Hn. rewrite Z.mul_1_l in Hn.
  eapply Z.lt_le_trans; [exact Hn|]. change (Z.of_N 10) with 10%Z.
  apply Z.pow_le_mono_r; lia.
Qed.

(** Two numbers below 10^300 stay below the integers that refuse to convert
    to a float. *)
Lemma hms_fits (a b : Z) :
  (0 <= a < 10 ^ 300)%Z -> (0 <= b < 10 ^ 300)%Z ->
  (Py.float_overflow <=? a * 3600 + b * 60)%Z = false.
Proof.
  intros Ha Hb.
  assert (Hc : (3660 * 10 ^ 300 < Py.float_overflow)%Z) by (vm_compute; reflexivity).
  apply Z.leb_gt. remember (10 ^ 300)%Z as T. remember Py.float_overflow as F. lia.
Qed.

Lemma split_marker (h m sec frac : string) :
  digit_run h -> digit_run m -> digit_run sec -> digit_run frac ->
  Py.split ":"%char (h ++ ":" ++ m ++ ":" ++ sec ++ "." ++ frac)%string
  = [h; m; (sec ++ "." ++ frac)%string].
Proof.
  intros Hh Hm Hs Hf.
  rewrite (split_colon_head h _ (proj1 Hh)), (split_colon_head m _ (proj1 Hm)),
    (split_colon_seconds sec frac (proj1 Hs) (proj1 Hf)). reflexivity.
Qed.

Lemma int_text_nonneg {P : Platform} (s : string) (z : Z) : int_text s = inr z -> (0 <= z)%Z.
Proof.
  unfold int_text. destruct (_ && _); [discriminate|].
  unfold Py.int. destruct s as [|c r]; [discriminate|].
  destruct (Py.digits_value (String c r) 0) as [n|]; [|discriminate].
  intros [= <-]. lia.
Qed.

Lemma int_text_error {P : Platform} (s : string) (e : Exc) :
  int_text s = inl e -> exc_class e = ValueError.
Proof.
  unfold int_text. destruct (_ && _); [intros [= <-]; reflexivity|].
  destruct (Py.int s); [discriminate | intros [= <-]; reflexivity].
Qed.

Lemma hms_seconds_runs {P : Platform} (h m sec frac : string) :
  digit_run h -> digit_run m -> digit_run sec -> digit_run frac ->
  (String.length h <= 300)%nat -> (String.length m <= 300)%nat ->
  exists x, hms_seconds (h ++ ":" ++ m ++ ":" ++ sec ++ "." ++ frac)%string = inr x /\
            (0 <= x)%Q /\
            Avi._time_to_seconds (h ++ ":" ++ m ++ ":" ++ sec ++ "." ++ frac)%string = x.
Proof.
  intros Hh Hm Hs Hf Lh Lm.
  destruct (int_text_run h Hh Lh) as (a & Ha & _ & Ha0).
  destruct (int_text_run m Hm Lm) as (b & Hb & _ & Hb0).
  destruct (float_decimal_runs sec frac Hs Hf) as (x & Hx & Hx0).
  unfold hms_seconds, Avi._time_to_seconds.
  rewrite (split_marker h m sec frac Hh Hm Hs Hf), Ha, Hb, Hx, (hms_fits a b Ha0 Hb0).
  eexists. split; [reflexivity|]. split; [|reflexivity].
  assert (H1 : (0 <= inject_Z a)%Q) by (apply inject_Z_nonneg; lia).
  assert (H2 : (0 <= inject_Z b)%Q) by (apply inject_Z_nonneg; lia).
  lra.
Qed.

(** What the pattern matches in at most 300 characters, the three
    conversions read: the same number of seconds, which is not negative. *)
Lemma marker_seconds {P : Platform} (s g : string) :
  time_re_search s = Some g ->
  (String.length g <= 300)%nat ->
  exists x, hms_seconds g = inr x /\ (0 <= x)%Q /\
            Avi._time_to_seconds g = x.
Proof.
  intros H L. apply time_re_search_group in H as [t H].
  apply time_group_shape in H as (h & m & sec & frac & Hh & Hm & Hs & Hf & ->).
  rewrite !length_append in L.
  apply (hms_seconds_runs h m sec frac Hh Hm Hs Hf); lia.
Qed.

(** Whatever the pattern matches: the conversions of universal_to_mp4_gui.py
    and avi_to_mp4_gui.py give the same number, which is not negative, and
    [t2s] of mkv_to_mp4_gui.py raises only on a match of more than 300
    characters, a [ValueError] or an [OverflowError]. *)
Lemma marker_conversions {P : Platform} (s g : string) :
  time_re_search s = Some g ->
  Avi._time_to_seconds g = Universal._time_to_seconds g /\
  (0 <= Universal._time_to_seconds g)%Q /\
  (forall e, Mkv.t2s g = inl e ->
     (300 < String.length g)%nat /\
     (exc_class e = ValueError \/ exc_class e = OverflowError)).
Proof.
  intros H. pose proof H as Hg. apply time_re_search_group in H as [t H].
  apply time_group_shape in H as (h & m & sec & frac & Hh & Hm & Hs & Hf & E).
  destruct (float_decimal_runs sec frac Hs Hf) as (x & Hx & Hx0).
  split; [|split].
  - subst g. unfold Avi._time_to_seconds, Universal._time_to_seconds, hms_seconds.
    rewrite (split_marker h m sec frac Hh Hm Hs Hf), Hx.
    destruct (int_text h), (int_text m); try reflexivity.
    destruct (_ <=? _)%Z; reflexivity.
  - subst g. unfold Universal._time_to_seconds, hms_seconds.
    rewrite (split_marker h m sec frac Hh Hm Hs Hf), Hx.
    destruct (int_text h) as [e1|a] eqn:Ea; [discriminate|].
    destruct (int_text m) as [e2|b] eqn:Eb; [discriminate|].
    destruct (_ <=? _)%Z; [discriminate|].
    apply int_text_nonneg in Ea, Eb.
    assert (H1 : (0 <= inject_Z a)%Q) by (apply inject_Z_nonneg; lia).
    assert (H2 : (0 <= inject_Z b)%Q) by (apply inject_Z_nonneg; lia).
    lra.
  - intros e He. split.
    + destruct (le_lt_dec (String.length g) 300) as [L|L]; [|exact L].
      destruct (marker_seconds s g Hg L) as (y & Hy & _). unfold Mkv.t2s in He. congruence.
    + subst g. unfold Mkv.t2s, hms_seconds in He.
      rewrite (split_marker h m sec frac Hh Hm Hs Hf), Hx in He.
      destruct (int_text h) as [e1|a] eqn:Ea;
        [left; injection He as <-; apply (int_text_error h e1 Ea)|].
      destruct (int_text m) as [e2|b] eqn:Eb;
        [left; injection He as <-; apply (int_text_error m e2 Eb)|].
      destruct (_ <=? _)%Z; [|discriminate]. injection He as <-. right. reflexivity.
Qed.

(** X1: a text of at most 300 characters that the pattern
    [time=(\d+:\d+:\d+\.\d+)] matches converts to seconds without an error,
    and the seconds are not negative: on such a match [_time_to_seconds]
    does not take its [except] branch, in universal_to_mp4_gui.py and
    avi_to_mp4_gui.py, and [t2s] of mkv_to_mp4_gui.py, which has no [except],
    does not raise. (A longer match can fail to convert: see
    [long_hours_do_not_convert].) *)
Theorem marker_always_converts (P : Platform) (s g : string) :
  time_re_search s = Some g ->
  (String.length g <= 300)%nat ->
  exists x, (0 <= x)%Q /\
    hms_seconds g = inr x /\
    Universal._time_to_seconds g = x /\
    Avi._time_to_seconds g = x /\
    Mkv.t2s g = inr x.
Proof.
  intros H L. destruct (marker_seconds s g H L) as (x & Hx & Hx0 & Ha).
  exists x. unfold Universal._time_to_seconds, Mkv.t2s. rewrite Hx. auto.
Qed.

Lemma marker_always_converts_witness :
  exists x, (0 <= x)%Q /\
    @hms_seconds example_platform "100:01:00.50" = inr x /\
    @Universal._time_to_seconds example_platform "100:01:00.50" = x /\
    @Avi._time_to_seconds example_platform "100:01:00.50" = x /\
    @Mkv.t2s example_platform "100:01:00.50" = inr x.
Proof.
  apply (marker_always_converts example_platform
           "size= 1kB time=100:01:00.50 bitrate=1k" "100:01:00.50").
  - reflexivity.
  - apply Nat.leb_le. reflexivity.
Defined.

(** A marker whose hours have 305 digits is matched, and does not convert:
    the sum of the hours and minutes is an integer too large for a float.
    [_time_to_seconds] gives 0.0 and [t2s] raises [OverflowError]. *)
Example long_hours_do_not_convert :
  time_re_search ("time=" ++ long_hours ++ ":00:00.00 bitrate=1k")%string
    = Some (long_hours ++ ":00:00.00")%string /\
  @Universal._time_to_seconds example_platform (long_hours ++ ":00:00.00")%string = 0%Q /\
  @Avi._time_to_seconds example_platform (long_hours ++ ":00:00.00")%string = 0%Q /\
  @Mkv.t2s example_platform (long_hours ++ ":00:00.00")%string = inl overflow_error.
Proof. vm_compute. repeat split. Qed.

Lemma span_digits_app (d rest : string) :
  all_digits d = true -> no_leading_digit rest = true ->
  Py.span_digits (d ++ rest)%string = (d, rest).
Proof.
  intros Hd Hr. induction d as [|c d IH].
  - destruct rest as [|c r]; [reflexivity|].
    cbn [no_leading_digit] in Hr. apply negb_true_iff in Hr.
    change (Py.span_digits (String c r) = ("", String c r)).
    cbn [Py.span_digits]. rewrite Hr. reflexivity.
  - rewrite append_cons. cbn [all_digits] in Hd. apply andb_true_iff in Hd as [Hc Hd].
    cbn [Py.span_digits]. rewrite Hc, (IH Hd). reflexivity.
Qed.

Lemma time_group_runs (h m sec frac post : string) :
  digit_run h -> digit_run m -> digit_run sec -> digit_run frac ->
  no_leading_digit post = true ->
  time_group (h ++ ":" ++ m ++ ":" ++ sec ++ "." ++ frac ++ post)%string
  = Some (h ++ ":" ++ m ++ ":" ++ sec ++ "." ++ frac)%string.
Proof.
  intros [Hh Hhn] [Hm Hmn] [Hs Hsn] [Hf Hfn] Hp. unfold time_group.
  change (h ++ ":" ++ m ++ ":" ++ sec ++ "." ++ frac ++ post)%string
    with (h ++ String ":"%char (m ++ String ":"%char (sec ++ String "."%char
            (frac ++ post))))%string.
  rewrite (span_digits_app h (String ":"%char _) Hh eq_refl).
  destruct h as [|h0 h']; [congruence|]. cbv iota beta.
  rewrite (span_digits_app m (String ":"%char _) Hm eq_refl).
  destruct m as [|m0 m']; [congruence|]. cbv iota beta.
  rewrite (span_digits_app sec (String "."%char _) Hs eq_refl).
  destruct sec as [|s0 s']; [congruence|]. cbv iota beta.
  rewrite (span_digits_app frac post Hf Hp).
  destruct frac as [|f0 f']; [congruence|]. reflexivity.
Qed.

Lemma search_at_marker (t g : string) :
  time_group t = Some g -> time_re_search ("time=" ++ t)%string = Some g.
Proof.
  intros G.
  change ("time=" ++ t)%string
    with (String "t" (String "i" (String "m" (String "e" (String "=" t))))).
  cbn [time_re_search].
  replace (Py.startswith (String "t" (String "i" (String "m" (String "e" (String "=" t)))))
             "time=") with true by (destruct t; reflexivity).
  replace (Py.drop 5 (String "t" (String "i" (String "m" (String "e" (String "=" t))))))
    with t by (destruct t; reflexivity).
  rewrite G. reflexivity.
Qed.

Lemma time_re_search_after (pre t g : string) :
  time_group t = Some g ->
  exists g', time_re_search (pre ++ "time=" ++ t)%string = Some g'.
Proof.
  intros G. induction pre as [|c pre IH].
  - exists g. apply (search_at_marker t g G).
  - rewrite append_cons. cbn [time_re_search].
    destruct (if Py.startswith _ "time=" then _ else None) as [g0|]; [eauto | exact IH].
Qed.

(** X7: in a line of ASCII text, a marker [time=H:M:S.F], with runs of
    digits of any length for the four fields (the hours may exceed 24), is
    found wherever it stands: after any text and before any text that does
    not continue the last run of digits. When the line starts with the
    marker, the match is the marker itself. (In a [str], [\d] also matches
    the decimal digits of other scripts, whose code points are above 255
    and which the strings here do not hold.) *)
Theorem marker_found_anywhere (pre post h m sec frac : string) :
  digit_run h -> digit_run m -> digit_run sec -> digit_run frac ->
  is_ascii pre = true -> is_ascii post = true ->
  no_leading_digit post = true ->
  let marker := (h ++ ":" ++ m ++ ":" ++ sec ++ "." ++ frac)%string in
  time_re_search ("time=" ++ marker ++ post)%string = Some marker /\
  exists g, time_re_search (pre ++ "time=" ++ marker ++ post)%string = Some g.
Proof.
  intros Hh Hm Hs Hf _ _ Hp marker.
  assert (G : time_group (marker ++ post)%string = Some marker).
  { subst marker. rewrite <- (time_group_runs h m sec frac post Hh Hm Hs Hf Hp).
    f_equal. rewrite !append_assoc. reflexivity. }
  split.
  - apply (search_at_marker _ marker G).
  - apply (time_re_search_after pre _ marker G).
Qed.

Lemma marker_found_anywhere_witness :
  time_re_search "time=123:59:07.5 bitrate=1k" = Some "123:59:07.5" /\
  exists g, time_re_search "frame= 9 fps=0.0 q=28.0 size= 1kB time=123:59:07.5 bitrate=1k"
            = Some g.
Proof.
  apply (marker_found_anywhere "frame= 9 fps=0.0 q=28.0 size= 1kB " " bitrate=1k"
           "123" "59" "07" "5");
    first [ reflexivity | split; [reflexivity | discriminate] ].
Defined.

(** ** The order of the signals of a run *)

Lemma forallb_middle_app (a b : list Signal) :
  forallb is_middle (a ++ b) = forallb is_middle a && forallb is_middle b.
Proof. induction a as [|s a IH]; simpl; [reflexivity | rewrite IH, andb_assoc; reflexivity]. Qed.

Lemma log_line_middle (s : string) : forallb is_middle (log_line s) = true.
Proof. unfold log_line. destruct (Py.truthy s); reflexivity. Qed.

Lemma universal_handle_middle `{Platform} (d : option Q) (last : Q) (line : string) :
  forallb is_middle (fst (Universal.handle_line d last line)) = true.
Proof.
  unfold Universal.handle_line.
  destruct (time_re_search _); [|apply log_line_middle].
  destruct (known d); [|apply log_line_middle].
  destruct (Py.truediv _ _); [|apply log_line_middle].
  destruct (_ || _); cbn [fst]; [|apply log_line_middle].
  rewrite forallb_middle_app, log_line_middle. reflexivity.
Qed.

Lemma avi_handle_middle `{Platform} (d : option Q) (last : Q) (line : string) :
  forallb is_middle (fst (Avi.handle_line d last line)) = true.
Proof.
  unfold Avi.handle_line.
  destruct (time_re_search _); [|apply log_line_middle].
  destruct (Avi.positive d); [|apply log_line_middle].
  destruct (Py.truediv _ _); [|apply log_line_middle].
  destruct (_ || _); cbn [fst]; [|apply log_line_middle].
  rewrite forallb_middle_app, log_line_middle. reflexivity.
Qed.

Lemma mkv_handle_middle `{Platform} (d : option Q) (last : Q) (line : string) :
  forallb is_middle (fst (Mkv.handle_line d last line)) = true.
Proof.
  unfold Mkv.handle_line.
  destruct (time_re_search _); [|apply log_line_middle].
  destruct (known d); [|apply log_line_middle].
  destruct (Mkv.t2s _); [apply log_line_middle|].
  destruct (Py.truediv _ _); [|apply log_line_middle].
  destruct (Qle_bool _ _); cbn [fst]; [|apply log_line_middle].
  rewrite forallb_middle_app, log_line_middle. reflexivity.
Qed.

(** The signals of the loop: logs and progress values, then [on_cancel]
    when the loop is left by the [return] of a cancelled run. *)
Lemma read_loop_shape (h : Q -> string -> list Signal * (Exc + Q)) (oc : list Signal) :
  (forall last line, forallb is_middle (fst (h last line)) = true) ->
  forall evs cancel last,
    exists mid, forallb is_middle mid = true /\
      fst (read_loop h oc cancel last evs) =
      mid ++ match snd (read_loop h oc cancel last evs) with
             | Cancelled => oc
             | _ => []
             end.
Proof.
  intros Hh. induction evs as [|ev rest IH]; intros cancel last; simpl.
  - exists []. auto.
  - destruct ev as [|line|e]; simpl.
    + apply IH.
    + destruct cancel; simpl; [exists []; auto|].
      specialize (Hh last line).
      destruct (h last line) as [out [e|last']]; simpl in *.
      * exists out. rewrite app_nil_r. auto.
      * destruct (IH false last') as (mid & Hmid & Heq).
        destruct (read_loop h oc false last' rest) as [more ex]; simpl in *.
        exists (out ++ mid). rewrite forallb_middle_app, Hh, Hmid, Heq, app_assoc. auto.
    + exists []. auto.
Qed.

(** What the loop throws was raised by a read of the stream or by the turn
    of one of its lines. *)
Lemma read_loop_thrown (h : Q -> string -> list Signal * (Exc + Q)) (oc : list Signal) :
  forall evs cancel last e,
    snd (read_loop h oc cancel last evs) = Thrown e ->
    In (ReadError e) evs \/
    exists line last0, In (Line line) evs /\ snd (h last0 line) = inl e.
Proof.
  induction evs as [|ev rest IH]; intros cancel last e; simpl; [discriminate|].
  destruct ev as [|line|e']; simpl.
  - intros H. destruct (IH _ _ _ H) as [H1|(l & l0 & H1 & H2)]; [auto|].
    right. exists l, l0. auto.
  - destruct cancel; simpl; [discriminate|].
    destruct (h last line) as [out [e0|last']] eqn:E; simpl.
    + intros [= ->]. right. exists line, last. rewrite E. auto.
    + specialize (IH false last' e).
      destruct (read_loop h oc false last' rest) as [more ex]; simpl in *.
      intros H. destruct (IH H) as [H1|(l & l0 & H1 & H2)]; [auto|].
      right. exists l, l0. auto.
  - intros [= ->]. left. left. reflexivity.
Qed.

Lemma in_order_failure (w : ConvertWorker.t) (notice m0 : list Signal) (text : list Signal) :
  forallb is_middle notice = true -> forallb is_middle m0 = true ->
  forallb is_middle text = true ->
  in_order w ((Started :: notice) ++ (m0 ++ []) ++ text ++ [Finished false ""]).
Proof.
  intros Hn Hm Ht. exists (notice ++ m0 ++ text), false, "".
  split; [rewrite app_nil_r; cbn; rewrite <- !app_assoc; reflexivity|].
  split; [rewrite !forallb_middle_app, Hn, Hm, Ht; reflexivity | reflexivity].
Qed.

Lemma in_order_success (w : ConvertWorker.t) (notice m0 : list Signal) :
  forallb is_middle notice = true -> forallb is_middle m0 = true ->
  in_order w ((Started :: notice) ++ (m0 ++ []) ++
              [Progress 100; Finished true (ConvertWorker.output_path w)]).
Proof.
  intros Hn Hm. exists (notice ++ m0 ++ [Progress 100]), true, (ConvertWorker.output_path w).
  split; [rewrite app_nil_r; cbn; rewrite <- !app_assoc; reflexivity|].
  split; [rewrite !forallb_middle_app, Hn, Hm; reflexivity|].
  split; [reflexivity|]. exists (notice ++ m0). rewrite app_assoc. reflexivity.
Qed.

(** X2: every run of the workers of universal_to_mp4_gui.py and
    avi_to_mp4_gui.py emits [started] first and [finished] last, exactly
    once each, with only log lines and progress values between them; a
    [finished] with success carries the output path of the worker and comes
    right after a progress of 100, a [finished] without success carries the
    empty path. *)
Theorem finished_is_last (P : Platform) (w : ConvertWorker.t) (env : World) :
  in_order w (signals (Universal.run w env)) /\ in_order w (signals (Avi.run w env)).
Proof.
  split.
  - unfold Universal.run.
    set (notice := match Universal._get_duration (ffprobe env) with
                   | None => _ | Some _ => [] end).
    assert (Hn : forallb is_middle notice = true)
      by (subst notice; destruct (Universal._get_duration (ffprobe env)); reflexivity).
    destruct (popen env) as [e|proc].
    + destruct (exc_class e); cbn [signals];
        first [ apply (in_order_failure w notice [] [Log _] Hn eq_refl eq_refl) ].
    + destruct (read_loop_shape (Universal.handle_line (Universal._get_duration (ffprobe env)))
                  [Log "Conversion cancelled."; Finished false ""]
                  (universal_handle_middle _) (stderr proc) (ConvertWorker._cancel w) 0%Q)
        as (m0 & Hm & Heq).
      unfold Universal.read_stderr.
      destruct (read_loop _ _ _ _ _) as [out ex]; cbn [fst snd] in Heq. subst out.
      destruct ex; [destruct (wait proc) as [e|rc]; [|destruct (rc =? 0)%Z]| |];
        cbn [signals].
      * apply (in_order_failure w notice m0 [Log _] Hn Hm eq_refl).
      * apply (in_order_success w notice m0 Hn Hm).
      * apply (in_order_failure w notice m0 [Log _] Hn Hm eq_refl).
      * rewrite <- (app_nil_r m0) at 1.
        apply (in_order_failure w notice m0 [Log "Conversion cancelled."] Hn Hm eq_refl).
      * apply (in_order_failure w notice m0 [Log _] Hn Hm eq_refl).
  - unfold Avi.run.
    set (notice := match Avi._get_duration (ffprobe env) with
                   | None => _ | Some _ => [] end).
    assert (Hn : forallb is_middle notice = true)
      by (subst notice; destruct (Avi._get_duration (ffprobe env)); reflexivity).
    destruct (popen env) as [e|proc].
    + destruct (exc_class e); cbn [signals];
        first [ apply (in_order_failure w notice [] [Log _] Hn eq_refl eq_refl) ].
    + destruct (read_loop_shape (Avi.handle_line (Avi._get_duration (ffprobe env)))
                  [Log "Cancelled."; Finished false ""]
                  (avi_handle_middle _) (stderr proc) (ConvertWorker._cancel w) 0%Q)
        as (m0 & Hm & Heq).
      unfold Avi.read_stderr.
      destruct (read_loop _ _ _ _ _) as [out ex]; cbn [fst snd] in Heq. subst out.
      destruct ex; [destruct (wait proc) as [e|rc]; [|destruct (rc =? 0)%Z]| |];
        cbn [signals].
      * apply (in_order_failure w notice m0 [Log _] Hn Hm eq_refl).
      * apply (in_order_success w notice m0 Hn Hm).
      * apply (in_order_failure w notice m0 [Log _] Hn Hm eq_refl).
      * rewrite <- (app_nil_r m0) at 1.
        apply (in_order_failure w notice m0 [Log "Cancelled."] Hn Hm eq_refl).
      * apply (in_order_failure w notice m0 [Log _] Hn Hm eq_refl).
Qed.

Lemma by_rule_nonneg (last : Q) (res : list Signal * (Exc + Q)) (last' : Q) :
  by_rule last res -> (0 <= last)%Q -> snd res = inr last' -> (0 <= last')%Q.
Proof.
  unfold by_rule. intros [_ H] Hl E. rewrite E in H.
  destruct H as [[_ ->]|(_ & [Hgap|Hgap] & _)]; [exact Hl | lra | rewrite Hgap; discriminate].
Qed.

Lemma universal_turn `{Platform} (d : option Q) (last : Q) (line : string) :
  (0 <= last)%Q ->
  exists out last', Universal.handle_line d last line = (out, inr last') /\ (0 <= last')%Q.
Proof.
  intros Hl. destruct (universal_handle_no_raise d last line) as (out & last' & E).
  exists out, last'. split; [exact E|].
  apply (by_rule_nonneg last _ last' (universal_handle_by_rule d last line) Hl).
  rewrite E. reflexivity.
Qed.

Lemma positive_nonzero (d : option Q) (x a : Q) :
  Avi.positive d = Some x -> Py.truediv a x = Some (a / x)%Q /\ (0 < x)%Q /\ known d = Some x.
Proof.
  unfold Avi.positive. destruct (known d) as [y|] eqn:K; [|discriminate].
  destruct (Qle_bool y 0) eqn:E; [discriminate|]. intros [= <-].
  split; [apply (truediv_known d y a K)|]. split; [|reflexivity].
  apply Qnot_le_lt. intros H. apply Qle_bool_iff in H. congruence.
Qed.

Lemma avi_turn `{Platform} (d : option Q) (last : Q) (line : string) :
  (0 <= last)%Q ->
  exists out last', Avi.handle_line d last line = (out, inr last') /\ (0 <= last')%Q.
Proof.
  intros Hl.
  assert (E : exists out last', Avi.handle_line d last line = (out, inr last')).
  { unfold Avi.handle_line.
    destruct (time_re_search (Py.strip line)) as [g|]; [|eauto].
    destruct (Avi.positive d) as [x|] eqn:K; [|eauto].
    destruct (positive_nonzero d x (Avi._time_to_seconds g) K) as [-> _].
    destruct (_ || _); eauto. }
  destruct E as (out & last' & E). exists out, last'. split; [exact E|].
  apply (by_rule_nonneg last _ last' (avi_handle_by_rule d last line) Hl).
  rewrite E. reflexivity.
Qed.

(** A turn of the loop of mkv_to_mp4_gui.py raises only what [t2s] raises,
    on a marker of more than 300 characters: the division is reached only
    with a duration that is not zero. *)
Lemma mkv_turn_raises {P : Platform} (d : option Q) (last : Q) (line : string) (e : Exc) :
  snd (Mkv.handle_line d last line) = inl e ->
  exists g, time_re_search (Py.strip line) = Some g /\ Mkv.t2s g = inl e /\
            (300 < String.length g)%nat /\
            (exc_class e = ValueError \/ exc_class e = OverflowError).
Proof.
  unfold Mkv.handle_line.
  destruct (time_re_search (Py.strip line)) as [g|] eqn:S; [|discriminate].
  destruct (known d) as [x|] eqn:K; [|discriminate].
  destruct (Mkv.t2s g) as [e0|current] eqn:T.
  - cbn. intros [= ->]. exists g.
    destruct (marker_conversions _ g S) as (_ & _ & He). destruct (He e T). auto.
  - rewrite (truediv_known d x _ K). destruct (Qle_bool _ _); discriminate.
Qed.

(** X3: a run of the worker of mkv_to_mp4_gui.py either returns, and then
    its signals are [started], logs and progress values, and one [finished]
    at the end, as in the other two programs; or an exception leaves it, and
    then no [finished] was emitted, the process was not killed, and the
    exception is one that [Popen] raised (not [FileNotFoundError]), that a
    read of stderr raised, that [process.wait()] raised, or that [t2s]
    raised on a marker of more than 300 characters of some line (the
    [ValueError] of [int] on too many digits, or the [OverflowError] of an
    integer too large for a float): the division raises nothing, and
    neither does the conversion of a shorter marker. *)
Theorem mkv_run_outcomes (P : Platform) (w : ConvertWorker.t) (env : World) :
  match completion (Mkv.run w env) with
  | Returns => in_order w (signals (Mkv.run w env))
  | Raises e =>
      cut_short (signals (Mkv.run w env)) /\
      proc_killed (Mkv.run w env) = false /\
      ((popen env = inl e /\ exc_class e <> FileNotFoundError) \/
       exists proc, popen env = inr proc /\
         (In (ReadError e) (stderr proc) \/ wait proc = inl e \/
          exists raw g,
            In (Line raw) (stderr proc) /\ time_re_search (Py.strip raw) = Some g /\
            Mkv.t2s g = inl e /\ (300 < String.length g)%nat /\
            (exc_class e = ValueError \/ exc_class e = OverflowError)))
  end.
Proof.
  unfold Mkv.run.
  set (notice := match Mkv.get_duration (ffprobe env) with
                 | None => _ | Some _ => [] end).
  assert (Hn : forallb is_middle notice = true)
    by (subst notice; destruct (Mkv.get_duration (ffprobe env)); reflexivity).
  destruct (popen env) as [e|proc].
  - destruct (exc_class e) eqn:C; cbn [completion signals proc_killed];
      first [ apply (in_order_failure w notice [] [Log _] Hn eq_refl eq_refl)
            | split; [exists notice; auto|]; split; [reflexivity|]; left;
              split; [reflexivity | congruence] ].
  - destruct (read_loop_shape (Mkv.handle_line (Mkv.get_duration (ffprobe env)))
                [Finished false ""]
                (mkv_handle_middle _) (stderr proc) (ConvertWorker._cancel w) 0%Q)
      as (m0 & Hm & Heq).
    pose proof (read_loop_thrown (Mkv.handle_line (Mkv.get_duration (ffprobe env)))
                  [Finished false ""] (stderr proc) (ConvertWorker._cancel w) 0%Q) as Hthrown.
    unfold Mkv.read_stderr.
    destruct (read_loop _ _ _ _ _) as [out ex]; cbn [fst snd] in Heq, Hthrown. subst out.
    destruct ex; [destruct (wait proc) as [e|rc] eqn:W; [|destruct (rc =? 0)%Z]| |];
      cbn [completion signals proc_killed].
    + split; [exists (notice ++ m0); rewrite app_nil_r, forallb_middle_app, Hn, Hm; auto|].
      split; [reflexivity|]. right. exists proc. auto.
    + apply (in_order_success w notice m0 Hn Hm).
    + apply (in_order_failure w notice m0 [] Hn Hm eq_refl).
    + rewrite <- (app_nil_r m0) at 1.
      apply (in_order_failure w notice m0 [] Hn Hm eq_refl).
    + split; [exists (notice ++ m0); rewrite app_nil_r, forallb_middle_app, Hn, Hm; auto|].
      split; [reflexivity|]. right. exists proc. split; [reflexivity|].
      destruct (Hthrown e eq_refl) as [H1|(raw & last0 & H1 & H2)]; [auto|].
      right. right. destruct (mkv_turn_raises _ _ _ _ H2) as (g & Hg & Ht & Hl & Hc).
      exists raw, g. auto.
Qed.

(** The failing run: the hours of a marker have 305 digits. The worker of
    mkv_to_mp4_gui.py is left by an [OverflowError] without [finished]; the
    worker of universal_to_mp4_gui.py reads the marker as 0 seconds and ends
    well. *)
Example long_hours_leave_mkv :
  let env := {| ffprobe := inr "10.000000";
                popen := inr {| stderr := [Line ("time=" ++ long_hours ++ ":00:00.00")%string];
                                wait := inr 0%Z |} |} in
  completion (@Mkv.run example_platform example_worker env) = Raises overflow_error /\
  finished_flags (signals (@Mkv.run example_platform example_worker env)) = [] /\
  completion (@Universal.run example_platform example_worker env) = Returns /\
  finished_flags (signals (@Universal.run example_platform example_worker env)) = [true].
Proof. vm_compute. repeat split. Qed.

(** ** The workers of avi_to_mp4_gui.py and universal_to_mp4_gui.py agree *)

Lemma negative_duration_percent (x y last : Q) :
  (0 <= x)%Q -> (y < 0)%Q -> (0 <= last)%Q ->
  Qle_bool 0.5 (Py.min 100 (x / y * 100) - last) || Qeq_bool (Py.min 100 (x / y * 100)) 100
  = false.
Proof.
  intros Hx Hy Hl.
  assert (Hv : (x / y <= 0)%Q).
  { assert (E : (x / y * y == x)%Q) by (field; intros H; rewrite H in Hy; discriminate).
    destruct (Qlt_le_dec 0 (x / y)) as [Hpos|Hle]; [|exact Hle].
    exfalso. nra. }
  assert (Hm : (Py.min 100 (x / y * 100) <= 0)%Q).
  { unfold Py.min. destruct (Qle_bool 100 (x / y * 100)) eqn:E; [|lra].
    apply Qle_bool_iff in E. lra. }
  apply orb_false_iff. split.
  - destruct (Qle_bool 0.5 _) eqn:E; [|reflexivity]. apply Qle_bool_iff in E. lra.
  - destruct (Qeq_bool _ 100) eqn:E; [|reflexivity]. apply Qeq_bool_iff in E. lra.
Qed.

(** On a [last] that is not negative the two turns are the same. *)
Lemma avi_turn_is_universal {P : Platform} (d : option Q) (last : Q) (line : string) :
  (0 <= last)%Q -> Avi.handle_line d last line = Universal.handle_line d last line.
Proof.
  intros Hl. unfold Avi.handle_line, Universal.handle_line, Avi.positive.
  destruct (time_re_search (Py.strip line)) as [g|] eqn:S; [|reflexivity].
  destruct (marker_conversions _ g S) as (Ha & Hx0 & _).
  rewrite Ha. set (x := Universal._time_to_seconds g) in *.
  destruct (known d) as [y|] eqn:K; [|reflexivity].
  destruct (Qle_bool y 0) eqn:E; [|reflexivity].
  rewrite (truediv_known d y x K).
  apply Qle_bool_iff in E.
  destruct (known_nonzero d y K) as [_ Hnz].
  assert (Hy : (y < 0)%Q).
  { apply Qle_lteq in E as [E|E]; [exact E|].
    apply Qeq_bool_iff in E. congruence. }
  rewrite (negative_duration_percent x y last Hx0 Hy Hl). reflexivity.
Qed.

(** Two loops whose turns are the same, and whose signals on cancellation
    carry the same progress values and outcome, leave the stream in the same
    way with the same progress values and the same [finished]. *)
Lemma read_loop_agree (h h' : Q -> string -> list Signal * (Exc + Q)) (oc oc' : list Signal) :
  (forall last line, (0 <= last)%Q -> h last line = h' last line) ->
  (forall last line out last', (0 <= last)%Q -> h' last line = (out, inr last') ->
     (0 <= last')%Q) ->
  progress_values oc = progress_values oc' ->
  finished_flags oc = finished_flags oc' ->
  forall evs cancel last, (0 <= last)%Q ->
    snd (read_loop h oc cancel last evs) = snd (read_loop h' oc' cancel last evs) /\
    progress_values (fst (read_loop h oc cancel last evs)) =
      progress_values (fst (read_loop h' oc' cancel last evs)) /\
    finished_flags (fst (read_loop h oc cancel last evs)) =
      finished_flags (fst (read_loop h' oc' cancel last evs)).
Proof.
  intros Hh Hpos Hp Hf. induction evs as [|ev rest IH]; intros cancel last Hl; simpl; [auto|].
  destruct ev as [|line|e]; simpl; [apply IH, Hl| |auto].
  destruct cancel; simpl; [auto|].
  rewrite (Hh last line Hl).
  destruct (h' last line) as [out [e|last']] eqn:E; simpl; [auto|].
  destruct (IH false last' (Hpos last line out last' Hl E)) as (H1 & H2 & H3).
  destruct (read_loop h oc false last' rest) as [more ex],
           (read_loop h' oc' false last' rest) as [more' ex']; simpl in *.
  rewrite !progress_values_app, !finished_flags_app, H2, H3. auto.
Qed.

(** X4: when ffprobe gives the worker of avi_to_mp4_gui.py and the worker
    of universal_to_mp4_gui.py the same duration (a number, or none: the two
    probe with timeouts of 10 and 8 seconds, so one probe can fail where the
    other answers) and ffmpeg behaves in the same way, the two report the
    same progress values and the same outcome, and kill the process in the
    same cases; they differ only in the texts they log. The test
    [duration > 0] that only the avi worker has changes nothing, because a
    negative duration yields no progress value in the universal worker
    either. *)
Theorem avi_agrees_with_universal (P : Platform) (w : ConvertWorker.t) (env_a env_u : World) :
  popen env_a = popen env_u ->
  Avi._get_duration (ffprobe env_a) = Universal._get_duration (ffprobe env_u) ->
  progress_values (signals (Avi.run w env_a))
  = progress_values (signals (Universal.run w env_u)) /\
  finished_flags (signals (Avi.run w env_a))
  = finished_flags (signals (Universal.run w env_u)) /\
  proc_killed (Avi.run w env_a) = proc_killed (Universal.run w env_u) /\
  completion (Avi.run w env_a) = completion (Universal.run w env_u).
Proof.
  intros Hp Hd. unfold Avi.run, Universal.run. rewrite Hp, Hd.
  set (d := Universal._get_duration (ffprobe env_u)).
  destruct (popen env_u) as [e|proc].
  - destruct (exc_class e), d; cbn; auto.
  - destruct (read_loop_agree (Avi.handle_line d) (Universal.handle_line d)
                [Log "Cancelled."; Finished false ""]
                [Log "Conversion cancelled."; Finished false ""]
                (avi_turn_is_universal d)
                (fun last line out last' Hl E =>
                   by_rule_nonneg last _ last' (universal_handle_by_rule d last line) Hl
                     (f_equal snd E))
                eq_refl eq_refl (stderr proc) (ConvertWorker._cancel w) 0%Q
                ltac:(discriminate)) as (H1 & H2 & H3).
    unfold Avi.read_stderr, Universal.read_stderr.
    destruct (read_loop (Avi.handle_line d) _ _ _ _) as [out ex],
             (read_loop (Universal.handle_line d) _ _ _ _) as [out' ex'].
    cbn [fst snd] in *. subst ex'.
    destruct ex; [destruct (wait proc) as [e|rc]; [|destruct (rc =? 0)%Z]| |];
      cbn [signals proc_killed completion];
      rewrite ?progress_values_app, ?finished_flags_app, H2, H3;
      destruct d; cbn; auto.
Qed.

(** The probe of the avi worker answers "120.000000 " and the probe of the
    universal worker "120.000000": the same duration. *)
Lemma avi_agrees_with_universal_witness :
  let env_a := {| ffprobe := inr "120.000000 "; popen := popen two_minutes |} in
  progress_values (signals (@Avi.run example_platform example_worker env_a))
  = progress_values (signals (@Universal.run example_platform example_worker two_minutes)) /\
  finished_flags (signals (@Avi.run example_platform example_worker env_a))
  = finished_flags (signals (@Universal.run example_platform example_worker two_minutes)) /\
  proc_killed (@Avi.run example_platform example_worker env_a)
  = proc_killed (@Universal.run example_platform example_worker two_minutes) /\
  completion (@Avi.run example_platform example_worker env_a)
  = completion (@Universal.run example_platform example_worker two_minutes).
Proof.
  apply (avi_agrees_with_universal example_platform example_worker
           {| ffprobe := inr "120.000000 "; popen := popen two_minutes |} two_minutes);
    reflexivity.
Defined.

(** ** Cancellation and bounds in the three workers *)

Lemma avi_run_flags `{Platform} (w : ConvertWorker.t) (ffp : Exc + string) (proc : Process) :
  finished_flags (signals (Avi.run w {| ffprobe := ffp; popen := inr proc |})) =
  match snd (Avi.read_stderr (Avi._get_duration ffp) (ConvertWorker._cancel w) 0
               (stderr proc)), wait proc with
  | Exhausted, inr rc => [(rc =? 0)%Z]
  | _, _ => [false]
  end.
Proof.
  unfold Avi.run. cbn [ffprobe popen].
  set (head := Started :: _).
  assert (Hhead : finished_flags head = []) by
    (subst head; destruct (Avi._get_duration ffp); reflexivity).
  pose proof (read_loop_finished (Avi.handle_line (Avi._get_duration ffp))
                [Log "Cancelled."; Finished false ""]
                (fun last line => proj1 (avi_handle_by_rule _ last line))
                (stderr proc) (ConvertWorker._cancel w) 0%Q) as Hloop.
  unfold Avi.read_stderr.
  destruct (read_loop _ _ _ _ _) as [out ex]; cbn [fst snd] in *.
  destruct ex; [destruct (wait proc) as [e|rc]; [|destruct (rc =? 0)%Z]| |];
    cbn [signals]; rewrite !finished_flags_app, Hhead, Hloop; reflexivity.
Qed.

Lemma mkv_run_flags `{Platform} (w : ConvertWorker.t) (ffp : Exc + string) (proc : Process) :
  finished_flags (signals (Mkv.run w {| ffprobe := ffp; popen := inr proc |})) =
  match snd (Mkv.read_stderr (Mkv.get_duration ffp) (ConvertWorker._cancel w) 0
               (stderr proc)), wait proc with
  | Exhausted, inr rc => [(rc =? 0)%Z]
  | Cancelled, _ => [false]
  | _, _ => []
  end.
Proof.
  unfold Mkv.run. cbn [ffprobe popen].
  set (head := Started :: _).
  assert (Hhead : finished_flags head = []) by
    (subst head; destruct (Mkv.get_duration ffp); reflexivity).
  pose proof (read_loop_finished (Mkv.handle_line (Mkv.get_duration ffp))
                [Finished false ""]
                (fun last line => proj1 (mkv_handle_by_rule _ last line))
                (stderr proc) (ConvertWorker._cancel w) 0%Q) as Hloop.
  unfold Mkv.read_stderr.
  destruct (read_loop _ _ _ _ _) as [out ex]; cbn [fst snd] in *.
  destruct ex; [destruct (wait proc) as [e|rc]; [|destruct (rc =? 0)%Z]| |];
    cbn [signals]; rewrite ?finished_flags_app, Hhead, Hloop; reflexivity.
Qed.

(** X5: in the three workers, when [kill] is called and the worker reads
    stderr once more after it, the run never ends in success. The workers of
    universal_to_mp4_gui.py and avi_to_mp4_gui.py then kill the process and
    emit one [finished(False, "")]; the worker of mkv_to_mp4_gui.py emits at
    most that one [finished]. *)
Theorem cancel_never_succeeds (P : Platform) (w : ConvertWorker.t) (ffp : Exc + string)
    (proc : Process) (pre post : list StderrEvent) :
  stderr proc = pre ++ Kill :: post ->
  existsb is_read post = true ->
  let env := {| ffprobe := ffp; popen := inr proc |} in
  (finished_flags (signals (Universal.run w env)) = [false] /\
   proc_killed (Universal.run w env) = true) /\
  (finished_flags (signals (Avi.run w env)) = [false] /\
   proc_killed (Avi.run w env) = true) /\
  (succeeded (Mkv.run w env) = false /\
   (List.length (finished_flags (signals (Mkv.run w env))) <= 1)%nat).
Proof.
  intros Hst Hread env. subst env.
  pose proof (fun h oc => read_loop_killed h oc pre post (ConvertWorker._cancel w) 0%Q Hread)
    as Hk.
  split; [|split].
  - rewrite universal_run_flags. unfold Universal.run, Universal.read_stderr.
    cbn [ffprobe popen]. rewrite Hst.
    specialize (Hk (Universal.handle_line (Universal._get_duration ffp))
                   [Log "Conversion cancelled."; Finished false ""]).
    destruct (read_loop _ _ _ _ _) as [out ex]; cbn [snd] in *.
    destruct ex; [contradiction | auto | auto].
  - rewrite avi_run_flags. unfold Avi.run, Avi.read_stderr.
    cbn [ffprobe popen]. rewrite Hst.
    specialize (Hk (Avi.handle_line (Avi._get_duration ffp))
                   [Log "Cancelled."; Finished false ""]).
    destruct (read_loop _ _ _ _ _) as [out ex]; cbn [snd] in *.
    destruct ex; [contradiction | auto | auto].
  - unfold succeeded. rewrite mkv_run_flags. unfold Mkv.read_stderr. rewrite Hst.
    specialize (Hk (Mkv.handle_line (Mkv.get_duration ffp)) [Finished false ""]).
    destruct (snd _); [contradiction | cbn; auto | cbn; auto].
Qed.

Lemma cancel_never_succeeds_witness :
  (finished_flags (signals (@Universal.run example_platform example_worker cancelled_early))
   = [false] /\
   proc_killed (@Universal.run example_platform example_worker cancelled_early) = true) /\
  (finished_flags (signals (@Avi.run example_platform example_worker cancelled_early))
   = [false] /\
   proc_killed (@Avi.run example_platform example_worker cancelled_early) = true) /\
  (succeeded (@Mkv.run example_platform example_worker cancelled_early) = false /\
   (List.length (finished_flags (signals (@Mkv.run example_platform example_worker
                                            cancelled_early))) <= 1)%nat).
Proof.
  apply (cancel_never_succeeds example_platform example_worker (inr "120.000000")
           {| stderr := [Line "frame=  720 fps= 24 time=00:00:30.00 bitrate= 900kbits/s";
                         Kill;
                         Line "frame= 1440 fps= 24 time=00:01:00.00 bitrate= 900kbits/s"];
              wait := inr 0%Z |}
           [Line "frame=  720 fps= 24 time=00:00:30.00 bitrate= 900kbits/s"]
           [Line "frame= 1440 fps= 24 time=00:01:00.00 bitrate= 900kbits/s"]);
    reflexivity.
Defined.

(** X6: in the workers of avi_to_mp4_gui.py and mkv_to_mp4_gui.py, as in
    the universal one, every progress value of a run lies in [0, 100] and
    the values never decrease, whatever the duration and the lines are. *)
Theorem sibling_progress_bounded (P : Platform) (w : ConvertWorker.t) (env : World) :
  (Forall (fun p => (0 <= p)%Q /\ (p <= 100)%Q) (progress_values (signals (Avi.run w env))) /\
   StronglySorted Qle (progress_values (signals (Avi.run w env)))) /\
  (Forall (fun p => (0 <= p)%Q /\ (p <= 100)%Q) (progress_values (signals (Mkv.run w env))) /\
   StronglySorted Qle (progress_values (signals (Mkv.run w env)))).
Proof.
  destruct (steady_bounds _ 0 ltac:(apply Qle_refl) (avi_run_steady w env)) as (Ha & _ & Has).
  destruct (steady_bounds _ 0 ltac:(apply Qle_refl) (mkv_run_steady w env)) as (Hm & _ & Hms).
  auto.
Qed.

(** ** The moves of a job *)

Lemma may_add_refl (a : option Status) : may_add a a = true.
Proof. destruct a as [[]|]; reflexivity. Qed.

Lemma may_add_trans (a b c : option Status) :
  may_add a b = true -> may_add b c = true -> may_add a c = true.
Proof. destruct a as [[]|], b as [[]|], c as [[]|]; cbn; congruence. Qed.

Lemma may_start_refl (a : option Status) : may_start a a = true.
Proof. destruct a as [[]|]; reflexivity. Qed.

Lemma may_start_trans (a b c : option Status) :
  may_start a b = true -> may_start b c = true -> may_start a c = true.
Proof. destruct a as [[]|], b as [[]|], c as [[]|]; cbn; congruence. Qed.

Lemma may_add_step (a b : option Status) : may_add a b = true -> may_step a b = true.
Proof. destruct a as [[]|], b as [[]|]; cbn; congruence. Qed.

Lemma may_start_step (a b : option Status) : may_start a b = true -> may_step a b = true.
Proof. destruct a as [[]|], b as [[]|]; cbn; congruence. Qed.

Lemma may_step_refl (a : option Status) : may_step a a = true.
Proof. destruct a as [[]|]; reflexivity. Qed.

(** Replacing the entry of [path] by one of the same status changes no status. *)
Lemma status_at_replace (w : MainWindow) (path q : string) (m m' : Meta) :
  get (items w) path = Some m -> status m' = status m ->
  status_at (set_items w (replace (items w) path m')) q = status_at w q.
Proof.
  intros G Hs. unfold status_at. cbn [items set_items].
  destruct (String.eqb q path) eqn:E.
  - apply String.eqb_eq in E. subst q.
    rewrite (get_replace_same _ _ m m' G), G. cbn. congruence.
  - apply String.eqb_neq in E. rewrite (get_replace_other _ _ _ _ E). reflexivity.
Qed.

(** Replacing the entry of [path] changes the status of [path] only. *)
Lemma status_at_replace_to (w : MainWindow) (path q : string) (m m' : Meta) :
  get (items w) path = Some m ->
  status_at (set_items w (replace (items w) path m')) q =
  if String.eqb q path then Some (status m') else status_at w q.
Proof.
  intros G. unfold status_at. cbn [items set_items].
  destruct (String.eqb q path) eqn:E.
  - apply String.eqb_eq in E. subst q.
    rewrite (get_replace_same _ _ m m' G). reflexivity.
  - apply String.eqb_neq in E. rewrite (get_replace_other _ _ _ _ E). reflexivity.
Qed.

Section Moves.
Context {P : Platform}.
Variable accepts : string -> bool.
Variable log_limit : Z.
Variable preset_args : list string.

Lemma add_file_move (w : MainWindow) (path q : string) :
  may_add (status_at w q) (status_at (_add_file accepts log_limit w path) q) = true.
Proof.
  pose proof (add_file_cases accepts log_limit w path) as H.
  destruct (negb (accepts path) || contains (items w) (abspath path)) eqn:C.
  - rewrite H. apply may_add_refl.
  - unfold status_at. rewrite H, get_app.
    destruct (get (items w) q) as [m|] eqn:G; [apply (may_add_refl (Some (status m)))|].
    unfold fresh_entry. cbn [get]. destruct (String.eqb _ q); reflexivity.
Qed.

Lemma scan_files_move (root : string) (files : list string) (q : string) :
  forall w count,
    may_add (status_at w q)
            (status_at (fst (scan_files accepts log_limit w root files count)) q) = true.
Proof.
  induction files as [|fn rest IH]; intros w count; simpl; [apply may_add_refl|].
  destruct (accepts fn); [|apply IH].
  eapply may_add_trans; [apply (add_file_move w (Os.join root fn) q) | apply IH].
Qed.

Lemma scan_walk_move (walk : list (string * list string)) (q : string) :
  forall w count,
    may_add (status_at w q)
            (status_at (fst (scan_walk accepts log_limit w walk count)) q) = true.
Proof.
  induction walk as [|[root files] rest IH]; intros w count; simpl; [apply may_add_refl|].
  pose proof (scan_files_move root files q w count) as H1.
  destruct (scan_files accepts log_limit w root files count) as [w1 c1]. cbn [fst] in H1.
  eapply may_add_trans; [exact H1 | apply IH].
Qed.

Lemma scan_folder_move (w : MainWindow) (folder : string)
    (walk : list (string * list string)) (q : string) :
  may_add (status_at w q) (status_at (_scan_folder accepts log_limit w folder walk) q) = true.
Proof.
  unfold status_at. rewrite scan_folder_items. apply scan_walk_move.
Qed.

Lemma start_conversion_move (w : MainWindow) (path q : string) :
  match get (items w) path with
  | Some m => is_eligible (path, m) = true
  | None => True
  end ->
  may_start (status_at w q) (status_at (_start_conversion log_limit preset_args w path) q) = true.
Proof.
  unfold _start_conversion. destruct (get (items w) path) as [m|] eqn:G;
    [|intros _; apply may_start_refl].
  intros El. unfold status_at. cbn [items _log set_log set_items set_threadpool set_workers].
  destruct (String.eqb q path) eqn:E.
  - apply String.eqb_eq in E. subst q.
    erewrite get_replace_same by exact G. rewrite G. cbn.
    unfold is_eligible in El. cbn in El. destruct (status m); try discriminate; reflexivity.
  - apply String.eqb_neq in E. rewrite (get_replace_other _ _ _ _ E).
    apply (may_start_refl (option_map status (get (items w) q))).
Qed.

Lemma start_queue_move (queue : list string) (q : string) :
  forall w, NoDup queue ->
    Forall (fun p => exists m, get (items w) p = Some m /\ is_eligible (p, m) = true) queue ->
    may_start (status_at w q)
      (status_at (fold_left (_start_conversion log_limit preset_args) queue w) q) = true.
Proof.
  induction queue as [|p rest IH]; intros w Hnd Hall; simpl; [apply may_start_refl|].
  apply NoDup_cons in Hnd as [Hp Hrest].
  apply Forall_cons in Hall as [(m & G & El) Hall].
  destruct (start_conversion_counts log_limit preset_args w p m G El) as (_ & _ & _ & _ & Hother).
  eapply may_start_trans.
  - apply (start_conversion_move w p q). rewrite G. exact El.
  - apply IH; [exact Hrest|].
    rewrite Forall_forall in *. intros p' Hp'. rewrite Hother; [apply Hall, Hp'|].
    intros ->. apply Hp, Hp'.
Qed.

Lemma start_all_move (w : MainWindow) (which : option string) (q : string) :
  NoDup (map fst (items w)) ->
  may_start (status_at w q) (status_at (start_all log_limit preset_args w which) q) = true.
Proof.
  intros Hk. unfold start_all.
  set (w1 := set_ffprobe_path _ _).
  change (items w1) with (items w). fold is_eligible.
  pose proof (start_queue_move (map fst (List.filter is_eligible (items w))) q w1
                (filter_keys_NoDup _ _ Hk) (queue_entries _ Hk)) as H.
  destruct (map fst (List.filter is_eligible (items w))) as [|p queue].
  - apply (may_start_refl (status_at w q)).
  - exact H.
Qed.

Lemma stop_one_status (w : MainWindow) (e : string * Meta) (q : string) :
  status_at (stop_one w e) q = status_at w q.
Proof.
  unfold stop_one. destruct (worker (snd e)) as [ref|]; [|reflexivity].
  set (w1 := set_workers w _).
  destruct (get (items w1) (fst e)) as [m|] eqn:G; [|reflexivity].
  rewrite (status_at_replace w1 (fst e) q m
             (with_widget m (setText (widget m) TxtCancelling)) G eq_refl).
  reflexivity.
Qed.

Lemma stop_all_status (w : MainWindow) (q : string) :
  status_at (stop_all log_limit w) q = status_at w q.
Proof.
  unfold stop_all. change (status_at (_log log_limit ?x _) q) with (status_at x q).
  generalize (items w). intros l. revert w.
  induction l as [|e l IH]; intros w; simpl; [reflexivity|].
  rewrite IH. apply stop_one_status.
Qed.

(** X8: in one event a job makes only the moves of this state machine: it
    is created as queued; a queued job stays queued, is started or is
    removed; a running job stays running or ends as done or failed, and is
    never removed; a failed job stays failed, is started again or is removed;
    a done job stays done or is removed, and is never started again. *)
Theorem job_moves (w : MainWindow) (ev : Event) (q : string) :
  reachable accepts log_limit preset_args w ->
  deliverable w ev = true ->
  may_step (status_at w q) (status_at (handle accepts log_limit preset_args w ev) q) = true.
Proof.
  intros Hr Hd. apply reachable_ok in Hr. pose proof Hr as [Hk _].
  destruct ev as [path|folder walk|folder walk|state|text|path|which| |p|n| |p|p percent
                 |p ok outpath|text]; cbn [handle].
  - apply may_add_step, add_file_move.
  - apply may_add_step, scan_folder_move.
  - unfold _on_folder_changed. apply may_add_step.
    apply (scan_folder_move (_log log_limit w _)).
  - unfold _toggle_watch. destruct (state =? 0)%Z; apply may_step_refl.
  - apply may_step_refl.
  - unfold browse_ffmpeg. destruct (Py.truthy path); apply may_step_refl.
  - apply may_start_step, start_all_move, Hk.
  - rewrite stop_all_status. apply may_step_refl.
  - unfold _cancel_item. destruct (get (items w) p) as [m|] eqn:G; [|apply may_step_refl].
    pose proof (window_ok_get w p m Hr G) as Hm.
    destruct (worker m) as [ref|] eqn:W.
    + rewrite (status_at_replace (set_workers w (kill_at (workers w) ref)) p q m
                 (with_widget m (setText (widget m) TxtCancelling)) G eq_refl).
      apply may_step_refl.
    + pose proof (meta_ok_idle _ m Hm W) as Hs.
      unfold _remove_item. rewrite G. unfold status_at. cbn.
      destruct (String.eqb q p) eqn:E.
      * apply String.eqb_eq in E. subst q. rewrite (get_pop_same _ _ Hk), G. cbn.
        destruct (status m); [reflexivity | congruence | reflexivity | reflexivity].
      * apply String.eqb_neq in E. rewrite (get_pop_other _ _ _ E).
        apply (may_step_refl (option_map status (get (items w) q))).
  - apply may_step_refl.
  - unfold _refresh_overall. destruct (List.length (items w)); apply may_step_refl.
  - unfold _on_started. destruct (get (items w) p) as [m|] eqn:G; [|apply may_step_refl].
    rewrite (status_at_replace w p q m
               (with_widget m (setText (widget m) TxtRunning)) G eq_refl).
    apply may_step_refl.
  - unfold _on_progress. destruct (get (items w) p) as [m|] eqn:G; [|apply may_step_refl].
    rewrite (status_at_replace w p q m
               (with_widget m (set_progress (widget m) percent)) G eq_refl).
    apply may_step_refl.
  - unfold _on_finished. cbn in Hd.
    destruct (get (items w) p) as [m|] eqn:G; [|discriminate].
    destruct (worker m) as [ref|] eqn:W; [|discriminate].
    destruct (meta_ok_worker _ m ref (window_ok_get w p m Hr G) W) as [Hs _].
    assert (H : may_step (status_at w q)
                  (status_at (set_items w (replace (items w) p
                     {| widget := set_done (widget m) ok; item := item m; worker := None;
                        status := if ok then Done else Failed |})) q) = true).
    { rewrite (status_at_replace_to w p q m _ G). cbn [status].
      destruct (String.eqb q p) eqn:E; [|apply may_step_refl].
      apply String.eqb_eq in E. subst q. unfold status_at. rewrite G. cbn. rewrite Hs.
      destruct ok; reflexivity. }
    destruct ok; exact H.
  - apply may_step_refl.
Qed.

End Moves.

Lemma job_moves_witness :
  may_step (status_at (universal_events universal_window done_then_cancel) "/videos/a.avi")
           (status_at (universal_handle (universal_events universal_window done_then_cancel)
                         (StartAll None)) "/videos/a.avi") = true.
Proof.
  apply (@job_moves example_platform universal_accepts 8000 universal_preset
           _ (StartAll None) "/videos/a.avi" (universal_reachable done_then_cancel)).
  reflexivity.
Defined.

(** ** The watch and the log in every reachable window *)

Lemma drop_length (n : nat) (s : string) :
  String.length (Py.drop n s) = (String.length s - n)%nat.
Proof.
  revert s. induction n as [|n IH]; intros s; destruct s as [|c r]; simpl; try reflexivity.
  apply IH.
Qed.

(** Whatever the log held, after [_log] it holds at most [log_limit] characters. *)
Lemma log_bounded (log_limit : Z) (w : MainWindow) (text : string) :
  (0 <= log_limit)%Z ->
  (Z.of_nat (String.length (log (_log log_limit w text))) <= log_limit)%Z.
Proof.
  intros H. unfold _log. cbn [log set_log].
  destruct (log_limit <? _)%Z eqn:E.
  - apply Z.ltb_lt in E. unfold Py.last_chars. rewrite drop_length. lia.
  - apply Z.ltb_ge in E. exact E.
Qed.

Section WatchAndLog.
Context {P : Platform}.
Variable accepts : string -> bool.
Variable log_limit : Z.
Variable preset_args : list string.
Hypothesis limit_nonneg : (0 <= log_limit)%Z.

Lemma short_add_file (w : MainWindow) (path : string) :
  log_short log_limit w -> log_short log_limit (_add_file accepts log_limit w path).
Proof.
  unfold _add_file. destruct (negb (accepts path)); [trivial|].
  destruct (contains _ _); [trivial|]. intros _. apply log_bounded, limit_nonneg.
Qed.

Lemma short_scan_files (root : string) (files : list string) :
  forall w count, log_short log_limit w ->
    log_short log_limit (fst (scan_files accepts log_limit w root files count)).
Proof.
  induction files as [|fn rest IH]; intros w count H; simpl; [exact H|].
  destruct (accepts fn); apply IH; [apply short_add_file|]; exact H.
Qed.

Lemma short_scan_walk (walk : list (string * list string)) :
  forall w count, log_short log_limit w ->
    log_short log_limit (fst (scan_walk accepts log_limit w walk count)).
Proof.
  induction walk as [|[root files] rest IH]; intros w count H; simpl; [exact H|].
  pose proof (short_scan_files root files w count H) as H1.
  destruct (scan_files accepts log_limit w root files count) as [w1 c1]. apply IH, H1.
Qed.

Lemma short_scan_folder (w : MainWindow) (folder : string) (walk : list (string * list string)) :
  log_short log_limit (_scan_folder accepts log_limit w folder walk).
Proof.
  unfold _scan_folder. destruct (scan_walk accepts log_limit w walk 0) as [w1 c1].
  destruct (chk_watch _); [|apply log_bounded, limit_nonneg].
  unfold _watch_folder. destruct (bool_decide _); apply log_bounded, limit_nonneg.
Qed.

Lemma short_start_conversion (w : MainWindow) (p : string) :
  log_short log_limit w -> log_short log_limit (_start_conversion log_limit preset_args w p).
Proof.
  unfold _start_conversion. destruct (get (items w) p); [|trivial].
  intros _. apply log_bounded, limit_nonneg.
Qed.

Lemma short_handle (w : MainWindow) (ev : Event) :
  log_short log_limit w -> log_short log_limit (handle accepts log_limit preset_args w ev).
Proof.
  intros H.
  destruct ev as [path|folder walk|folder walk|state|text|path|which| |p|n| |p|p percent
                 |p ok outpath|text]; cbn [handle].
  - apply short_add_file, H.
  - apply short_scan_folder.
  - apply short_scan_folder.
  - unfold _toggle_watch. destruct (state =? 0)%Z; [apply log_bounded, limit_nonneg | exact H].
  - exact H.
  - unfold browse_ffmpeg. destruct (Py.truthy path); exact H.
  - unfold start_all. set (w1 := set_ffprobe_path _ _).
    assert (H1 : log_short log_limit w1) by exact H.
    destruct (map fst _) as [|q queue]; [exact H1|].
    generalize (q :: queue). intros l. revert H1. generalize w1.
    induction l as [|x l IH]; intros w2 H2; simpl; [exact H2|].
    apply IH, short_start_conversion, H2.
  - apply log_bounded, limit_nonneg.
  - unfold _cancel_item. destruct (get (items w) p) as [m|] eqn:G; [|exact H].
    destruct (worker m); [exact H|].
    unfold _remove_item. rewrite G. apply log_bounded, limit_nonneg.
  - exact H.
  - unfold _refresh_overall. destruct (List.length (items w)); exact H.
  - unfold _on_started. destruct (get (items w) p); exact H.
  - unfold _on_progress. destruct (get (items w) p); exact H.
  - unfold _on_finished. destruct (get (items w) p); [|exact H].
    destruct ok; apply log_bounded, limit_nonneg.
  - apply log_bounded, limit_nonneg.
Qed.

(** X9: the text of the log never holds more than [log_limit] characters
    (8000 in universal_to_mp4_gui.py), whatever the slots of the window and
    the workers, through their signal [log], write to it and however long
    the window runs. *)
Theorem log_stays_bounded (ideal : Z) (ffmpeg ffprobe : string) (evs : list Event) :
  (Z.of_nat (String.length
     (log (run_events accepts log_limit preset_args (MainWindow_init ideal ffmpeg ffprobe) evs)))
   <= log_limit)%Z.
Proof.
  change (log_short log_limit
            (run_events accepts log_limit preset_args (MainWindow_init ideal ffmpeg ffprobe) evs)).
  assert (H0 : log_short log_limit (MainWindow_init ideal ffmpeg ffprobe))
    by exact limit_nonneg.
  revert H0. generalize (MainWindow_init ideal ffmpeg ffprobe).
  induction evs as [|ev rest IH]; intros w H; simpl; [exact H|].
  apply IH. destruct (deliverable w ev); [apply short_handle|]; exact H.
Qed.

End WatchAndLog.

Lemma log_stays_bounded_witness :
  (Z.of_nat (String.length
     (log (universal_events universal_window
             [AddFile "/videos/a.avi"; StartAll None;
              SigLog "frame=  720 fps= 24 time=00:00:30.00 bitrate= 900kbits/s"])))
   <= 8000)%Z.
Proof.
  apply (@log_stays_bounded example_platform universal_accepts 8000 universal_preset
           ltac:(discriminate) 2%Z "ffmpeg" "ffprobe"
           [AddFile "/videos/a.avi"; StartAll None;
            SigLog "frame=  720 fps= 24 time=00:00:30.00 bitrate= 900kbits/s"]).
Defined.

(** ** The watcher and the set of watched directories *)

Section Watch.
Context {P : Platform}.
Variable accepts : string -> bool.
Variable log_limit : Z.
Variable preset_args : list string.

Lemma watch_state_add_file (w : MainWindow) (path : string) :
  watch_state (_add_file accepts log_limit w path) = watch_state w.
Proof.
  unfold _add_file. destruct (negb (accepts path)); [reflexivity|].
  destruct (contains _ _); reflexivity.
Qed.

Lemma watch_state_scan_files (root : string) (files : list string) :
  forall w count,
    watch_state (fst (scan_files accepts log_limit w root files count)) = watch_state w.
Proof.
  induction files as [|fn rest IH]; intros w count; simpl; [reflexivity|].
  destruct (accepts fn); rewrite IH; [apply watch_state_add_file | reflexivity].
Qed.

Lemma watch_state_scan_walk (walk : list (string * list string)) :
  forall w count,
    watch_state (fst (scan_walk accepts log_limit w walk count)) = watch_state w.
Proof.
  induction walk as [|[root files] rest IH]; intros w count; simpl; [reflexivity|].
  pose proof (watch_state_scan_files root files w count) as H1.
  destruct (scan_files accepts log_limit w root files count) as [w1 c1]. cbn [fst] in H1.
  rewrite IH. exact H1.
Qed.

Lemma watch_tidy_same (w w' : MainWindow) :
  watch_state w' = watch_state w -> watch_tidy w -> watch_tidy w'.
Proof. unfold watch_state, watch_tidy. intros [= -> -> ->]. trivial. Qed.

Lemma watch_tidy_scan_folder (w : MainWindow) (folder : string)
    (walk : list (string * list string)) :
  watch_tidy w -> watch_tidy (_scan_folder accepts log_limit w folder walk).
Proof.
  intros H. unfold _scan_folder.
  pose proof (watch_state_scan_walk walk w 0%Z) as H1.
  destruct (scan_walk accepts log_limit w walk 0) as [w1 c1]. cbn [fst] in H1.
  assert (H2 : watch_tidy w1) by (apply (watch_tidy_same w); assumption).
  set (w2 := _log log_limit w1 _).
  assert (H3 : watch_tidy w2) by (apply (watch_tidy_same w1); [reflexivity | exact H2]).
  destruct (chk_watch w2) eqn:C; [|exact H3].
  unfold _watch_folder. destruct (bool_decide _); [exact H3|].
  destruct H3 as [Heq _]. split.
  - change (watcher w2 ∪ {[folder]} = watched w2 ∪ {[folder]}). rewrite Heq. reflexivity.
  - change (chk_watch w2 = false -> watched w2 ∪ {[folder]} = ∅). congruence.
Qed.

Lemma watch_state_start_conversion (w : MainWindow) (p : string) :
  watch_state (_start_conversion log_limit preset_args w p) = watch_state w.
Proof. unfold _start_conversion. destruct (get (items w) p); reflexivity. Qed.

Lemma watch_state_stop_one (w : MainWindow) (e : string * Meta) :
  watch_state (stop_one w e) = watch_state w.
Proof.
  unfold stop_one. destruct (worker (snd e)); [|reflexivity].
  destruct (get _ _); reflexivity.
Qed.

Lemma watch_tidy_handle (w : MainWindow) (ev : Event) :
  watch_tidy w -> watch_tidy (handle accepts log_limit preset_args w ev).
Proof.
  intros H.
  destruct ev as [path|folder walk|folder walk|state|text|path|which| |p|n| |p|p percent
                 |p ok outpath|text]; cbn [handle].
  - apply (watch_tidy_same w); [apply watch_state_add_file | exact H].
  - apply watch_tidy_scan_folder, H.
  - unfold _on_folder_changed. apply watch_tidy_scan_folder.
    apply (watch_tidy_same w); [reflexivity | exact H].
  - unfold _toggle_watch. destruct (state =? 0)%Z eqn:E.
    + destruct H as [Heq _]. split; cbn; [|reflexivity].
      rewrite Heq. apply difference_diag_L.
    + destruct H as [Heq _]. split; cbn; [exact Heq | discriminate].
  - apply (watch_tidy_same w); [reflexivity | exact H].
  - unfold browse_ffmpeg. destruct (Py.truthy path); [|exact H].
    apply (watch_tidy_same w); [reflexivity | exact H].
  - apply (watch_tidy_same w); [|exact H]. unfold start_all.
    set (w1 := set_ffprobe_path _ _). change (watch_state w) with (watch_state w1).
    destruct (map fst _) as [|q queue]; [reflexivity|].
    generalize (q :: queue). intros l. generalize w1.
    induction l as [|x l IH]; intros w2; simpl; [reflexivity|].
    rewrite IH. apply watch_state_start_conversion.
  - apply (watch_tidy_same w); [|exact H]. unfold stop_all.
    change (watch_state (_log log_limit ?x _)) with (watch_state x).
    generalize (items w). intros l. generalize w.
    induction l as [|x l IH]; intros w2; simpl; [reflexivity|].
    rewrite IH. apply watch_state_stop_one.
  - apply (watch_tidy_same w); [|exact H]. unfold _cancel_item.
    destruct (get (items w) p) as [m|] eqn:G; [|reflexivity].
    destruct (worker m); [reflexivity|]. unfold _remove_item. rewrite G. reflexivity.
  - apply (watch_tidy_same w); [reflexivity | exact H].
  - apply (watch_tidy_same w); [|exact H]. unfold _refresh_overall.
    destruct (List.length (items w)); reflexivity.
  - apply (watch_tidy_same w); [|exact H]. unfold _on_started.
    destruct (get (items w) p); reflexivity.
  - apply (watch_tidy_same w); [|exact H]. unfold _on_progress.
    destruct (get (items w) p); reflexivity.
  - apply (watch_tidy_same w); [|exact H]. unfold _on_finished.
    destruct (get (items w) p); [|reflexivity]. destruct ok; reflexivity.
  - apply (watch_tidy_same w); [reflexivity | exact H].
Qed.

(** X10: in every window reached from a fresh one, every directory that
    the file system watcher follows is in [self.watched], and while the box
    "Watch folders" is unchecked no directory is tracked or followed: a
    folder scanned while the box is unchecked is not watched later either. *)
Theorem nothing_watched_unchecked (ideal : Z) (ffmpeg ffprobe : string) (evs : list Event) :
  let w := run_events accepts log_limit preset_args (MainWindow_init ideal ffmpeg ffprobe) evs in
  watcher w ⊆ watched w /\
  (if chk_watch w then True else watched w = ∅ /\ watcher w = ∅).
Proof.
  cbv zeta.
  assert (H : watch_tidy (run_events accepts log_limit preset_args
                            (MainWindow_init ideal ffmpeg ffprobe) evs)).
  { assert (H0 : watch_tidy (MainWindow_init ideal ffmpeg ffprobe))
      by (split; reflexivity).
    revert H0. generalize (MainWindow_init ideal ffmpeg ffprobe).
    induction evs as [|ev rest IH]; intros w H; simpl; [exact H|].
    apply IH. destruct (deliverable w ev); [apply watch_tidy_handle|]; exact H. }
  destruct H as [H1 H2]. split; [rewrite H1; reflexivity|].
  destruct (chk_watch _); [exact I|]. rewrite H1. split; apply H2; reflexivity.
Qed.

End Watch.

(** ** The rows of the list and the widgets of the jobs *)

Lemma setValue_range (bar v : Z) :
  (0 <= bar <= 100)%Z -> (0 <= setValue bar v <= 100)%Z.
Proof.
  intros H. unfold setValue. destruct ((0 <=? v)%Z && (v <=? 100)%Z) eqn:E; [|exact H].
  apply andb_true_iff in E as [E1 E2]. apply Z.leb_le in E1, E2. lia.
Qed.

Lemma rows_replace (its : list (string * Meta)) (p : string) (m m' : Meta) :
  get its p = Some m -> item m' = item m -> rows_of (replace its p m') = rows_of its.
Proof.
  intros G Hi. induction its as [|[k m0] r IH]; simpl in *; [reflexivity|].
  destruct (String.eqb k p); simpl.
  - injection G as ->. rewrite Hi. reflexivity.
  - rewrite (IH G). reflexivity.
Qed.

Lemma replace_Forall_entry (Q : string * Meta -> Prop) (its : list (string * Meta))
    (p : string) (m' : Meta) :
  Forall Q its -> Q (p, m') -> Forall Q (replace its p m').
Proof.
  intros H Hm. induction its as [|[k m0] r IH]; simpl; [constructor|].
  apply Forall_cons in H as [H0 Hr].
  destruct (String.eqb k p) eqn:E; constructor; auto.
  apply String.eqb_eq in E. subst k. exact Hm.
Qed.

Lemma In_rows (its : list (string * Meta)) (p : string) (m : Meta) :
  get its p = Some m -> In (item m) (rows_of its).
Proof.
  intros G. apply get_In in G. apply (in_map (fun e => item (snd e)) _ _ G).
Qed.

(** Taking the item of a job out of the list leaves the rows of the
    registry without that job. *)
Lemma rows_pop (its : list (string * Meta)) (p : string) (m : Meta) :
  NoDup (rows_of its) -> get its p = Some m ->
  takeItem (rows_of its) (item m) = rows_of (pop its p).
Proof.
  induction its as [|[k m0] r IH]; simpl; [discriminate|].
  intros H G. apply NoDup_cons in H as [Hk Hr].
  destruct (String.eqb k p) eqn:E.
  - injection G as ->. rewrite Nat.eqb_refl. reflexivity.
  - destruct (Nat.eqb (item m0) (item m)) eqn:N.
    + apply Nat.eqb_eq in N. exfalso. apply Hk. rewrite N.
      apply list_elem_of_In, (In_rows r p m G).
    + simpl. rewrite (IH Hr G). reflexivity.
Qed.

Lemma rows_pop_incl (its : list (string * Meta)) (p : string) (x : nat) :
  In x (rows_of (pop its p)) -> In x (rows_of its).
Proof.
  induction its as [|[k m0] r IH]; simpl; [tauto|].
  destruct (String.eqb k p); simpl; [tauto|]. intros [H|H]; auto.
Qed.

Lemma rows_pop_NoDup (its : list (string * Meta)) (p : string) :
  NoDup (rows_of its) -> NoDup (rows_of (pop its p)).
Proof.
  induction its as [|[k m0] r IH]; simpl; [trivial|].
  intros H. apply NoDup_cons in H as [Hk Hr].
  destruct (String.eqb k p); simpl; [exact Hr|].
  apply NoDup_cons. split; [|apply IH, Hr].
  intros Hin. apply Hk. apply list_elem_of_In. apply list_elem_of_In in Hin.
  eapply rows_pop_incl, Hin.
Qed.

Lemma entry_tidy_more (c c' : nat) (e : string * Meta) :
  (c <= c')%nat -> entry_tidy c e -> entry_tidy c' e.
Proof. unfold entry_tidy. intros Hc (H1 & H2 & H3 & H4). repeat split; try tauto; lia. Qed.

Lemma tidy_get (w : MainWindow) (p : string) (m : Meta) :
  window_tidy w -> get (items w) p = Some m -> entry_tidy (created w) (p, m).
Proof.
  intros [H _] G. apply get_In in G. rewrite Forall_forall in H.
  apply H, list_elem_of_In, G.
Qed.

Lemma tidy_same (w w' : MainWindow) :
  items w' = items w -> list_widget w' = list_widget w -> created w' = created w ->
  window_tidy w -> window_tidy w'.
Proof. unfold window_tidy. intros -> -> ->. trivial. Qed.

(** A slot that replaces the entry of a job by one with the same list item,
    source and destination and a bar within range keeps the window tidy. *)
Lemma tidy_replace (w w' : MainWindow) (p : string) (m m' : Meta) :
  window_tidy w -> get (items w) p = Some m ->
  items w' = replace (items w) p m' ->
  list_widget w' = list_widget w -> created w' = created w ->
  item m' = item m -> src (widget m') = src (widget m) -> dst (widget m') = dst (widget m) ->
  (0 <= progress (widget m') <= 100)%Z ->
  window_tidy w'.
Proof.
  intros Ht G Hi Hl Hc Hitem Hsrc Hdst Hbar.
  pose proof (tidy_get w p m Ht G) as (E1 & E2 & E3 & E4). cbn [fst snd] in *.
  destruct Ht as (Hall & Hrows & Hnd).
  unfold window_tidy. rewrite Hi, Hl, Hc, (rows_replace _ p m m' G Hitem).
  split; [|auto].
  apply replace_Forall_entry; [exact Hall|].
  unfold entry_tidy. cbn [fst snd]. rewrite Hitem, Hsrc, Hdst. auto.
Qed.

Section Rows.
Context {P : Platform}.
Variable accepts : string -> bool.
Variable log_limit : Z.
Variable preset_args : list string.

Lemma tidy_add_file (w : MainWindow) (path : string) :
  window_tidy w -> window_tidy (_add_file accepts log_limit w path).
Proof.
  intros Ht. unfold _add_file. destruct (negb (accepts path)); [exact Ht|].
  destruct (contains _ _); [exact Ht|].
  destruct Ht as (Hall & Hrows & Hnd). unfold window_tidy. cbn.
  unfold rows_of in *. rewrite map_app. cbn. split; [|split].
  - apply Forall_app. split.
    + eapply Forall_impl; [exact Hall|]. intros e. apply entry_tidy_more. lia.
    + constructor; [|constructor]. unfold entry_tidy. cbn. repeat split; lia.
  - rewrite Hrows. reflexivity.
  - apply NoDup_app. split; [exact Hnd|]. split; [|apply NoDup_singleton].
    intros x Hx Hx'. apply list_elem_of_singleton in Hx'. subst x.
    apply list_elem_of_In, in_map_iff in Hx as (e & He & Hin).
    rewrite Forall_forall in Hall.
    destruct (Hall e (proj2 (list_elem_of_In _ _) Hin)) as (_ & _ & _ & Hlt). lia.
Qed.

Lemma tidy_scan_files (root : string) (files : list string) :
  forall w count, window_tidy w ->
    window_tidy (fst (scan_files accepts log_limit w root files count)).
Proof.
  induction files as [|fn rest IH]; intros w count H; simpl; [exact H|].
  destruct (accepts fn); apply IH; [apply tidy_add_file|]; exact H.
Qed.

Lemma tidy_scan_walk (walk : list (string * list string)) :
  forall w count, window_tidy w ->
    window_tidy (fst (scan_walk accepts log_limit w walk count)).
Proof.
  induction walk as [|[root files] rest IH]; intros w count H; simpl; [exact H|].
  pose proof (tidy_scan_files root files w count H) as H1.
  destruct (scan_files accepts log_limit w root files count) as [w1 c1]. apply IH, H1.
Qed.

Lemma tidy_scan_folder (w : MainWindow) (folder : string) (walk : list (string * list string)) :
  window_tidy w -> window_tidy (_scan_folder accepts log_limit w folder walk).
Proof.
  intros H. unfold _scan_folder.
  pose proof (tidy_scan_walk walk w 0%Z H) as H1.
  destruct (scan_walk accepts log_limit w walk 0) as [w1 c1]. cbn [fst] in H1.
  destruct (chk_watch _).
  - unfold _watch_folder. destruct (bool_decide _); revert H1; apply tidy_same; reflexivity.
  - revert H1. apply tidy_same; reflexivity.
Qed.

Lemma tidy_start_conversion (w : MainWindow) (p : string) :
  window_tidy w -> window_tidy (_start_conversion log_limit preset_args w p).
Proof.
  intros H. unfold _start_conversion. destruct (get (items w) p) as [m|] eqn:G; [|exact H].
  pose proof (tidy_get w p m H G) as (_ & _ & Hbar & _).
  eapply (tidy_replace w _ p m); try reflexivity; try exact H; try exact G. exact Hbar.
Qed.

Lemma tidy_stop_one (w : MainWindow) (e : string * Meta) :
  window_tidy w -> window_tidy (stop_one w e).
Proof.
  intros H. unfold stop_one. destruct (worker (snd e)) as [ref|]; [|exact H].
  set (w1 := set_workers w _).
  assert (H1 : window_tidy w1) by (revert H; apply tidy_same; reflexivity).
  destruct (get (items w1) (fst e)) as [m|] eqn:G; [|exact H1].
  pose proof (tidy_get w1 _ m H1 G) as (_ & _ & Hbar & _).
  eapply (tidy_replace w1 _ (fst e) m); try reflexivity; try exact H1; try exact G. exact Hbar.
Qed.

Lemma tidy_handle (w : MainWindow) (ev : Event) :
  window_tidy w -> window_tidy (handle accepts log_limit preset_args w ev).
Proof.
  intros H.
  destruct ev as [path|folder walk|folder walk|state|text|path|which| |p|n| |p|p percent
                 |p ok outpath|text]; cbn [handle].
  - apply tidy_add_file, H.
  - apply tidy_scan_folder, H.
  - unfold _on_folder_changed. apply tidy_scan_folder.
    revert H. apply tidy_same; reflexivity.
  - unfold _toggle_watch. destruct (state =? 0)%Z; revert H; apply tidy_same; reflexivity.
  - revert H. apply tidy_same; reflexivity.
  - unfold browse_ffmpeg. destruct (Py.truthy path); [|exact H].
    revert H. apply tidy_same; reflexivity.
  - unfold start_all. set (w1 := set_ffprobe_path _ _).
    assert (H1 : window_tidy w1) by (revert H; apply tidy_same; reflexivity).
    destruct (map fst _) as [|q queue]; [revert H1; apply tidy_same; reflexivity|].
    generalize (q :: queue). intros l. revert H1. generalize w1.
    induction l as [|x l IH]; intros w2 H2; simpl; [exact H2|].
    apply IH, tidy_start_conversion, H2.
  - unfold stop_all.
    assert (H1 : window_tidy (fold_left stop_one (items w) w)).
    { revert H. generalize (items w). intros l. revert w.
      induction l as [|x l IH]; intros w H; simpl; [exact H|].
      apply IH, tidy_stop_one, H. }
    revert H1. apply tidy_same; reflexivity.
  - unfold _cancel_item. destruct (get (items w) p) as [m|] eqn:G; [|exact H].
    pose proof (tidy_get w p m H G) as (_ & _ & Hbar & _).
    destruct (worker m) as [ref|].
    + eapply (tidy_replace w _ p m); try reflexivity; try exact H; try exact G. exact Hbar.
    + unfold _remove_item. rewrite G.
      destruct H as (Hall & Hrows & Hnd). unfold window_tidy. cbn.
      split; [apply pop_Forall, Hall|]. split; [|apply rows_pop_NoDup, Hnd].
      rewrite Hrows. apply rows_pop; assumption.
  - revert H. apply tidy_same; reflexivity.
  - unfold _refresh_overall. destruct (List.length (items w)); revert H;
      apply tidy_same; reflexivity.
  - unfold _on_started. destruct (get (items w) p) as [m|] eqn:G; [|exact H].
    pose proof (tidy_get w p m H G) as (_ & _ & Hbar & _).
    eapply (tidy_replace w _ p m); try reflexivity; try exact H; try exact G. exact Hbar.
  - unfold _on_progress. destruct (get (items w) p) as [m|] eqn:G; [|exact H].
    pose proof (tidy_get w p m H G) as (_ & _ & Hbar & _).
    eapply (tidy_replace w _ p m); try reflexivity; try exact H; try exact G.
    apply setValue_range, Hbar.
  - unfold _on_finished. destruct (get (items w) p) as [m|] eqn:G; [|exact H].
    pose proof (tidy_get w p m H G) as (_ & _ & Hbar & _).
    destruct ok.
    + eapply (tidy_replace w _ p m); try reflexivity; try exact H; try exact G.
      apply setValue_range, Hbar.
    + eapply (tidy_replace w _ p m); try reflexivity; try exact H; try exact G. exact Hbar.
  - revert H. apply tidy_same; reflexivity.
Qed.

Lemma tidy_run_events (evs : list Event) :
  forall w, window_tidy w -> window_tidy (run_events accepts log_limit preset_args w evs).
Proof.
  induction evs as [|ev rest IH]; intros w H; simpl; [exact H|].
  apply IH. destruct (deliverable w ev); [apply tidy_handle|]; exact H.
Qed.

Lemma reachable_tidy (w : MainWindow) :
  reachable accepts log_limit preset_args w -> window_tidy w.
Proof.
  intros (ideal & ffmpeg & ffprobe & evs & ->). apply tidy_run_events.
  repeat split; cbn; constructor.
Qed.

End Rows.

(** ** The workers of the running jobs *)

Lemma kill_at_nth (ws : list ConvertWorker.t) (i ref : nat) (wk : ConvertWorker.t) :
  nth_error ws ref = Some wk ->
  exists wk', nth_error (kill_at ws i) ref = Some wk' /\
              ConvertWorker.input_path wk' = ConvertWorker.input_path wk /\
              ConvertWorker.output_path wk' = ConvertWorker.output_path wk /\
              (ConvertWorker._cancel wk = true -> ConvertWorker._cancel wk' = true).
Proof.
  revert i ref. induction ws as [|x r IH]; intros i ref H; [destruct ref; discriminate|].
  destruct i, ref; simpl in *.
  - injection H as <-. eexists. repeat split.
  - exists wk. auto.
  - exists wk. auto.
  - apply IH, H.
Qed.

Lemma flag_at_kill_keeps (ws : list ConvertWorker.t) (i ref : nat) :
  flag_at ws ref = Some true -> flag_at (kill_at ws i) ref = Some true.
Proof.
  unfold flag_at. destruct (nth_error ws ref) as [wk|] eqn:E; [|discriminate].
  destruct (kill_at_nth ws i ref wk E) as (wk' & -> & _ & _ & Hc).
  cbn. intros [= H]. rewrite (Hc H). reflexivity.
Qed.

Lemma worker_matches_kill (ws : list ConvertWorker.t) (i : nat) (e : string * Meta) :
  worker_matches ws e -> worker_matches (kill_at ws i) e.
Proof.
  unfold worker_matches. destruct (worker (snd e)) as [ref|]; [|trivial].
  intros (wk & Hn & Hi & Ho).
  destruct (kill_at_nth ws i ref wk Hn) as (wk' & Hn' & Hi' & Ho' & _).
  exists wk'. rewrite Hi', Ho'. auto.
Qed.

Lemma worker_matches_more (ws : list ConvertWorker.t) (wk0 : ConvertWorker.t)
    (e : string * Meta) :
  worker_matches ws e -> worker_matches (ws ++ [wk0]) e.
Proof.
  unfold worker_matches. destruct (worker (snd e)) as [ref|]; [|trivial].
  intros (wk & Hn & Hi & Ho). exists wk. split; [|auto].
  rewrite nth_error_app1; [exact Hn|]. apply nth_error_Some. congruence.
Qed.

Lemma pool_get (w : MainWindow) (p : string) (m : Meta) :
  pool_tidy w -> get (items w) p = Some m -> worker_matches (workers w) (p, m).
Proof.
  intros H G. apply get_In in G. unfold pool_tidy in H. rewrite Forall_forall in H.
  apply H, list_elem_of_In, G.
Qed.

Lemma pool_same (w w' : MainWindow) :
  items w' = items w -> workers w' = workers w -> pool_tidy w -> pool_tidy w'.
Proof. unfold pool_tidy. intros -> ->. trivial. Qed.

(** A slot that replaces the entry of a job by one with the same worker and
    the same destination keeps the workers matched. *)
Lemma pool_replace (w w' : MainWindow) (p : string) (m m' : Meta) :
  pool_tidy w -> get (items w) p = Some m ->
  items w' = replace (items w) p m' -> workers w' = workers w ->
  worker m' = worker m \/ worker m' = None -> dst (widget m') = dst (widget m) ->
  pool_tidy w'.
Proof.
  intros Hp G Hi Hw Hwk Hd. pose proof (pool_get w p m Hp G) as Hm.
  unfold pool_tidy in *. rewrite Hi, Hw.
  apply replace_Forall_entry; [exact Hp|].
  unfold worker_matches in *. cbn [fst snd] in *.
  destruct Hwk as [-> | ->]; [|trivial]. rewrite Hd. exact Hm.
Qed.

Lemma pool_kill (w : MainWindow) (i : nat) :
  pool_tidy w -> pool_tidy (set_workers w (kill_at (workers w) i)).
Proof.
  unfold pool_tidy. cbn. intros H. eapply Forall_impl; [exact H|].
  intros e. apply worker_matches_kill.
Qed.

Section Pool.
Context {P : Platform}.
Variable accepts : string -> bool.
Variable log_limit : Z.
Variable preset_args : list string.

Lemma pool_add_file (w : MainWindow) (path : string) :
  pool_tidy w -> pool_tidy (_add_file accepts log_limit w path).
Proof.
  intros H. unfold _add_file. destruct (negb (accepts path)); [exact H|].
  destruct (contains _ _); [exact H|].
  unfold pool_tidy in *. cbn. apply Forall_app. split; [exact H|].
  constructor; [exact I | constructor].
Qed.

Lemma pool_scan_files (root : string) (files : list string) :
  forall w count, pool_tidy w ->
    pool_tidy (fst (scan_files accepts log_limit w root files count)).
Proof.
  induction files as [|fn rest IH]; intros w count H; simpl; [exact H|].
  destruct (accepts fn); apply IH; [apply pool_add_file|]; exact H.
Qed.

Lemma pool_scan_walk (walk : list (string * list string)) :
  forall w count, pool_tidy w ->
    pool_tidy (fst (scan_walk accepts log_limit w walk count)).
Proof.
  induction walk as [|[root files] rest IH]; intros w count H; simpl; [exact H|].
  pose proof (pool_scan_files root files w count H) as H1.
  destruct (scan_files accepts log_limit w root files count) as [w1 c1]. apply IH, H1.
Qed.

Lemma pool_scan_folder (w : MainWindow) (folder : string) (walk : list (string * list string)) :
  pool_tidy w -> pool_tidy (_scan_folder accepts log_limit w folder walk).
Proof.
  intros H. unfold _scan_folder.
  pose proof (pool_scan_walk walk w 0%Z H) as H1.
  destruct (scan_walk accepts log_limit w walk 0) as [w1 c1]. cbn [fst] in H1.
  destruct (chk_watch _).
  - unfold _watch_folder. destruct (bool_decide _); revert H1; apply pool_same; reflexivity.
  - revert H1. apply pool_same; reflexivity.
Qed.

Lemma pool_start_conversion (w : MainWindow) (p : string) :
  pool_tidy w -> pool_tidy (_start_conversion log_limit preset_args w p).
Proof.
  intros H. unfold _start_conversion. destruct (get (items w) p) as [m|] eqn:G; [|exact H].
  unfold pool_tidy in *. cbn.
  apply replace_Forall_entry.
  - eapply Forall_impl; [exact H|]. intros e. apply worker_matches_more.
  - unfold worker_matches. cbn. eexists. split.
    + rewrite nth_error_app2 by lia. rewrite Nat.sub_diag. reflexivity.
    + split; reflexivity.
Qed.

Lemma pool_stop_one (w : MainWindow) (e : string * Meta) :
  pool_tidy w -> pool_tidy (stop_one w e).
Proof.
  intros H. unfold stop_one. destruct (worker (snd e)) as [ref|]; [|exact H].
  pose proof (pool_kill w ref H) as H1. set (w1 := set_workers w _) in *.
  destruct (get (items w1) (fst e)) as [m|] eqn:G; [|exact H1].
  eapply (pool_replace w1 _ (fst e) m); try reflexivity; try exact H1; try exact G.
  left. reflexivity.
Qed.

Lemma pool_handle (w : MainWindow) (ev : Event) :
  pool_tidy w -> pool_tidy (handle accepts log_limit preset_args w ev).
Proof.
  intros H.
  destruct ev as [path|folder walk|folder walk|state|text|path|which| |p|n| |p|p percent
                 |p ok outpath|text]; cbn [handle].
  - apply pool_add_file, H.
  - apply pool_scan_folder, H.
  - unfold _on_folder_changed. apply pool_scan_folder.
    revert H. apply pool_same; reflexivity.
  - unfold _toggle_watch. destruct (state =? 0)%Z; revert H; apply pool_same; reflexivity.
  - revert H. apply pool_same; reflexivity.
  - unfold browse_ffmpeg. destruct (Py.truthy path); [|exact H].
    revert H. apply pool_same; reflexivity.
  - unfold start_all. set (w1 := set_ffprobe_path _ _).
    assert (H1 : pool_tidy w1) by (revert H; apply pool_same; reflexivity).
    destruct (map fst _) as [|q queue]; [revert H1; apply pool_same; reflexivity|].
    generalize (q :: queue). intros l. revert H1. generalize w1.
    induction l as [|x l IH]; intros w2 H2; simpl; [exact H2|].
    apply IH, pool_start_conversion, H2.
  - unfold stop_all.
    assert (H1 : pool_tidy (fold_left stop_one (items w) w)).
    { revert H. generalize (items w). intros l. revert w.
      induction l as [|x l IH]; intros w H; simpl; [exact H|].
      apply IH, pool_stop_one, H. }
    revert H1. apply pool_same; reflexivity.
  - unfold _cancel_item. destruct (get (items w) p) as [m|] eqn:G; [|exact H].
    destruct (worker m) as [ref|] eqn:W.
    + pose proof (pool_kill w ref H) as H1. set (w1 := set_workers w _) in *.
      eapply (pool_replace w1 _ p m); try reflexivity; try exact H1; try exact G.
      left. reflexivity.
    + unfold _remove_item. rewrite G. unfold pool_tidy in *. cbn. apply pop_Forall, H.
  - revert H. apply pool_same; reflexivity.
  - unfold _refresh_overall. destruct (List.length (items w)); revert H;
      apply pool_same; reflexivity.
  - unfold _on_started. destruct (get (items w) p) as [m|] eqn:G; [|exact H].
    eapply (pool_replace w _ p m); try reflexivity; try exact H; try exact G.
    left. reflexivity.
  - unfold _on_progress. destruct (get (items w) p) as [m|] eqn:G; [|exact H].
    eapply (pool_replace w _ p m); try reflexivity; try exact H; try exact G.
    left. reflexivity.
  - unfold _on_finished. destruct (get (items w) p) as [m|] eqn:G; [|exact H].
    destruct ok; eapply (pool_replace w _ p m); try reflexivity; try exact H; try exact G;
      right; reflexivity.
  - revert H. apply pool_same; reflexivity.
Qed.

Lemma pool_run_events (evs : list Event) :
  forall w, pool_tidy w -> pool_tidy (run_events accepts log_limit preset_args w evs).
Proof.
  induction evs as [|ev rest IH]; intros w H; simpl; [exact H|].
  apply IH. destruct (deliverable w ev); [apply pool_handle|]; exact H.
Qed.

Lemma reachable_pool (w : MainWindow) :
  reachable accepts log_limit preset_args w -> pool_tidy w.
Proof.
  intros (ideal & ffmpeg & ffprobe & evs & ->). apply pool_run_events. constructor.
Qed.

End Pool.

(** ** What the window shows of its jobs *)

Lemma substring_drop (n : nat) (s : string) :
  (String.substring 0 n s ++ Py.drop n s)%string = s.
Proof.
  revert s. induction n as [|k IH]; intros s.
  - destruct s; reflexivity.
  - destruct s as [|c r]; [reflexivity|].
    cbn [String.substring Py.drop]. rewrite append_cons, IH. reflexivity.
Qed.

(** The two parts of [os.path.splitext] put together give the path back. *)
Lemma splitext_parts (p : string) :
  (fst (Os.splitext p) ++ snd (Os.splitext p))%string = p.
Proof.
  unfold Os.splitext. destruct (_ && _); cbn [fst snd].
  - apply substring_drop.
  - apply append_empty_r.
Qed.

Lemma sum_progress_bounds (its : list (string * Meta)) :
  Forall (fun e => (0 <= progress (widget (snd e)) <= 100)%Z) its ->
  (0 <= sum_progress its <= 100 * Z.of_nat (List.length its))%Z.
Proof.
  induction 1 as [|e r He Hr IH]; [cbn; lia|].
  cbn [sum_progress fold_right List.length]. fold (sum_progress r). lia.
Qed.

Lemma average_range (its : list (string * Meta)) :
  its <> [] ->
  Forall (fun e => (0 <= progress (widget (snd e)) <= 100)%Z) its ->
  (0 <= average its)%Q /\ (average its <= 100)%Q.
Proof.
  intros Hne H. apply sum_progress_bounds in H.
  assert (Hn : (0 < Z.of_nat (List.length its))%Z) by (destruct its; [congruence | cbn; lia]).
  assert (Hq : (0 < inject_Z (Z.of_nat (List.length its)))%Q)
    by (rewrite (Zlt_Qlt 0) in Hn; exact Hn).
  unfold average. split.
  - apply Qle_shift_div_l; [exact Hq|]. rewrite Qmult_0_l.
    rewrite (Zle_Qle 0) in H. tauto.
  - apply Qle_shift_div_r; [exact Hq|].
    change 100%Q with (inject_Z 100). rewrite <- inject_Z_mult, <- Zle_Qle. tauto.
Qed.

Lemma tidy_bars (w : MainWindow) :
  window_tidy w -> Forall (fun e => (0 <= progress (widget (snd e)) <= 100)%Z) (items w).
Proof.
  intros [H _]. eapply Forall_impl; [exact H|]. intros e (_ & _ & Hb & _). exact Hb.
Qed.

Lemma rows_length (its : list (string * Meta)) : List.length (rows_of its) = List.length its.
Proof. unfold rows_of. apply length_map. Qed.

(** *** Stopping *)

Lemma stop_one_keys (w : MainWindow) (e : string * Meta) :
  map fst (items (stop_one w e)) = map fst (items w).
Proof.
  unfold stop_one. destruct (worker (snd e)) as [ref|]; [|reflexivity].
  cbn. destruct (get (items w) (fst e)); [apply replace_keys | reflexivity].
Qed.

Lemma stop_one_workers (w : MainWindow) (e : string * Meta) :
  workers (stop_one w e)
  = match worker (snd e) with Some ref => kill_at (workers w) ref | None => workers w end.
Proof.
  unfold stop_one. destruct (worker (snd e)) as [ref|]; [|reflexivity].
  cbn. destruct (get (items w) (fst e)); reflexivity.
Qed.

Lemma stop_one_other (w : MainWindow) (e : string * Meta) (q : string) :
  fst e <> q \/ worker (snd e) = None ->
  get (items (stop_one w e)) q = get (items w) q.
Proof.
  intros H. unfold stop_one. destruct (worker (snd e)) as [ref|]; [|reflexivity].
  destruct H as [H|H]; [|discriminate].
  cbn. destruct (get (items w) (fst e)); [|reflexivity].
  cbn. apply get_replace_other. congruence.
Qed.

Lemma stop_fold_keys (l : list (string * Meta)) :
  forall w, map fst (items (fold_left stop_one l w)) = map fst (items w).
Proof.
  induction l as [|e l IH]; intros w; simpl; [reflexivity|].
  rewrite IH. apply stop_one_keys.
Qed.

Lemma stop_fold_length (l : list (string * Meta)) :
  forall w, List.length (workers (fold_left stop_one l w)) = List.length (workers w).
Proof.
  induction l as [|e l IH]; intros w; simpl; [reflexivity|].
  rewrite IH, stop_one_workers. destruct (worker (snd e)); [apply kill_at_length | reflexivity].
Qed.

Lemma stop_fold_keeps (l : list (string * Meta)) (r : nat) :
  forall w, flag_at (workers w) r = Some true ->
            flag_at (workers (fold_left stop_one l w)) r = Some true.
Proof.
  induction l as [|e l IH]; intros w H; simpl; [exact H|].
  apply IH. rewrite stop_one_workers.
  destruct (worker (snd e)); [apply flag_at_kill_keeps, H | exact H].
Qed.

Lemma stop_fold_flags (l : list (string * Meta)) (e : string * Meta) (ref : nat) :
  forall w, In e l -> worker (snd e) = Some ref -> (ref < List.length (workers w))%nat ->
            flag_at (workers (fold_left stop_one l w)) ref = Some true.
Proof.
  induction l as [|x l IH]; intros w Hin Hw Hlt; simpl; [destruct Hin|].
  destruct Hin as [->|Hin].
  - apply stop_fold_keeps. rewrite stop_one_workers, Hw. apply kill_at_flag, Hlt.
  - apply IH; [exact Hin | exact Hw |].
    rewrite stop_one_workers. destruct (worker (snd x)); [rewrite kill_at_length|]; exact Hlt.
Qed.

Lemma stop_fold_idle (l : list (string * Meta)) (q : string) :
  forall w, (forall e, In e l -> fst e = q -> worker (snd e) = None) ->
            get (items (fold_left stop_one l w)) q = get (items w) q.
Proof.
  induction l as [|x l IH]; intros w H; simpl; [reflexivity|].
  rewrite IH by (intros e He; apply H; right; exact He).
  apply stop_one_other. destruct (String.eqb (fst x) q) eqn:E.
  - right. apply String.eqb_eq in E. apply H; [left; reflexivity | exact E].
  - left. apply String.eqb_neq, E.
Qed.

(** *** Scanning *)

Section Scan.
Context {P : Platform}.
Variable accepts : string -> bool.
Variable log_limit : Z.

Lemma scan_files_count (root : string) (files : list string) :
  forall w count,
    snd (scan_files accepts log_limit w root files count)
    = (count + Z.of_nat (List.length (List.filter accepts files)))%Z.
Proof.
  induction files as [|fn rest IH]; intros w count; simpl; [lia|].
  destruct (accepts fn); rewrite IH; cbn [List.length]; lia.
Qed.

Lemma scan_walk_count (walk : list (string * list string)) :
  forall w count,
    snd (scan_walk accepts log_limit w walk count)
    = (count + Z.of_nat (List.length (List.filter accepts (walked_files walk))))%Z.
Proof.
  unfold walked_files.
  induction walk as [|[root files] rest IH]; intros w count; simpl; [lia|].
  pose proof (scan_files_count root files w count) as H1.
  destruct (scan_files accepts log_limit w root files count) as [w1 c1]. cbn [snd] in H1.
  rewrite IH, H1, List.filter_app, length_app. lia.
Qed.

End Scan.

Section Shown.
Context {P : Platform}.
Variable accepts : string -> bool.
Variable log_limit : Z.
Variable preset_args : list string.

(** X11: in every window reached from a fresh one, the list widget shows
    exactly the list items of the jobs of the registry, in the order in which
    the jobs were registered, and no item twice: [_add_file] and
    [_remove_item], the only slots that touch the list, keep the two in
    step. *)
Theorem list_rows_mirror_registry (ideal : Z) (ffmpeg ffprobe : string) (evs : list Event) :
  let w := run_events accepts log_limit preset_args (MainWindow_init ideal ffmpeg ffprobe) evs in
  list_widget w = rows_of (items w) /\
  NoDup (list_widget w) /\
  List.length (list_widget w) = List.length (items w).
Proof.
  cbv zeta. set (w := run_events _ _ _ _ _).
  assert (H : window_tidy w).
  { apply (reachable_tidy accepts log_limit preset_args).
    exists ideal, ffmpeg, ffprobe, evs. reflexivity. }
  destruct H as (_ & Hrows & Hnd). rewrite Hrows. split; [reflexivity|].
  split; [exact Hnd | apply rows_length].
Qed.

(** X12: the widget of a job shows the key of the job as its source, and as
    its destination the key with its extension replaced by ".mp4"; so the
    destination of a source whose extension is already ".mp4" is the source
    itself. *)
Theorem destination_replaces_extension (w : MainWindow) (p : string) (m : Meta) :
  reachable accepts log_limit preset_args w ->
  get (items w) p = Some m ->
  src (widget m) = p /\
  dst (widget m) = (fst (Os.splitext p) ++ ".mp4")%string /\
  (snd (Os.splitext p) = ".mp4" -> dst (widget m) = p).
Proof.
  intros Hr G. apply reachable_tidy in Hr.
  destruct (tidy_get w p m Hr G) as (Hs & Hd & _). cbn [fst snd] in *.
  split; [exact Hs|]. split; [exact Hd|].
  intros He. rewrite Hd, <- He. apply splitext_parts.
Qed.

(** X13: on a registry that is not empty, the mean of the bars that
    [_refresh_overall] computes lies between 0 and 100, so the overall bar
    accepts it: after the call the overall bar shows the integer part of the
    mean, whatever it showed before. *)
Theorem overall_bar_follows_mean (w : MainWindow) :
  reachable accepts log_limit preset_args w ->
  items w <> [] ->
  (0 <= average (items w))%Q /\ (average (items w) <= 100)%Q /\
  overall (_refresh_overall w) = Py.trunc (average (items w)) /\
  (0 <= overall (_refresh_overall w) <= 100)%Z.
Proof.
  intros Hr Hne. apply reachable_tidy in Hr.
  destruct (average_range (items w) Hne (tidy_bars w Hr)) as [H0 H1].
  pose proof (trunc_range _ H0 H1) as Ht.
  assert (E : overall (_refresh_overall w) = Py.trunc (average (items w))).
  { unfold _refresh_overall. destruct (items w) as [|e r] eqn:Ei; [congruence|].
    cbn [List.length overall set_lbl_overall set_overall]. unfold setValue.
    destruct Ht as [Ha Hb]. apply Z.leb_le in Ha, Hb. rewrite Ha, Hb. reflexivity. }
  rewrite E. auto.
Qed.

(** X14: the worker of a running job is a worker of the window that reads
    the key of the job and writes the key with its extension replaced by
    ".mp4", which is the destination that the widget of the job shows. *)
Theorem worker_converts_its_job (w : MainWindow) (p : string) (m : Meta) (ref : nat) :
  reachable accepts log_limit preset_args w ->
  get (items w) p = Some m ->
  worker m = Some ref ->
  exists wk, nth_error (workers w) ref = Some wk /\
             ConvertWorker.input_path wk = p /\
             ConvertWorker.output_path wk = (fst (Os.splitext p) ++ ".mp4")%string /\
             ConvertWorker.output_path wk = dst (widget m).
Proof.
  intros Hr G Hw.
  pose proof (reachable_tidy accepts log_limit preset_args w Hr) as Ht.
  pose proof (reachable_pool accepts log_limit preset_args w Hr) as Hp.
  destruct (tidy_get w p m Ht G) as (_ & Hd & _). cbn [fst snd] in Hd.
  pose proof (pool_get w p m Hp G) as Hm. unfold worker_matches in Hm.
  cbn [fst snd] in Hm. rewrite Hw in Hm. destruct Hm as (wk & Hn & Hi & Ho).
  exists wk. rewrite Ho, Hd. auto.
Qed.

(** X15: [stop_all] sets the cancel flag of the worker of every job that has
    one, and does no more than that: no job is added or removed, the job
    stays running until its worker reports, and a job without a worker is
    left exactly as it is. *)
Theorem stop_all_flags_every_worker (w : MainWindow) (p : string) (m : Meta) (ref : nat) :
  reachable accepts log_limit preset_args w ->
  get (items w) p = Some m ->
  worker m = Some ref ->
  let w' := stop_all log_limit w in
  flag_at (workers w') ref = Some true /\
  status_at w' p = Some Running /\
  map fst (items w') = map fst (items w) /\
  (forall q idle, get (items w) q = Some idle -> worker idle = None ->
                  get (items w') q = Some idle).
Proof.
  intros Hr G Hw. cbv zeta.
  pose proof (reachable_ok accepts log_limit preset_args w Hr) as Hok.
  destruct (meta_ok_worker _ m ref (window_ok_get w p m Hok G) Hw) as [Hst Hlt].
  unfold stop_all.
  change (workers (_log log_limit ?x _)) with (workers x).
  change (items (_log log_limit ?x _)) with (items x).
  change (status_at (_log log_limit ?x _) p) with (status_at x p).
  split; [|split; [|split]].
  - apply (stop_fold_flags (items w) (p, m) ref); [apply get_In, G | exact Hw | exact Hlt].
  - pose proof (stop_all_status log_limit w p) as Hs. unfold stop_all in Hs.
    change (status_at (_log log_limit ?x _) p) with (status_at x p) in Hs.
    rewrite Hs. unfold status_at. rewrite G. cbn. rewrite Hst. reflexivity.
  - apply stop_fold_keys.
  - intros q idle Gq Hi. rewrite stop_fold_idle; [exact Gq|].
    intros [k mk] He Hk. cbn [fst snd] in *. subst k.
    destruct Hok as [Hnd _]. rewrite (In_get _ _ _ Hnd He) in Gq. congruence.
Qed.

(** X16: the number that [_scan_folder] reports is the number of walked
    files whose name passes the test of the scan, whatever the registry
    holds: a file that is already registered, and is therefore not added
    again, is counted all the same. *)
Theorem scan_count_ignores_registry (w : MainWindow) (walk : list (string * list string)) :
  snd (scan_walk accepts log_limit w walk 0)
  = Z.of_nat (List.length (List.filter accepts (walked_files walk))) /\
  snd (scan_walk accepts log_limit (fst (scan_walk accepts log_limit w walk 0)) walk 0)
  = snd (scan_walk accepts log_limit w walk 0).
Proof.
  rewrite !scan_walk_count. split; reflexivity.
Qed.

(** X17: after [_scan_folder], every walked file whose name passes the test
    of the scan and whose joined path passes the test of [_add_file] has a
    job under its absolute path, and every job that was there before is
    still there. *)
Theorem scan_registers_accepted_files (w : MainWindow) (folder root fn : string)
    (files : list string) (walk : list (string * list string)) :
  In (root, files) walk -> In fn files ->
  accepts fn = true -> accepts (Os.join root fn) = true ->
  let w' := _scan_folder accepts log_limit w folder walk in
  contains (items w') (abspath (Os.join root fn)) = true /\
  (forall k, contains (items w) k = true -> contains (items w') k = true).
Proof.
  intros Hd Hf A1 A2. cbv zeta. rewrite scan_folder_items. split.
  - pose proof (scan_walk_settles accepts log_limit walk w 0%Z) as H.
    rewrite Forall_forall in H. specialize (H _ (proj2 (list_elem_of_In _ _) Hd)).
    cbn [fst snd] in H. unfold settled in H. rewrite Forall_forall in H.
    apply (H fn (proj2 (list_elem_of_In _ _) Hf) A1 A2).
  - intros k. apply scan_walk_keeps.
Qed.

End Shown.

Lemma destination_replaces_extension_witness :
  let w := universal_events universal_window [AddFile "/videos/a.mp4"] in
  let m := snd (fresh_entry universal_window "/videos/a.mp4") in
  src (widget m) = "/videos/a.mp4" /\
  dst (widget m) = (fst (Os.splitext "/videos/a.mp4") ++ ".mp4")%string /\
  (snd (Os.splitext "/videos/a.mp4") = ".mp4" -> dst (widget m) = "/videos/a.mp4").
Proof.
  apply (@destination_replaces_extension example_platform universal_accepts 8000
           universal_preset _ "/videos/a.mp4" _
           (universal_reachable [AddFile "/videos/a.mp4"])).
  reflexivity.
Defined.

Lemma overall_bar_follows_mean_witness :
  let w := universal_events universal_window three_jobs in
  (0 <= average (items w))%Q /\ (average (items w) <= 100)%Q /\
  overall (_refresh_overall w) = Py.trunc (average (items w)) /\
  (0 <= overall (_refresh_overall w) <= 100)%Z.
Proof.
  apply (@overall_bar_follows_mean example_platform universal_accepts 8000 universal_preset
           _ (universal_reachable three_jobs)).
  vm_compute. discriminate.
Defined.

Lemma worker_converts_its_job_witness :
  let w := universal_events universal_window three_started in
  exists wk, nth_error (workers w) 1 = Some wk /\
             ConvertWorker.input_path wk = "/videos/b.mkv" /\
             ConvertWorker.output_path wk = (fst (Os.splitext "/videos/b.mkv") ++ ".mp4")%string /\
             ConvertWorker.output_path wk
             = dst (FileItemWidget_init "/videos/b.mkv" "/videos/b.mp4").
Proof.
  apply (@worker_converts_its_job example_platform universal_accepts 8000 universal_preset
           (universal_events universal_window three_started) "/videos/b.mkv"
           {| widget := setText (FileItemWidget_init "/videos/b.mkv" "/videos/b.mp4") TxtStarting;
              item := 1; worker := Some 1%nat; status := Running |} 1
           (universal_reachable three_started)); reflexivity.
Defined.

Lemma stop_all_flags_every_worker_witness :
  let w := universal_events universal_window three_jobs in
  let w' := stop_all 8000 w in
  flag_at (workers w') 0 = Some true /\
  status_at w' "/videos/a.avi" = Some Running /\
  map fst (items w') = map fst (items w) /\
  (forall q idle, get (items w) q = Some idle -> worker idle = None ->
                  get (items w') q = Some idle).
Proof.
  eapply (@stop_all_flags_every_worker example_platform universal_accepts 8000 universal_preset
            (universal_events universal_window three_jobs) "/videos/a.avi" _ 0
            (universal_reachable three_jobs)); vm_compute; reflexivity.
Defined.

Lemma scan_registers_accepted_files_witness :
  let w' := @_scan_folder example_platform universal_accepts 8000 universal_window "/videos"
              [("/videos", ["a.avi"; "notes.txt"])] in
  contains (items w') (@abspath example_platform (Os.join "/videos" "a.avi")) = true /\
  (forall k, contains (items universal_window) k = true -> contains (items w') k = true).
Proof.
  apply (@scan_registers_accepted_files example_platform universal_accepts 8000
           universal_window "/videos" "/videos" "a.avi" ["a.avi"; "notes.txt"]
           [("/videos", ["a.avi"; "notes.txt"])]).
  - left. reflexivity.
  - left. reflexivity.
  - reflexivity.
  - reflexivity.
Defined.
